(** * SensorGate: the publish pipeline and the historical query engine

    A shallow embedding of the data-path code of the gateway
    (app/services/pubsub.py, app/services/mock_pubsub.py,
    app/models/history.py, app/services/influxdb.py and the endpoints of
    app/api/history.py that drive them), with the properties of its
    specification stated and proved over that embedding.

    Conventions.
    - Python integers are [Z] (unbounded on both sides).
    - A reading of the wall clock ([time.time()]) is an explicit input of
      the function that reads it, in [Z] ticks; [recovery_timeout] is in
      the same unit.  Only the order and the difference of readings are
      used by the code.
    - A Python callable that may raise is a function into [PyResult];
      a callable with effects on something outside the object at hand
      threads a world [W]: [W -> PyResult E A * W]. *)

From Stdlib Require Import ZArith QArith Lia Ascii String.
From stdpp Require Import base option list strings gmap fin_maps pretty.

Local Open Scope Z_scope.

(** ** Outcomes of Python calls *)

Inductive PyResult (E A : Type) : Type :=
| Returned (a : A)
| Raised (e : E).
Arguments Returned {E A} a.
Arguments Raised {E A} e.

Definition is_returned {E A} (r : PyResult E A) : bool :=
  match r with Returned _ => true | Raised _ => false end.

(** ** app/services/pubsub.py: [CircuitBreaker] *)

Module Breaker.

Inductive CircuitBreakerState : Type := CLOSED | OPEN | HALF_OPEN.

#[global] Instance CircuitBreakerState_eq_dec : EqDecision CircuitBreakerState.
Proof. solve_decision. Defined.

Record CircuitBreaker : Type := mkCircuitBreaker {
  failure_threshold : Z;
  recovery_timeout : Z;
  failure_count : Z;
  last_failure_time : option Z;   (* None is Python's None *)
  state : CircuitBreakerState
}.

(** [CircuitBreaker.__init__] *)
Definition init (failure_threshold recovery_timeout : Z) : CircuitBreaker :=
  {| failure_threshold := failure_threshold;
     recovery_timeout := recovery_timeout;
     failure_count := 0;
     last_failure_time := None;
     state := CLOSED |}.

Definition set_state (self : CircuitBreaker) (s : CircuitBreakerState) : CircuitBreaker :=
  {| failure_threshold := failure_threshold self;
     recovery_timeout := recovery_timeout self;
     failure_count := failure_count self;
     last_failure_time := last_failure_time self;
     state := s |}.

(** [_should_attempt_reset]: [now] is the value of [time.time()]; the
    conjunction is short-circuit, which does not show in the result. *)
Definition _should_attempt_reset (self : CircuitBreaker) (now : Z) : bool :=
  match last_failure_time self with
  | None => false
  | Some t => recovery_timeout self <=? now - t
  end.

(** [_on_success] *)
Definition _on_success (self : CircuitBreaker) : CircuitBreaker :=
  {| failure_threshold := failure_threshold self;
     recovery_timeout := recovery_timeout self;
     failure_count := 0;
     last_failure_time := last_failure_time self;
     state := CLOSED |}.

(** [_on_failure]: [now] is the value of [time.time()]. *)
Definition _on_failure (self : CircuitBreaker) (now : Z) : CircuitBreaker :=
  let count := failure_count self + 1 in
  {| failure_threshold := failure_threshold self;
     recovery_timeout := recovery_timeout self;
     failure_count := count;
     last_failure_time := Some now;
     state := if failure_threshold self <=? count then OPEN else state self |}.

(** The two places where one [call] may read the clock. *)
Record ClockReads : Type := mkClockReads {
  at_check : Z;     (* read by [_should_attempt_reset] *)
  at_failure : Z    (* read by [_on_failure] *)
}.

(** What [call] raises: its own [Exception("Circuit breaker is OPEN")],
    or the exception of the wrapped function, re-raised as it is. *)
Inductive CallError (E : Type) : Type :=
| CircuitIsOpen
| Propagated (e : E).
Arguments CircuitIsOpen {E}.
Arguments Propagated {E} e.

(** First statement of [call]: [None] stands for the [raise]. *)
Definition entry_check (self : CircuitBreaker) (now : Z) : option CircuitBreaker :=
  match state self with
  | OPEN =>
      if _should_attempt_reset self now
      then Some (set_state self HALF_OPEN)
      else None
  | _ => Some self
  end.

(** [call(func, *args, **kwargs)]; the arguments are already applied to
    [func], which runs on the world [w]. *)
Definition call {W E A : Type} (self : CircuitBreaker) (clk : ClockReads)
    (func : W -> PyResult E A * W) (w : W)
  : PyResult (CallError E) A * CircuitBreaker * W :=
  match entry_check self (at_check clk) with
  | None => (Raised CircuitIsOpen, self, w)
  | Some self1 =>
      match func w with
      | (Returned result, w') => (Returned result, _on_success self1, w')
      | (Raised e, w') => (Raised (Propagated e), _on_failure self1 (at_failure clk), w')
      end
  end.

(** A sequence of calls on one breaker: the outcome and the breaker after
    each call, and the world at the end. *)
Fixpoint run {W E A : Type} (self : CircuitBreaker)
    (calls : list (ClockReads * (W -> PyResult E A * W))) (w : W)
  : list (PyResult (CallError E) A * CircuitBreaker) * W :=
  match calls with
  | [] => ([], w)
  | (clk, func) :: rest =>
      let '(r, self', w') := call self clk func w in
      let '(tr, w'') := run self' rest w' in
      ((r, self') :: tr, w'')
  end.

(** The breaker after a sequence of calls. *)
Definition final (self : CircuitBreaker)
    {E A : Type} (tr : list (PyResult (CallError E) A * CircuitBreaker)) : CircuitBreaker :=
  default self (last (map snd tr)).

(** Number of moves from CLOSED to OPEN along a sequence of states. *)
Fixpoint count_opens (ss : list CircuitBreakerState) : nat :=
  match ss with
  | s1 :: ((s2 :: _) as tl) =>
      (match s1, s2 with CLOSED, OPEN => 1 | _, _ => 0 end + count_opens tl)%nat
  | _ => 0%nat
  end.

(** A wrapped function that raises whatever the world. *)
Definition always_raises {W E A : Type} (func : W -> PyResult E A * W) : Prop :=
  ∀ w, ∃ e w', func w = (Raised e, w').

(** Breakers that the code can produce: built by [__init__], then used
    through [call] only. *)
Inductive reachable : CircuitBreaker -> Prop :=
| reachable_init N T : reachable (init N T)
| reachable_call (W E A : Type) self clk (func : W -> PyResult E A * W) w :
    reachable self -> reachable (call self clk func w).1.2.

End Breaker.

(** ** Python values that travel through the data path *)

Module Py.

(** The values found in a reading dictionary and in a store record: [None],
    [int], [float], [Decimal], [str] and [datetime].  A float and a Decimal
    are kept as the rational they stand for, a datetime as its instant. *)
Inductive PyVal : Type :=
| VNone
| VInt (z : Z)
| VFloat (q : Q)
| VDecimal (q : Q)
| VStr (s : string)
| VDatetime (t : Z).

(** The exceptions of the built-in conversions and look-ups. *)
Inductive PyExn : Type := ValueError | TypeError | KeyError | IndexError.

(** How Python reads a numeral out of a string is not spelled out here:
    [float(s)] and [int(s)] are taken as given, [None] meaning ValueError. *)
Class Parsers : Type := {
  float_of_str : string -> option Q;
  int_of_str : string -> option Z;
  (* what pydantic makes of a value that is not a datetime, in a field
     declared as datetime ([None]: it refuses the value) *)
  datetime_of_other : PyVal -> option Z
}.

(** Likewise for the text that Python prints: [dt.isoformat()] and the
    [str] of a float, as they appear inside an f-string. *)
Class Printers : Type := {
  isoformat : Z -> string;
  str_float : Q -> string
}.

(** The double quote and the newline, as one-character strings. *)
Definition dq : string :=
  String (Ascii false true false false false true false false) EmptyString.

Definition nl : string :=
  String (Ascii false true false true false false false false) EmptyString.

(** [s] between double quotes *)
Definition quoted (s : string) : string := dq +:+ s +:+ dq.

(** [float(v)] *)
Definition py_float {parsers : Parsers} (v : PyVal) : PyResult PyExn Q :=
  match v with
  | VNone => Raised TypeError
  | VInt z => Returned (inject_Z z)
  | VFloat q => Returned q
  | VDecimal q => Returned q
  | VStr s => match float_of_str s with Some q => Returned q | None => Raised ValueError end
  | VDatetime _ => Raised TypeError
  end.

(** [int(v)]: truncation toward zero on a float or a Decimal. *)
Definition py_int {parsers : Parsers} (v : PyVal) : PyResult PyExn Z :=
  match v with
  | VNone => Raised TypeError
  | VInt z => Returned z
  | VFloat q => Returned (Z.quot (Qnum q) (Z.pos (Qden q)))
  | VDecimal q => Returned (Z.quot (Qnum q) (Z.pos (Qden q)))
  | VStr s => match int_of_str s with Some z => Returned z | None => Raised ValueError end
  | VDatetime _ => Raised TypeError
  end.

(** Truth value of [v] in [if v], [not v], [v or d]. *)
Definition truthy (v : PyVal) : bool :=
  match v with
  | VNone => false
  | VInt z => negb (z =? 0)
  | VFloat q => negb (Qeq_bool q 0)
  | VDecimal q => negb (Qeq_bool q 0)
  | VStr s => negb (String.eqb s "")
  | VDatetime _ => true
  end.

(** [v or d] *)
Definition py_or (v d : PyVal) : PyVal := if truthy v then v else d.

(** [v1 == v2], as a dict compares keys: numbers by value across the
    numeric types, the rest by kind and content. *)
Definition py_eqb (v1 v2 : PyVal) : bool :=
  match v1, v2 with
  | VNone, VNone => true
  | VInt a, VInt b => a =? b
  | VInt a, (VFloat b | VDecimal b) => Qeq_bool (inject_Z a) b
  | (VFloat a | VDecimal a), VInt b => Qeq_bool a (inject_Z b)
  | (VFloat a | VDecimal a), (VFloat b | VDecimal b) => Qeq_bool a b
  | VStr a, VStr b => String.eqb a b
  | VDatetime a, VDatetime b => a =? b
  | _, _ => false
  end.

(** [d.get(key)] and [d.get(key, dflt)] on a [Dict[str, Any]] *)
Definition dict_get (d : gmap string PyVal) (key : string) : PyVal :=
  default VNone (d !! key).

Definition dict_get_default (d : gmap string PyVal) (key : string) (dflt : PyVal) : PyVal :=
  default dflt (d !! key).

(** [key in d] *)
Definition dict_has (d : gmap string PyVal) (key : string) : bool :=
  bool_decide (is_Some (d !! key)).

(** [json.dumps(d, default=str)]: what each value is written as.  An int
    and a float are JSON numbers, a str is a JSON string, [None] is null;
    a Decimal and a datetime are not serialisable and go through
    [default=str], which writes the string [str(v)] (kept as [JTextOf v]). *)
Inductive JsonToken : Type :=
| JNull
| JNumInt (z : Z)
| JNumReal (q : Q)
| JText (s : string)
| JTextOf (v : PyVal).

Definition json_token (v : PyVal) : JsonToken :=
  match v with
  | VNone => JNull
  | VInt z => JNumInt z
  | VFloat q => JNumReal q
  | VStr s => JText s
  | VDecimal _ | VDatetime _ => JTextOf v
  end.

(** The message body: the JSON object that [json.dumps(...).encode('utf-8')]
    spells out, one token per key. *)
Definition json_dumps (d : gmap string PyVal) : gmap string JsonToken :=
  json_token <$> d.

(** [s.split('/')[-1]] *)
Fixpoint last_segment_from (acc s : string) : string :=
  match s with
  | EmptyString => acc
  | String c s' =>
      if Ascii.eqb c "/"%char then last_segment_from "" s'
      else last_segment_from (acc +:+ String c "") s'
  end.

Definition last_segment (s : string) : string := last_segment_from "" s.

(** [needle in hay] on strings *)
Fixpoint contains (needle hay : string) : bool :=
  String.prefix needle hay ||
  match hay with
  | EmptyString => false
  | String _ hay' => contains needle hay'
  end.

End Py.

(** Sequencing of calls that may raise: [x ← r; k] runs [k] on what [r]
    returned, and raises what [r] raised. *)
#[global] Instance PyResult_bind {E : Type} : MBind (PyResult E) :=
  λ A B k r, match r with Returned a => k a | Raised e => Raised e end.

(** ** app/services/mock_pubsub.py *)

Module MockPubSub.
Import Py.

(** [MockPubSubMessage]; [attributes] is the empty dict throughout. *)
Record MockPubSubMessage : Type := mkMessage {
  message_id : string;
  topic : string;
  data : gmap string JsonToken;
  timestamp : Z
}.

(** [topic_path(project_id, topic_name)] *)
Definition topic_path (project_id topic_name : string) : string :=
  "projects/" +:+ project_id +:+ "/topics/" +:+ topic_name.

Record MockPublisherClient : Type := mkClient {
  client_project_id : string;
  published_messages : gmap string (list MockPubSubMessage);
  message_counter : Z;
  max_messages_per_topic : Z
}.

(** [s or "mock-project"] on the project id of the settings *)
Definition project_or_mock (gcp_project_id : string) : string :=
  if String.eqb gcp_project_id "" then "mock-project" else gcp_project_id.

(** [MockPublisherClient.__init__] *)
Definition client_init (gcp_project_id : string) : MockPublisherClient :=
  {| client_project_id := project_or_mock gcp_project_id;
     published_messages := ∅;
     message_counter := 0;
     max_messages_per_topic := 1000 |}.

(** The two clock readings of one [publish]. *)
Record MockClock : Type := mkMockClock {
  time_time : Z;      (* int(time.time()) *)
  datetime_now : Z    (* datetime.now(UTC) *)
}.

(** [published_messages[topic_name]] on the defaultdict(list) *)
Definition buffer (self : MockPublisherClient) (topic_name : string)
  : list MockPubSubMessage :=
  default [] (published_messages self !! topic_name).

(** [MockPublisherClient.publish]; the result is the id that the returned
    [MockFuture] gives back from [result()].  [pop(0)] raises IndexError on
    an empty list. *)
Definition publish (self : MockPublisherClient) (clock : MockClock)
    (topic_path : string) (data : gmap string JsonToken)
  : PyResult PyExn string * MockPublisherClient :=
  let topic_name := last_segment topic_path in
  let counter := message_counter self + 1 in
  let message_id := "mock-msg-" +:+ pretty (time_time clock) +:+ "-" +:+ pretty counter in
  let message :=
    {| message_id := message_id; topic := topic_name; data := data;
       timestamp := datetime_now clock |} in
  let buf := buffer self topic_name in
  let store (b : list MockPubSubMessage) :=
    {| client_project_id := client_project_id self;
       published_messages := <[topic_name := b]> (published_messages self);
       message_counter := counter;
       max_messages_per_topic := max_messages_per_topic self |} in
  if max_messages_per_topic self <=? Z.of_nat (length buf) then
    match buf with
    | [] => (Raised IndexError, store [])
    | _ :: rest => (Returned message_id, store (rest ++ [message]))
    end
  else (Returned message_id, store (buf ++ [message])).

(** [clear_messages(topic_name)] *)
Definition clear_messages (self : MockPublisherClient) (topic_name : option string)
  : MockPublisherClient :=
  {| client_project_id := client_project_id self;
     published_messages :=
       match topic_name with
       | Some t =>
           if String.eqb t "" then ∅ else <[t := []]> (published_messages self)
       | None => ∅
       end;
     message_counter := message_counter self;
     max_messages_per_topic := max_messages_per_topic self |}.

(** One operation of the client, and a run of them from the fresh client. *)
Inductive ClientOp : Type :=
| OpPublish (clock : MockClock) (topic_path : string) (data : gmap string JsonToken)
| OpClear (topic_name : option string).

Definition client_step (self : MockPublisherClient) (op : ClientOp) : MockPublisherClient :=
  match op with
  | OpPublish clock path d => (publish self clock path d).2
  | OpClear t => clear_messages self t
  end.

Definition client_run (self : MockPublisherClient) (ops : list ClientOp)
  : MockPublisherClient :=
  foldl client_step self ops.

(** The invariant of the buffers: the cap is the one set by [__init__],
    and no topic holds more messages than the cap. *)
Definition buffers_bounded (c : MockPublisherClient) : Prop :=
  max_messages_per_topic c = 1000 ∧
  ∀ t, (length (buffer c t) <= 1000)%nat.

(** [MockPubSubService]; its [MockCircuitBreaker] holds the constant state
    name "CLOSED" and its [call] applies the function, so it is left out of
    the record. *)
Record MockPubSubService : Type := mkMockService {
  project_id : string;
  topic_mapping : gmap string string;
  client : MockPublisherClient
}.

(** [MockPubSubService.get_topic_path] *)
Definition get_topic_path (self : MockPubSubService) (sensor_type : string)
  : PyResult PyExn string :=
  match topic_mapping self !! sensor_type with
  | None => Raised ValueError
  | Some topic_name =>
      if String.eqb topic_name "" then Raised ValueError
      else Returned (topic_path (project_id self) topic_name)
  end.

(** [MockCircuitBreaker.call] *)
Definition mock_call {S E A : Type} (func : S -> PyResult E A * S) (s : S)
  : PyResult E A * S := func s.

(** [MockPubSubService._publish_message] *)
Definition _publish_message (self : MockPubSubService) (clock : MockClock)
    (topic_path : string) (message_data : gmap string JsonToken)
  : PyResult PyExn string * MockPubSubService :=
  let '(r, c) := publish (client self) clock topic_path message_data in
  (r, {| project_id := project_id self; topic_mapping := topic_mapping self; client := c |}).

(** [MockPubSubService.publish_sensor_data] *)
Definition publish_sensor_data (self : MockPubSubService) (clock : MockClock)
    (sensor_type : string) (data : gmap string PyVal)
  : PyResult PyExn string * MockPubSubService :=
  match get_topic_path self sensor_type with
  | Raised e => (Raised e, self)
  | Returned path =>
      let message_data := json_dumps data in
      mock_call (λ s, _publish_message s clock path message_data) self
  end.

End MockPubSub.

(** ** app/services/pubsub.py: the retry decorator and [PubSubService] *)

Module PubSub.
Import Py.

(** The exception classes that the transport may raise, as far as the
    retry policy tells them apart. *)
Inductive TransportError : Type :=
| ServiceUnavailable
| DeadlineExceeded
| InternalServerError
| OtherError (name : string).

(** [retry_if_exception_type((ServiceUnavailable, DeadlineExceeded,
    InternalServerError))] *)
Definition is_transient (e : TransportError) : bool :=
  match e with
  | ServiceUnavailable | DeadlineExceeded | InternalServerError => true
  | OtherError _ => false
  end.

(** [wait_exponential(multiplier, min, max)] at a given attempt number *)
Definition wait_exponential (multiplier min max : Z) (attempt_number : nat) : Z :=
  Z.max (Z.max 0 min) (Z.min (multiplier * 2 ^ (Z.of_nat attempt_number - 1)) max).

(** What a function decorated with tenacity's [retry] raises: the
    exception of the wrapped function as it is, or the library's own
    [RetryError], which holds the last attempt. *)
Inductive RetryExn (E : Type) : Type :=
| RetryError (last_attempt : E)
| Unretried (e : E).
Arguments RetryError {E} last_attempt.
Arguments Unretried {E} e.

(** The loop of the decorator (tenacity's [Retrying.__call__]), for
    [stop_after_attempt(stop_after)]: [left] is [stop_after -
    attempt_number].  An outcome that the retry predicate does not select is
    handed back as it is; when the attempts are used up, the library raises
    the exception of the last attempt if the [reraise] option is set, and
    its [RetryError] otherwise.  The result carries the list of the back-off
    delays slept between the attempts. *)
Fixpoint attempt_loop {W E A : Type} (retry_on : E -> bool) (wait : nat -> Z)
    (reraise : bool) (stop_after left : nat) (fn : W -> PyResult E A * W) (w : W)
  : PyResult (RetryExn E) A * list Z * W :=
  match fn w with
  | (Returned result, w') => (Returned result, [], w')
  | (Raised e, w') =>
      if retry_on e then
        match left with
        | O => (Raised (if reraise then Unretried e else RetryError e), [], w')
        | S left' =>
            let '(r, delays, w'') :=
              attempt_loop retry_on wait reraise stop_after left' fn w' in
            (r, wait (stop_after - left)%nat :: delays, w'')
        end
      else (Raised (Unretried e), [], w')
  end.

Definition max_attempts : nat := 3.

(** The delays slept before the attempts that follow [n] failed ones, when
    [left] attempts remain after them. *)
Fixpoint streak_delays (wait : nat -> Z) (stop_after n left : nat) : list Z :=
  match n with
  | O => []
  | S n' => wait (stop_after - (n + left))%nat :: streak_delays wait stop_after n' left
  end.

(** [@retry(stop=stop_after_attempt(3), wait=wait_exponential(multiplier=1,
    min=1, max=10), retry=retry_if_exception_type(...))]; [reraise] is not
    passed and has the library's default, [False]. *)
Definition retry {W A : Type} (fn : W -> PyResult TransportError A * W) (w : W)
  : PyResult (RetryExn TransportError) A * list Z * W :=
  attempt_loop is_transient (wait_exponential 1 1 10) false
    max_attempts (max_attempts - 1) fn w.

(** A run of attempts of [fn] that all raise a transient error: [n]
    attempts lead from world [w] to world [w']. *)
Inductive transient_streak {W A : Type} (fn : W -> PyResult TransportError A * W)
  : nat -> W -> W -> Prop :=
| streak_nil w : transient_streak fn 0 w w
| streak_cons n w e w1 w' :
    fn w = (Raised e, w1) -> is_transient e = true ->
    transient_streak fn n w1 w' ->
    transient_streak fn (S n) w w'.

(** The service object: in real mode it owns a circuit breaker, in mock
    mode the mock service ([using_mock] tells which). *)
Inductive Backend : Type :=
| RealBackend (circuit_breaker : Breaker.CircuitBreaker)
| MockBackend (_mock_service : MockPubSub.MockPubSubService).

Record PubSubService : Type := mkService {
  project_id : string;
  topic_mapping : gmap string string;
  backend : Backend
}.

Definition using_mock (self : PubSubService) : bool :=
  match backend self with MockBackend _ => true | RealBackend _ => false end.

(** The real publisher client, seen from the service: [publish(topic_path,
    message_data)] followed by [future.result(timeout)], on the world [W]
    of the message bus. *)
Definition Transport (W : Type) : Type :=
  string -> gmap string JsonToken -> W -> PyResult TransportError string * W.

(** A transport that also writes down what it is handed. *)
Definition recording {W : Type} (client : Transport W)
  : Transport (list (string * gmap string JsonToken) * W) :=
  λ topic_path message_data lw,
    let '(r, w') := client topic_path message_data lw.2 in
    (r, (lw.1 ++ [(topic_path, message_data)], w')).

(** What [publish_sensor_data] raises. *)
Inductive PublishExn : Type :=
| NoTopicMapping                       (* ValueError of get_topic_path *)
| Conversion (e : PyExn)               (* of int() / float() in the transform *)
| FromBreaker (e : Breaker.CallError (RetryExn TransportError))
| FromMock (e : PyExn).

(** Clock readings of one [publish_sensor_data]. *)
Record Env : Type := mkEnv {
  clk : Breaker.ClockReads;
  utcnow_iso : string;                 (* datetime.utcnow().isoformat() *)
  mock_clock : MockPubSub.MockClock
}.

(** [get_topic_path]; the real client's [topic_path] has the format that
    the mock repeats. *)
Definition get_topic_path (self : PubSubService) (sensor_type : string)
  : PyResult PublishExn string :=
  match topic_mapping self !! sensor_type with
  | None => Raised NoTopicMapping
  | Some topic_name =>
      if String.eqb topic_name "" then Raised NoTopicMapping
      else
        match backend self with
        | MockBackend m =>
            match MockPubSub.get_topic_path m sensor_type with
            | Returned p => Returned p
            | Raised _ => Raised NoTopicMapping
            end
        | RealBackend _ => Returned (MockPubSub.topic_path (project_id self) topic_name)
        end
  end.

(** [_transform_data_for_avro_schema] *)
Definition _transform_data_for_avro_schema {parsers : Parsers} (utcnow_iso : string)
    (data : gmap string PyVal) : PyResult PyExn (gmap string PyVal) :=
  let timestamp_str :=
    match dict_get data "timestamp" with
    | VStr s => s
    | _ => utcnow_iso +:+ "Z"
    end in
  device_id ← py_int (dict_get_default data "device_id" (VInt 0)) ;
  let sensor_type := dict_get_default data "sensor_type" (VStr "") in
  value ← py_float (dict_get_default data "value" (VFloat 0)) ;
  latitude ← py_float (dict_get_default data "latitude" (VFloat 0)) ;
  longitude ← py_float (dict_get_default data "longitude" (VFloat 0)) ;
  Returned
    (<["device_id" := VInt device_id]>
     (<["sensor_type" := sensor_type]>
      (<["value" := VFloat value]>
       (<["latitude" := VFloat latitude]>
        (<["longitude" := VFloat longitude]>
         (<["timestamp" := VStr timestamp_str]> ∅)))))).

(** The wire schema, for a payload built from the reading [data]: device_id
    is the integer that [int] makes of the reading's, value, latitude and
    longitude are the floats that [float] makes of the reading's, and
    timestamp is a string, the reading's own when that is a string and the
    current UTC time in ISO format otherwise. *)
Definition wire_schema {parsers : Parsers} (data : gmap string PyVal) (utcnow_iso : string)
    (payload : gmap string JsonToken) : Prop :=
  (∃ z, py_int (dict_get_default data "device_id" (VInt 0)) = Returned z ∧
        payload !! "device_id" = Some (JNumInt z)) ∧
  (∃ q, py_float (dict_get_default data "value" (VFloat 0)) = Returned q ∧
        payload !! "value" = Some (JNumReal q)) ∧
  (∃ q, py_float (dict_get_default data "latitude" (VFloat 0)) = Returned q ∧
        payload !! "latitude" = Some (JNumReal q)) ∧
  (∃ q, py_float (dict_get_default data "longitude" (VFloat 0)) = Returned q ∧
        payload !! "longitude" = Some (JNumReal q)) ∧
  payload !! "timestamp" =
    Some (JText match dict_get data "timestamp" with
                | VStr s => s
                | _ => utcnow_iso +:+ "Z"
                end).

(** The body of [_publish_message], under the decorator. *)
Definition _publish_message_body {W : Type} (self : PubSubService) (client : Transport W)
    (topic_path : string) (message_data : gmap string JsonToken) (w : W)
  : PyResult TransportError string * W :=
  if using_mock self then (Returned "mock-message-id", w)
  else client topic_path message_data w.

(** [_publish_message], decorated. *)
Definition _publish_message {W : Type} (self : PubSubService) (client : Transport W)
    (topic_path : string) (message_data : gmap string JsonToken) (w : W)
  : PyResult (RetryExn TransportError) string * list Z * W :=
  retry (_publish_message_body self client topic_path message_data) w.

Definition with_breaker (self : PubSubService) (cb : Breaker.CircuitBreaker) : PubSubService :=
  {| project_id := project_id self; topic_mapping := topic_mapping self;
     backend := RealBackend cb |}.

Definition with_mock (self : PubSubService) (m : MockPubSub.MockPubSubService) : PubSubService :=
  {| project_id := project_id self; topic_mapping := topic_mapping self;
     backend := MockBackend m |}.

(** [publish_sensor_data] *)
Definition publish_sensor_data {parsers : Parsers} {W : Type} (self : PubSubService) (env : Env)
    (client : Transport W) (sensor_type : string) (data : gmap string PyVal) (w : W)
  : PyResult PublishExn string * PubSubService * W :=
  match backend self with
  | MockBackend m =>
      let '(r, m') := MockPubSub.publish_sensor_data m (mock_clock env) sensor_type data in
      (match r with Returned id => Returned id | Raised e => Raised (FromMock e) end,
       with_mock self m', w)
  | RealBackend cb =>
      match get_topic_path self sensor_type with
      | Raised e => (Raised e, self, w)
      | Returned topic_path =>
          match _transform_data_for_avro_schema (utcnow_iso env) data with
          | Raised e => (Raised (Conversion e), self, w)
          | Returned transformed_data =>
              let message_data := json_dumps transformed_data in
              let '(r, cb', w') :=
                Breaker.call cb (clk env)
                  (λ w0, let '(r, _, w1) := _publish_message self client topic_path message_data w0
                         in (r, w1)) w in
              (match r with Returned id => Returned id | Raised e => Raised (FromBreaker e) end,
               with_breaker self cb', w')
          end
      end
  end.

End PubSub.

(** ** app/models/sensor.py and app/models/history.py *)

Module History.
Import Py.

Inductive SensorType : Type := TEMPERATURE | HUMIDITY | NDIR.

#[global] Instance SensorType_eq_dec : EqDecision SensorType.
Proof. solve_decision. Defined.

(** [member.value] *)
Definition sensor_type_value (t : SensorType) : string :=
  match t with
  | TEMPERATURE => "temperature"
  | HUMIDITY => "humidity"
  | NDIR => "ndir"
  end.

(** [SensorType(v)]: the member whose value is [v]; [None] is ValueError. *)
Definition SensorType_of (v : PyVal) : option SensorType :=
  match v with
  | VStr s =>
      if String.eqb s "temperature" then Some TEMPERATURE
      else if String.eqb s "humidity" then Some HUMIDITY
      else if String.eqb s "ndir" then Some NDIR
      else None
  | _ => None
  end.

Inductive AggregationType : Type := MEAN | MIN | MAX | COUNT | SUM | FIRST | LAST.

(** [HistoryQueryParams]; a datetime is its instant, a float the rational
    it stands for.  The same record holds the arguments given to the
    constructor and, when validation succeeds, the validated model. *)
Record HistoryQueryParams : Type := mkParams {
  start_time : Z;
  end_time : Z;
  sensor_type : option SensorType;
  device_id : option Z;
  latitude_min : option Q;
  latitude_max : option Q;
  longitude_min : option Q;
  longitude_max : option Q;
  aggregation : option AggregationType
}.

(** [Field(..., gt=0)] on an optional int *)
Definition field_gt0 (v : option Z) : bool :=
  match v with Some d => 0 <? d | None => true end.

(** [Field(..., ge=lo, le=hi)] on an optional float *)
Definition field_between (lo hi : Q) (v : option Q) : bool :=
  match v with Some x => Qle_bool lo x && Qle_bool x hi | None => true end.

(** [validate_time_range]: [data_start] is [info.data.get('start_time')],
    [None] when the key is not in [info.data]. *)
Definition validate_time_range (v : Z) (data_start : option Z) : PyResult string Z :=
  match data_start with
  | Some start => if v <=? start then Raised "end_time must be after start_time"
                  else Returned v
  | None => Returned v
  end.

(** [validate_latitude_range] and [validate_longitude_range]: [data_min]
    is [None] when the key is not in [info.data], and [Some None] when it is
    there with the value [None]. *)
Definition validate_range (message : string) (v : option Q) (data_min : option (option Q))
  : PyResult string (option Q) :=
  match v, data_min with
  | Some x, Some (Some m) => if Qle_bool x m then Raised message else Returned v
  | _, _ => Returned v
  end.

Definition validate_latitude_range :=
  validate_range "latitude_max must be greater than latitude_min".

Definition validate_longitude_range :=
  validate_range "longitude_max must be greater than longitude_min".

(** One field of the model: its constraint, then its validator, the latter
    only when the constraint holds; the error is kept under the field name. *)
Definition constrained {A : Type} (name : string) (ok : bool)
    (validator : PyResult string A) : list (string * string) :=
  if ok then
    match validator with
    | Returned _ => []
    | Raised message => [(name, message)]
    end
  else [(name, "constraint")].

(** [HistoryQueryParams(...)]: the fields are validated in the order of
    their declaration; a field that failed is missing from [info.data] for
    the validators that follow; the errors of all the fields make up the
    ValidationError. *)
Definition HistoryQueryParams_init (args : HistoryQueryParams)
  : PyResult (list (string * string)) HistoryQueryParams :=
  let data_start := Some (start_time args) in
  let lat_min_ok := field_between (-90) 90 (latitude_min args) in
  let data_lat_min := if lat_min_ok then Some (latitude_min args) else None in
  let lon_min_ok := field_between (-180) 180 (longitude_min args) in
  let data_lon_min := if lon_min_ok then Some (longitude_min args) else None in
  let errors :=
    constrained "end_time" true (validate_time_range (end_time args) data_start) ++
    constrained "device_id" (field_gt0 (device_id args)) (Returned (device_id args)) ++
    constrained "latitude_min" lat_min_ok (Returned (latitude_min args)) ++
    constrained "latitude_max" (field_between (-90) 90 (latitude_max args))
      (validate_latitude_range (latitude_max args) data_lat_min) ++
    constrained "longitude_min" lon_min_ok (Returned (longitude_min args)) ++
    constrained "longitude_max" (field_between (-180) 180 (longitude_max args))
      (validate_longitude_range (longitude_max args) data_lon_min) in
  match errors with
  | [] => Returned args
  | _ => Raised errors
  end.



End History.

(** ** app/services/influxdb.py *)

Module Influx.
Import Py History.

(** A row of a query result ([FluxRecord]): the index of its table and its
    columns.  [record[key]] raises KeyError on a missing column. *)
Record FluxRecord : Type := mkRecord {
  table : Z;
  values : gmap string PyVal
}.

Definition get_item (r : FluxRecord) (key : string) : PyResult PyExn PyVal :=
  match values r !! key with
  | Some v => Returned v
  | None => Raised KeyError
  end.

(** [record.get_value()] and [record.get_time()] *)
Definition get_value (r : FluxRecord) : PyResult PyExn PyVal := get_item r "_value".
Definition get_time (r : FluxRecord) : PyResult PyExn PyVal := get_item r "_time".

(** What the store raises: a ValueError (which the endpoints report as a
    validation failure) or anything else. *)
Inductive StoreExn : Type := StoreValueError | StoreFailure.

(** [query_api.query(query, org=...)]: the tables, each a list of records,
    on the world [W] of the store. *)
Definition Store (W : Type) : Type :=
  string -> W -> PyResult StoreExn (list (list FluxRecord)) * W.

(** A store that also writes down the queries it is given. *)
Definition recording_store {W : Type} (store : Store W) : Store (list string * W) :=
  λ query lw,
    let '(r, w') := store query lw.2 in
    (r, (lw.1 ++ [query], w')).

Record InfluxDBService : Type := mkInflux {
  bucket : string;
  org : string
}.



Definition filter_eq (column value : string) : string :=
  "|> filter(fn: (r) => r[" +:+ quoted column +:+ "] == " +:+ quoted value +:+ ")".




(** [if params.sensor_type:] and [if params.device_id:] *)
Definition sensor_type_truthy (t : option SensorType) : bool :=
  match t with
  | Some st => negb (String.eqb (sensor_type_value st) "")
  | None => false
  end.







(** What the query methods raise: the store's exception, or the one of a
    conversion that no handler inside the method catches. *)
Inductive QueryExn : Type :=
| FromStore (e : StoreExn)
| FromRow (e : PyExn).












(** [sensor_filter] of the device queries *)
Definition sensor_filter (sensor_type : option SensorType) : string :=
  match sensor_type with
  | Some st =>
      if sensor_type_truthy (Some st) then filter_eq "sensor_type" (sensor_type_value st)
      else ""
  | None => ""
  end.

(** The query of [get_device_list] *)
Definition device_list_query (self : InfluxDBService) (sensor_filter : string) : string :=
  String.concat nl
    ["";
     "import " +:+ dq +:+ "experimental/aggregate" +:+ dq;
     "";
     "devices = from(bucket: " +:+ dq +:+ bucket self +:+ dq +:+ ")";
     "  |> range(start: -30d)";
     "  |> filter(fn: (r) => r[" +:+ dq +:+ "_measurement" +:+ dq +:+ "] == " +:+ dq +:+ "sensor_data" +:+ dq +:+ ")";
     "  " +:+ sensor_filter;
     "  |> group(columns: [" +:+ dq +:+ "device_id" +:+ dq +:+ "])";
     "  |> aggregate.rate(every: 30d, unit: 1h)";
     "  |> group()";
     "  |> keep(columns: [" +:+ dq +:+ "device_id" +:+ dq +:+ "])";
     "  |> distinct(column: " +:+ dq +:+ "device_id" +:+ dq +:+ ")";
     "";
     "devices";
     ""].

(** The query of [_get_device_info]: four pipelines over the rows of one
    device (sensor types, windowed count, first and last row tagged by
    [stat], last location). *)
Definition device_info_query (self : InfluxDBService) (device_id : Z)
    (sensor_filter : string) : string :=
  String.concat nl
    ["";
     "device_data = from(bucket: " +:+ dq +:+ bucket self +:+ dq +:+ ")";
     "  |> range(start: -30d)";
     "  |> filter(fn: (r) => r[" +:+ dq +:+ "_measurement" +:+ dq +:+ "] == " +:+ dq +:+ "sensor_data" +:+ dq +:+ ")";
     "  |> filter(fn: (r) => r[" +:+ dq +:+ "device_id" +:+ dq +:+ "] == " +:+ dq +:+ pretty device_id +:+ dq +:+ ")";
     "  " +:+ sensor_filter;
     "";
     "sensor_types = device_data";
     "  |> keep(columns: [" +:+ dq +:+ "sensor_type" +:+ dq +:+ "])";
     "  |> distinct(column: " +:+ dq +:+ "sensor_type" +:+ dq +:+ ")";
     "";
     "stats = device_data";
     "  |> filter(fn: (r) => r[" +:+ dq +:+ "_field" +:+ dq +:+ "] == " +:+ dq +:+ "value" +:+ dq +:+ ")";
     "  |> group(columns: [" +:+ dq +:+ "device_id" +:+ dq +:+ "])";
     "  |> aggregateWindow(every: 30d, fn: count)";
     "  |> yield(name: " +:+ dq +:+ "count" +:+ dq +:+ ")";
     "";
     "first_last = device_data";
     "  |> filter(fn: (r) => r[" +:+ dq +:+ "_field" +:+ dq +:+ "] == " +:+ dq +:+ "value" +:+ dq +:+ ")  ";
     "  |> group(columns: [" +:+ dq +:+ "device_id" +:+ dq +:+ "])";
     "  |> first()";
     "  |> set(key: " +:+ dq +:+ "stat" +:+ dq +:+ ", value: " +:+ dq +:+ "first" +:+ dq +:+ ")";
     "  |> union(tables: [";
     "      device_data";
     "      |> filter(fn: (r) => r[" +:+ dq +:+ "_field" +:+ dq +:+ "] == " +:+ dq +:+ "value" +:+ dq +:+ ")";
     "      |> group(columns: [" +:+ dq +:+ "device_id" +:+ dq +:+ "])";
     "      |> last()";
     "      |> set(key: " +:+ dq +:+ "stat" +:+ dq +:+ ", value: " +:+ dq +:+ "last" +:+ dq +:+ ")";
     "  ])";
     "";
     "location = device_data";
     "  |> filter(fn: (r) => r[" +:+ dq +:+ "_field" +:+ dq +:+ "] == " +:+ dq +:+ "latitude" +:+ dq +:+ " or r[" +:+ dq +:+ "_field" +:+ dq +:+ "] == " +:+ dq +:+ "longitude" +:+ dq +:+ ")";
     "  |> group(columns: [" +:+ dq +:+ "device_id" +:+ dq +:+ "])";
     "  |> last()";
     "  |> pivot(rowKey: [" +:+ dq +:+ "_time" +:+ dq +:+ "], columnKey: [" +:+ dq +:+ "_field" +:+ dq +:+ "], valueColumn: " +:+ dq +:+ "_value" +:+ dq +:+ ")";
     ""].

(** The local variables of [_get_device_info] that the loop over the rows
    fills: the facets of the device. *)
Record Facets : Type := mkFacets {
  sensor_types : list SensorType;
  total_measurements : Z;
  first_seen : PyVal;
  last_seen : PyVal;
  last_location : Q * Q       (* latitude, longitude *)
}.

Definition no_facets : Facets :=
  {| sensor_types := []; total_measurements := 0;
     first_seen := VNone; last_seen := VNone; last_location := (0, 0)%Q |}.

(** One turn of the inner loop: the chain of [if]/[elif] on the row. *)
Definition fold_record {parsers : Parsers} (table_name : Z) (acc : Facets) (r : FluxRecord)
  : PyResult PyExn Facets :=
  if dict_has (values r) "sensor_type" then
    match SensorType_of (dict_get (values r) "sensor_type") with
    | Some st =>
        Returned {| sensor_types := sensor_types acc ++ [st];
                    total_measurements := total_measurements acc;
                    first_seen := first_seen acc; last_seen := last_seen acc;
                    last_location := last_location acc |}
    | None => Returned acc
    end
  else if py_eqb (dict_get (values r) "stat") (VStr "first") then
    t ← get_time r;
    Returned {| sensor_types := sensor_types acc;
                total_measurements := total_measurements acc;
                first_seen := t; last_seen := last_seen acc;
                last_location := last_location acc |}
  else if py_eqb (dict_get (values r) "stat") (VStr "last") then
    t ← get_time r;
    Returned {| sensor_types := sensor_types acc;
                total_measurements := total_measurements acc;
                first_seen := first_seen acc; last_seen := t;
                last_location := last_location acc |}
  else if py_eqb (dict_get (values r) "_field") (VStr "value")
          && contains "count" (pretty table_name) then
    v ← get_value r;
    n ← py_int (py_or v (VInt 0));
    Returned {| sensor_types := sensor_types acc;
                total_measurements := total_measurements acc + n;
                first_seen := first_seen acc; last_seen := last_seen acc;
                last_location := last_location acc |}
  else if dict_has (values r) "latitude" && dict_has (values r) "longitude" then
    la ← py_float (dict_get_default (values r) "latitude" (VFloat 0));
    lo ← py_float (dict_get_default (values r) "longitude" (VFloat 0));
    Returned {| sensor_types := sensor_types acc;
                total_measurements := total_measurements acc;
                first_seen := first_seen acc; last_seen := last_seen acc;
                last_location := (la, lo) |}
  else Returned acc.

Fixpoint fold_records {parsers : Parsers} (table_name : Z) (acc : Facets) (rows : list FluxRecord)
  : PyResult PyExn Facets :=
  match rows with
  | [] => Returned acc
  | r :: rest => acc' ← fold_record table_name acc r; fold_records table_name acc' rest
  end.

(** The outer loop; [table_name] is the table index of the first row of the
    table, 0 for a table without rows. *)
Fixpoint fold_tables {parsers : Parsers} (acc : Facets) (tables : list (list FluxRecord))
  : PyResult PyExn Facets :=
  match tables with
  | [] => Returned acc
  | records :: rest =>
      let table_name := match records with r0 :: _ => table r0 | [] => 0 end in
      acc' ← fold_records table_name acc records;
      fold_tables acc' rest
  end.

Record DeviceInfo : Type := mkDeviceInfo {
  info_device_id : Z;
  info_sensor_types : list SensorType;
  info_first_seen : Z;
  info_last_seen : Z;
  info_total_measurements : Z;
  info_last_location : Q * Q
}.

(** A datetime field of a pydantic model. *)
Definition as_datetime {parsers : Parsers} (v : PyVal) : option Z :=
  match v with
  | VDatetime t => Some t
  | _ => datetime_of_other v
  end.

(** The end of [_get_device_info], after the loop: [None] is the Python
    [None], returned by the test on the three facets or by the handler that
    catches a validation failure of [DeviceInfo(...)].  [list(set(...))]
    keeps one of each sensor type; the order a set lists them in is not
    modelled. *)
Definition device_info_of {parsers : Parsers} (device_id : Z) (f : Facets) : option DeviceInfo :=
  if bool_decide (sensor_types f = []) || negb (truthy (first_seen f))
     || negb (truthy (last_seen f))
  then None
  else
    first ← as_datetime (first_seen f);
    last ← as_datetime (last_seen f);
    Some {| info_device_id := device_id;
            info_sensor_types := remove_dups (sensor_types f);
            info_first_seen := first;
            info_last_seen := last;
            info_total_measurements := total_measurements f;
            info_last_location := last_location f |}.

(** [_get_device_info]: whatever is raised inside is caught, and [None]
    returned. *)
Definition _get_device_info {parsers : Parsers} {W : Type} (self : InfluxDBService)
    (store : Store W) (device_id : Z) (sensor_type_filter : option SensorType) (w : W)
  : option DeviceInfo * W :=
  let query := device_info_query self device_id (sensor_filter sensor_type_filter) in
  match store query w with
  | (Raised _, w') => (None, w')
  | (Returned tables, w') =>
      match fold_tables no_facets tables with
      | Raised _ => (None, w')
      | Returned f => (device_info_of device_id f, w')
      end
  end.

(** The first loop of [get_device_list]: the ids of the rows whose
    device_id is not empty. *)
Fixpoint listed_device_ids {parsers : Parsers} (rows : list FluxRecord) : PyResult PyExn (list Z) :=
  match rows with
  | [] => Returned []
  | r :: rest =>
      let device_id := dict_get (values r) "device_id" in
      if truthy device_id then
        d ← py_int device_id; ids ← listed_device_ids rest; Returned (d :: ids)
      else listed_device_ids rest
  end.

(** The second loop: one [_get_device_info] per id, kept when it is not
    [None]. *)
Fixpoint collect_devices {parsers : Parsers} {W : Type} (self : InfluxDBService) (store : Store W)
    (sensor_type : option SensorType) (device_ids : list Z) (w : W)
  : list DeviceInfo * W :=
  match device_ids with
  | [] => ([], w)
  | device_id :: rest =>
      let '(device_info, w1) := _get_device_info self store device_id sensor_type w in
      let '(devices, w2) := collect_devices self store sensor_type rest w1 in
      (match device_info with Some info => info :: devices | None => devices end, w2)
  end.

(** The same loop, keeping for each id the world in which its
    [_get_device_info] ran and what it returned. *)
Fixpoint device_runs {parsers : Parsers} {W : Type} (self : InfluxDBService) (store : Store W)
    (sensor_type : option SensorType) (device_ids : list Z) (w : W)
  : list (Z * W * option DeviceInfo) :=
  match device_ids with
  | [] => []
  | device_id :: rest =>
      let '(device_info, w1) := _get_device_info self store device_id sensor_type w in
      (device_id, w, device_info) :: device_runs self store sensor_type rest w1
  end.

(** [get_device_list] *)
Definition get_device_list {parsers : Parsers} {W : Type} (self : InfluxDBService) (store : Store W)
    (sensor_type : option SensorType) (w : W)
  : PyResult QueryExn (list DeviceInfo) * W :=
  match store (device_list_query self (sensor_filter sensor_type)) w with
  | (Raised e, w1) => (Raised (FromStore e), w1)
  | (Returned tables, w1) =>
      match listed_device_ids (concat tables) with
      | Raised e => (Raised (FromRow e), w1)
      | Returned device_ids =>
          let '(devices, w2) := collect_devices self store sensor_type device_ids w1 in
          (Returned devices, w2)
      end
  end.

End Influx.

(** ** app/api/history.py: the two endpoints that build [HistoryQueryParams] *)

Module Api.
Import Py History Influx.

Inductive HTTPException : Type :=
| HTTP_422_UNPROCESSABLE_ENTITY
| HTTP_500_INTERNAL_SERVER_ERROR.

(** Which handler of the endpoint an exception of the service lands in:
    [except ValueError] or [except Exception]. *)
Definition is_value_error (e : QueryExn) : bool :=
  match e with
  | FromStore StoreValueError | FromRow ValueError => true
  | _ => false
  end.

Definition with_aggregation (args : HistoryQueryParams) (a : option AggregationType)
  : HistoryQueryParams :=
  {| start_time := start_time args; end_time := end_time args;
     sensor_type := sensor_type args; device_id := device_id args;
     latitude_min := latitude_min args; latitude_max := latitude_max args;
     longitude_min := longitude_min args; longitude_max := longitude_max args;
     aggregation := a |}.

(** [get_historical_data]: [query] is the [query_historical_data] method of
    the injected service, on the world of the store; the response is the
    list of points with its length.  The constructor is not given an
    aggregation, which then has its default. *)
Definition get_historical_data {W R : Type}
    (query : HistoryQueryParams -> W -> PyResult QueryExn (list R) * W)
    (args : HistoryQueryParams) (w : W)
  : PyResult HTTPException (list R * nat) * W :=
  match HistoryQueryParams_init (with_aggregation args (Some MEAN)) with
  | Raised _ => (Raised HTTP_422_UNPROCESSABLE_ENTITY, w)
  | Returned query_params =>
      match query query_params w with
      | (Returned data_points, w') => (Returned (data_points, length data_points), w')
      | (Raised e, w') =>
          (Raised (if is_value_error e then HTTP_422_UNPROCESSABLE_ENTITY
                   else HTTP_500_INTERNAL_SERVER_ERROR), w')
      end
  end.


End Api.

(** ** The state of a circuit breaker between two calls *)

Module BreakerState.
Import Breaker.

(** What holds of a breaker constructed with threshold [N] and timeout [T]
    whenever no call is in progress. *)
Definition settled (N T : Z) (self : CircuitBreaker) : Prop :=
  failure_threshold self = N ∧
  recovery_timeout self = T ∧
  state self ≠ HALF_OPEN ∧
  0 <= failure_count self ∧
  (state self = OPEN -> N <= failure_count self ∧ is_Some (last_failure_time self)) ∧
  (state self = CLOSED -> failure_count self = 0 ∨ failure_count self < N) ∧
  (last_failure_time self = None -> failure_count self = 0).

End BreakerState.

(** ** app/services/auth.py, and the flag that the root endpoint of
    app/main.py reports *)

Module Auth.

(** The two settings that authentication reads. *)
Record Settings : Type := mkSettings {
  api_keys : list string;
  public_access_enabled : bool
}.

Record AuthService : Type := mkAuthService {
  valid_api_keys : gset string
}.

(** [AuthService.__init__]: [set(settings.api_keys)] *)
Definition AuthService_init (settings : Settings) : AuthService :=
  {| valid_api_keys := list_to_set (api_keys settings) |}.

(** [validate_api_key] *)
Definition validate_api_key (self : AuthService) (api_key : string) : bool :=
  if String.eqb api_key "" then false
  else bool_decide (api_key ∈ valid_api_keys self).

(** An [HTTPException] with status 401 and its detail. *)
Inductive HTTPException : Type := HTTP_401 (detail : string).

(** [authenticate_request]; [api_key] is the X-API-Key header, [None]
    when the request has none. *)
Definition authenticate_request (settings : Settings) (self : AuthService)
    (api_key : option string) : PyResult HTTPException bool :=
  if public_access_enabled settings then Returned true
  else if bool_decide (valid_api_keys self = ∅) then Returned true
  else
    match api_key with
    | None => Raised (HTTP_401 "Missing API key. Provide X-API-Key header.")
    | Some key =>
        if String.eqb key "" then
          Raised (HTTP_401 "Missing API key. Provide X-API-Key header.")
        else if negb (validate_api_key self key) then Raised (HTTP_401 "Invalid API key")
        else Returned true
    end.

(** [get_api_key], the dependency of every protected endpoint *)
Definition get_api_key (settings : Settings) (self : AuthService) (api_key : option string)
  : PyResult HTTPException (option string) :=
  _ ← authenticate_request settings self api_key; Returned api_key.

(** ["api_key_required"] in the answer of [root] *)
Definition api_key_required (settings : Settings) : bool :=
  negb (public_access_enabled settings) && (0 <? length (api_keys settings))%nat.

End Auth.

(** ** app/models/sensor.py and app/api/sensors.py: the submit endpoint *)

Module Sensors.
Import Py.

(** The value of a field declared [Union[float, Decimal]], once validated. *)
Inductive Number : Type := NFloat (q : Q) | NDecimal (q : Q).

Definition number_val (n : Number) : PyVal :=
  match n with NFloat q => VFloat q | NDecimal q => VDecimal q end.

(** [float(v)] on such a value *)
Definition number_float (n : Number) : Q :=
  match n with NFloat q | NDecimal q => q end.

(** A validated [SensorData]. *)
Record SensorData : Type := mkSensorData {
  device_id : Z;
  sensor_type : History.SensorType;
  value : Number;
  latitude : Number;
  longitude : Number;
  timestamp : Z
}.

(** [sensor_data.dict()]; the enum member is the string of its value. *)
Definition dict (sensor_data : SensorData) : gmap string PyVal :=
  <["device_id" := VInt (device_id sensor_data)]>
  (<["sensor_type" := VStr (History.sensor_type_value (sensor_type sensor_data))]>
   (<["value" := number_val (value sensor_data)]>
    (<["latitude" := number_val (latitude sensor_data)]>
     (<["longitude" := number_val (longitude sensor_data)]>
      (<["timestamp" := VDatetime (timestamp sensor_data)]> ∅))))).

(** [sensor_dict], after the two assignments that follow [dict()] *)
Definition sensor_dict {printers : Printers} (sensor_data : SensorData) : gmap string PyVal :=
  <["timestamp" := VStr (isoformat (timestamp sensor_data))]>
  (<["sensor_type" := VStr (History.sensor_type_value (sensor_type sensor_data))]>
   (dict sensor_data)).

Record SensorDataResponse : Type := mkResponse {
  message : string;
  response_device_id : Z;
  response_sensor_type : History.SensorType;
  processed_at : Z
}.

Inductive HTTPException : Type :=
| HTTP_422_UNPROCESSABLE_ENTITY
| HTTP_500_INTERNAL_SERVER_ERROR
| HTTP_503_SERVICE_UNAVAILABLE.

(** What the body of the outer [try] may raise, as far as the handlers
    behind it tell: an [HTTPException], pydantic's [ValidationError], or
    anything else. *)
Inductive BodyExn : Type :=
| BodyHTTPException (e : HTTPException)
| BodyValidationError
| BodyOther.

(** The body of the outer [try] of [submit_sensor_data]: whatever the
    publish raises is replaced, in the inner handler, by an [HTTPException]
    with status 503.  [utcnow] is the clock reading of the response. *)
Definition submit_body {parsers : Parsers} {printers : Printers} {W : Type}
    (sensor_data : SensorData) (pubsub_service : PubSub.PubSubService) (env : PubSub.Env)
    (client : PubSub.Transport W) (utcnow : Z) (w : W)
  : PyResult BodyExn SensorDataResponse * PubSub.PubSubService * W :=
  match PubSub.publish_sensor_data pubsub_service env client
          (History.sensor_type_value (sensor_type sensor_data)) (sensor_dict sensor_data) w with
  | (Raised _, service', w') =>
      (Raised (BodyHTTPException HTTP_503_SERVICE_UNAVAILABLE), service', w')
  | (Returned _, service', w') =>
      (Returned {| message := "Data received successfully";
                   response_device_id := device_id sensor_data;
                   response_sensor_type := sensor_type sensor_data;
                   processed_at := utcnow |}, service', w')
  end.

(** [submit_sensor_data]: the two handlers of the outer [try], in their
    order, [except ValidationError] and [except Exception]. *)
Definition submit_sensor_data {parsers : Parsers} {printers : Printers} {W : Type}
    (sensor_data : SensorData) (pubsub_service : PubSub.PubSubService) (env : PubSub.Env)
    (client : PubSub.Transport W) (utcnow : Z) (w : W)
  : PyResult HTTPException SensorDataResponse * PubSub.PubSubService * W :=
  match submit_body sensor_data pubsub_service env client utcnow w with
  | (Returned response, service', w') => (Returned response, service', w')
  | (Raised BodyValidationError, service', w') =>
      (Raised HTTP_422_UNPROCESSABLE_ENTITY, service', w')
  | (Raised _, service', w') => (Raised HTTP_500_INTERNAL_SERVER_ERROR, service', w')
  end.

End Sensors.

(** ** app/services/mock_pubsub.py: the ids handed out over a run *)

Module MockRuns.
Import MockPubSub.

(** The ids that the publishes of a run of operations return, in order. *)
Fixpoint published_ids (self : MockPublisherClient) (ops : list ClientOp) : list string :=
  match ops with
  | [] => []
  | op :: rest =>
      match op with
      | OpPublish clock path d =>
          match (publish self clock path d).1 with
          | Returned id => [id]
          | Raised _ => []
          end
      | OpClear _ => []
      end ++ published_ids (client_step self op) rest
  end.

(** The number of publishes among the operations. *)
Definition is_publish (op : ClientOp) : bool :=
  match op with OpPublish _ _ _ => true | OpClear _ => false end.

Definition publish_count (ops : list ClientOp) : nat :=
  length (List.filter is_publish ops).

(** The id of [publish]: the f-string over the clock reading and the
    counter. *)
Definition mock_id (t c : Z) : string := "mock-msg-" +:+ pretty t +:+ "-" +:+ pretty c.

End MockRuns.

(** ** app/services/influxdb.py: [query_historical_data] and
    [get_sensor_type_stats] *)

Module InfluxQueries.
Import Py History Influx.







(** An entry of [stats_by_type]. *)
Record TypeStats : Type := mkTypeStats {
  device_count : Z;
  stats_total_measurements : Z;
  first_measurement : PyVal;
  last_measurement : PyVal;
  value_min : Q;
  value_max : Q;
  value_mean : Q
}.

Definition new_stats : TypeStats :=
  {| device_count := 0; stats_total_measurements := 0;
     first_measurement := VNone; last_measurement := VNone;
     value_min := 0; value_max := 0; value_mean := 0 |}.

(** [stats_by_type]: the dict as the list of its items, in the order in
    which the keys were first set. *)
Definition StatsByType : Type := list (SensorType * TypeStats).

(** [sensor_type in stats_by_type] *)
Definition has_type (d : StatsByType) (st : SensorType) : bool :=
  bool_decide (st ∈ d.*1).

(** [stats_by_type[sensor_type][...] = ...], on a key that is there *)
Fixpoint update (d : StatsByType) (st : SensorType) (f : TypeStats -> TypeStats)
  : StatsByType :=
  match d with
  | [] => []
  | (k, s) :: rest =>
      if decide (k = st) then (k, f s) :: rest else (k, s) :: update rest st f
  end.

(** One turn of the loop over the rows of [get_sensor_type_stats]. *)
Definition stats_record {parsers : Parsers} (stats_by_type : StatsByType) (r : FluxRecord)
  : PyResult PyExn StatsByType :=
  let sensor_type_str := dict_get (values r) "sensor_type" in
  if negb (truthy sensor_type_str) then Returned stats_by_type
  else
    match SensorType_of sensor_type_str with
    | None => Returned stats_by_type
    | Some st =>
        let d := if has_type stats_by_type st then stats_by_type
                 else stats_by_type ++ [(st, new_stats)] in
        let stat_type := dict_get (values r) "stat" in
        value ← get_value r;
        if py_eqb stat_type (VStr "device_count") then
          n ← py_int (py_or value (VInt 0));
          Returned (update d st (λ s,
            {| device_count := n; stats_total_measurements := stats_total_measurements s;
               first_measurement := first_measurement s;
               last_measurement := last_measurement s;
               value_min := value_min s; value_max := value_max s;
               value_mean := value_mean s |}))
        else if py_eqb stat_type (VStr "measurement_count") then
          n ← py_int (py_or value (VInt 0));
          Returned (update d st (λ s,
            {| device_count := device_count s; stats_total_measurements := n;
               first_measurement := first_measurement s;
               last_measurement := last_measurement s;
               value_min := value_min s; value_max := value_max s;
               value_mean := value_mean s |}))
        else if py_eqb stat_type (VStr "first") then
          t ← get_time r;
          Returned (update d st (λ s,
            {| device_count := device_count s;
               stats_total_measurements := stats_total_measurements s;
               first_measurement := t; last_measurement := last_measurement s;
               value_min := value_min s; value_max := value_max s;
               value_mean := value_mean s |}))
        else if py_eqb stat_type (VStr "last") then
          t ← get_time r;
          Returned (update d st (λ s,
            {| device_count := device_count s;
               stats_total_measurements := stats_total_measurements s;
               first_measurement := first_measurement s; last_measurement := t;
               value_min := value_min s; value_max := value_max s;
               value_mean := value_mean s |}))
        else if py_eqb stat_type (VStr "min") then
          x ← py_float (py_or value (VFloat 0));
          Returned (update d st (λ s,
            {| device_count := device_count s;
               stats_total_measurements := stats_total_measurements s;
               first_measurement := first_measurement s;
               last_measurement := last_measurement s;
               value_min := x; value_max := value_max s; value_mean := value_mean s |}))
        else if py_eqb stat_type (VStr "max") then
          x ← py_float (py_or value (VFloat 0));
          Returned (update d st (λ s,
            {| device_count := device_count s;
               stats_total_measurements := stats_total_measurements s;
               first_measurement := first_measurement s;
               last_measurement := last_measurement s;
               value_min := value_min s; value_max := x; value_mean := value_mean s |}))
        else if py_eqb stat_type (VStr "mean") then
          x ← py_float (py_or value (VFloat 0));
          Returned (update d st (λ s,
            {| device_count := device_count s;
               stats_total_measurements := stats_total_measurements s;
               first_measurement := first_measurement s;
               last_measurement := last_measurement s;
               value_min := value_min s; value_max := value_max s; value_mean := x |}))
        else Returned d
    end.

Fixpoint stats_records {parsers : Parsers} (stats_by_type : StatsByType)
    (rows : list FluxRecord) : PyResult PyExn StatsByType :=
  match rows with
  | [] => Returned stats_by_type
  | r :: rest => d ← stats_record stats_by_type r; stats_records d rest
  end.

Record SensorTypeStats : Type := mkSensorTypeStats {
  stats_sensor_type : SensorType;
  stats_device_count : Z;
  stats_measurements : Z;
  stats_first_measurement : Z;
  stats_last_measurement : Z;
  stats_value_stats : Q * Q * Q       (* min, max, mean *)
}.

(** The second loop: an entry with both time stamps becomes a
    [SensorTypeStats], whose validation fails (a ValueError) when one of
    them cannot be read as a datetime. *)
Fixpoint sensor_stats {parsers : Parsers} (items : StatsByType)
  : PyResult PyExn (list SensorTypeStats) :=
  match items with
  | [] => Returned []
  | (st, s) :: rest =>
      if truthy (first_measurement s) && truthy (last_measurement s) then
        match as_datetime (first_measurement s), as_datetime (last_measurement s) with
        | Some first, Some last =>
            others ← sensor_stats rest;
            Returned ({| stats_sensor_type := st;
                         stats_device_count := device_count s;
                         stats_measurements := stats_total_measurements s;
                         stats_first_measurement := first;
                         stats_last_measurement := last;
                         stats_value_stats := (value_min s, value_max s, value_mean s) |}
                      :: others)
        | _, _ => Raised ValueError
        end
      else sensor_stats rest
  end.

(** The query of [get_sensor_type_stats] *)
Definition stats_query (self : InfluxDBService) : string :=
  String.concat nl
    ["";
     "data = from(bucket: " +:+ dq +:+ bucket self +:+ dq +:+ ")";
     "  |> range(start: -30d)";
     "  |> filter(fn: (r) => r[" +:+ dq +:+ "_measurement" +:+ dq +:+ "] == " +:+ dq +:+ "sensor_data" +:+ dq +:+ ")";
     "  |> filter(fn: (r) => r[" +:+ dq +:+ "_field" +:+ dq +:+ "] == " +:+ dq +:+ "value" +:+ dq +:+ ")";
     "";
     "device_counts = data";
     "  |> group(columns: [" +:+ dq +:+ "sensor_type" +:+ dq +:+ "])";
     "  |> distinct(column: " +:+ dq +:+ "device_id" +:+ dq +:+ ")";
     "  |> count()";
     "  |> set(key: " +:+ dq +:+ "stat" +:+ dq +:+ ", value: " +:+ dq +:+ "device_count" +:+ dq +:+ ")";
     "";
     "measurement_counts = data";
     "  |> group(columns: [" +:+ dq +:+ "sensor_type" +:+ dq +:+ "])";
     "  |> count()";
     "  |> set(key: " +:+ dq +:+ "stat" +:+ dq +:+ ", value: " +:+ dq +:+ "measurement_count" +:+ dq +:+ ")";
     "";
     "value_stats = data";
     "  |> group(columns: [" +:+ dq +:+ "sensor_type" +:+ dq +:+ "])";
     "  |> aggregateWindow(every: 30d, fn: mean)";
     "  |> set(key: " +:+ dq +:+ "stat" +:+ dq +:+ ", value: " +:+ dq +:+ "mean" +:+ dq +:+ ")";
     "  |> union(tables: [";
     "      data |> group(columns: [" +:+ dq +:+ "sensor_type" +:+ dq +:+ "]) |> min() |> set(key: " +:+ dq +:+ "stat" +:+ dq +:+ ", value: " +:+ dq +:+ "min" +:+ dq +:+ "),";
     "      data |> group(columns: [" +:+ dq +:+ "sensor_type" +:+ dq +:+ "]) |> max() |> set(key: " +:+ dq +:+ "stat" +:+ dq +:+ ", value: " +:+ dq +:+ "max" +:+ dq +:+ ")";
     "  ])";
     "";
     "time_range = data";
     "  |> group(columns: [" +:+ dq +:+ "sensor_type" +:+ dq +:+ "])";
     "  |> first()";
     "  |> set(key: " +:+ dq +:+ "stat" +:+ dq +:+ ", value: " +:+ dq +:+ "first" +:+ dq +:+ ")";
     "  |> union(tables: [";
     "      data |> group(columns: [" +:+ dq +:+ "sensor_type" +:+ dq +:+ "]) |> last() |> set(key: " +:+ dq +:+ "stat" +:+ dq +:+ ", value: " +:+ dq +:+ "last" +:+ dq +:+ ")";
     "  ])";
     "";
     "union(tables: [device_counts, measurement_counts, value_stats, time_range])";
     ""].

(** [get_sensor_type_stats]; the outer handler prints and re-raises. *)
Definition get_sensor_type_stats {parsers : Parsers} {W : Type}
    (self : InfluxDBService) (store : Store W) (w : W)
  : PyResult QueryExn (list SensorTypeStats) * W :=
  match store (stats_query self) w with
  | (Raised e, w1) => (Raised (FromStore e), w1)
  | (Returned tables, w1) =>
      match stats_records [] (concat tables) with
      | Raised e => (Raised (FromRow e), w1)
      | Returned stats_by_type =>
          match sensor_stats stats_by_type with
          | Raised e => (Raised (FromRow e), w1)
          | Returned stats => (Returned stats, w1)
          end
      end
  end.

(** Where a time stamp of an entry comes from: it is still [None], or it
    is the time of a row of the given sensor type and [stat]. *)
Definition stamped_by (rows : list FluxRecord) (st : SensorType) (stat : string)
    (v : PyVal) : Prop :=
  v = VNone ∨
  ∃ r, r ∈ rows ∧
       SensorType_of (dict_get (values r) "sensor_type") = Some st ∧
       py_eqb (dict_get (values r) "stat") (VStr stat) = true ∧
       get_time r = Returned v.

(** The invariant of [stats_by_type] over the rows read so far. *)
Definition stats_invariant (rows : list FluxRecord) (d : StatsByType) : Prop :=
  NoDup d.*1 ∧
  ∀ st s, (st, s) ∈ d ->
    stamped_by rows st "first" (first_measurement s) ∧
    stamped_by rows st "last" (last_measurement s).

End InfluxQueries.

(** ** app/api/history.py: the endpoints by device and by sensor type *)

Module ApiRoutes.
Import History Api.


(** [get_data_by_sensor_type] *)
Definition get_data_by_sensor_type {W R : Type}
    (query : HistoryQueryParams -> W -> PyResult Influx.QueryExn (list R) * W)
    (sensor_type : SensorType) (start_time end_time : Z)
    (latitude_min latitude_max longitude_min longitude_max : option Q) (w : W)
  : PyResult HTTPException (list R * nat) * W :=
  get_historical_data query
    (mkParams start_time end_time (Some sensor_type) None
       latitude_min latitude_max longitude_min longitude_max None) w.

End ApiRoutes.

(** ** A sequence of publishes on one service *)

Module PublishRuns.
Import Py PubSub.

(** The publishes are made one after the other on the same service
    object: the outcomes, and the service and the world at the end. *)
Fixpoint publish_run {parsers : Parsers} {W : Type} (self : PubSubService)
    (client : Transport W) (calls : list (Env * string * gmap string PyVal)) (w : W)
  : list (PyResult PublishExn string) * PubSubService * W :=
  match calls with
  | [] => ([], self, w)
  | (env, sensor_type, data) :: rest =>
      let '(r, self', w') := publish_sensor_data self env client sensor_type data w in
      let '(rs, self'', w'') := publish_run self' client rest w' in
      (r :: rs, self'', w'')
  end.

(** A publish that gets as far as the transport: the sensor type has a
    topic name and the fields of the reading convert. *)
Definition reaches_transport {parsers : Parsers} (self : PubSubService)
    (call : Env * string * gmap string PyVal) : Prop :=
  (∃ topic_name, topic_mapping self !! call.1.2 = Some topic_name ∧ topic_name ≠ "") ∧
  is_returned (_transform_data_for_avro_schema (utcnow_iso call.1.1) call.2) = true.

(** A transport that is down: whatever it is handed, it raises one of the
    errors that the retry policy retries. *)
Definition transport_down {W : Type} (client : Transport W) : Prop :=
  ∀ topic_path message_data w,
    ∃ e w', client topic_path message_data w = (Raised e, w') ∧ is_transient e = true.

End PublishRuns.

(** ** Concrete inputs used in the examples below *)

(** A wrapped function that raises, and counts its invocations in the world. *)
Definition failing_op (w : nat) : PyResult unit unit * nat := (Raised tt, S w).

(** Numerals in plain decimal notation ("-12", "345"): enough of Python's
    [int(s)] and [float(s)] for the examples. *)
Definition digit_of (c : ascii) : option Z :=
  let n := Z.of_nat (nat_of_ascii c) in
  if (48 <=? n) && (n <=? 57) then Some (n - 48) else None.

Fixpoint digits_from (acc : Z) (s : string) : option Z :=
  match s with
  | EmptyString => Some acc
  | String c s' =>
      match digit_of c with
      | Some d => digits_from (10 * acc + d) s'
      | None => None
      end
  end.

Definition plain_int (s : string) : option Z :=
  match s with
  | EmptyString => None
  | String c s' =>
      if Ascii.eqb c "-"%char
      then (if String.eqb s' "" then None else Z.opp <$> digits_from 0 s')
      else digits_from 0 s
  end.

Definition plain_parsers : Py.Parsers :=
  {| Py.float_of_str := λ s, inject_Z <$> plain_int s;
     Py.int_of_str := plain_int;
     Py.datetime_of_other := λ _, None |}.

(** The topic path of temperature readings in project "demo". *)
Definition temperature_path : string := "projects/demo/topics/sensor-temperature".

(** The topic mapping of the default settings. *)
Definition default_topics : gmap string string :=
  <["temperature" := "sensor-temperature"]>
  (<["humidity" := "sensor-humidity"]>
   (<["ndir" := "sensor-ndir"]> ∅)).

(** A service on the real transport, with the default breaker settings. *)
Definition real_service : PubSub.PubSubService :=
  {| PubSub.project_id := "demo";
     PubSub.topic_mapping := default_topics;
     PubSub.backend := PubSub.RealBackend (Breaker.init 5 60) |}.

(** A service on the mock transport. *)
Definition mock_service : PubSub.PubSubService :=
  {| PubSub.project_id := "demo";
     PubSub.topic_mapping := default_topics;
     PubSub.backend :=
       PubSub.MockBackend
         {| MockPubSub.project_id := "demo";
            MockPubSub.topic_mapping := default_topics;
            MockPubSub.client := MockPubSub.client_init "demo" |} |}.

(** Transports: one that is always unavailable, one that refuses with an
    error outside the allow-list, one that accepts; each counts its calls. *)
Definition unavailable_transport : PubSub.Transport nat :=
  λ _ _ w, (Raised PubSub.ServiceUnavailable, S w).

Definition refusing_transport : PubSub.Transport nat :=
  λ _ _ w, (Raised (PubSub.OtherError "PermissionDenied"), S w).

Definition accepting_transport : PubSub.Transport nat :=
  λ _ _ w, (Returned "msg-1", S w).

Definition test_env : PubSub.Env :=
  {| PubSub.clk := Breaker.mkClockReads 100 101;
     PubSub.utcnow_iso := "2024-01-15T12:00:05";
     PubSub.mock_clock := MockPubSub.mkMockClock 1705320000 1705320000 |}.

(** The dictionary that the submit endpoint builds from a reading whose
    value was validated as a float, and as a Decimal. *)
Definition float_reading : gmap string Py.PyVal :=
  <["device_id" := Py.VInt 12345]>
  (<["sensor_type" := Py.VStr "temperature"]>
   (<["value" := Py.VFloat (47 # 2)]>
    (<["latitude" := Py.VFloat (377 # 10)]>
     (<["longitude" := Py.VFloat (-1224 # 10)]>
      (<["timestamp" := Py.VStr "2024-01-15T12:00:00"]> ∅))))).

Definition decimal_reading : gmap string Py.PyVal :=
  <["value" := Py.VDecimal (47 # 2)]> float_reading.

(** A mock client whose temperature buffer has been filled to the cap. *)
Definition full_client : MockPubSub.MockPublisherClient :=
  MockPubSub.client_run (MockPubSub.client_init "demo")
    (replicate 1000
       (MockPubSub.OpPublish (MockPubSub.mkMockClock 1705320000 1705320000)
          temperature_path ∅)).

(** A rendering of instants and floats that is enough to tell queries
    apart: the instant in seconds, the float as numerator/denominator. *)
Definition plain_printers : Py.Printers :=
  {| Py.isoformat := λ t, pretty t;
     Py.str_float := λ q, pretty (Qnum q) +:+ "/" +:+ pretty (Z.pos (Qden q)) |}.

(** A store that answers the n-th query it is asked with the n-th of the
    given answers, and counts the queries. *)
Definition scripted_store (answers : list (list (list Influx.FluxRecord)))
  : Influx.Store nat :=
  λ _ w,
    (match answers !! w with
     | Some tables => Returned tables
     | None => Raised Influx.StoreFailure
     end, S w).





Definition test_influx : Influx.InfluxDBService := Influx.mkInflux "iot-sensors" "".

(** Answers of the store to a device-list call: the listing (devices 1 and
    2), then the rows of device 1 (a sensor type, a first and a last row),
    then those of device 2, which has no last row. *)
Definition device_id_row (id : string) : Influx.FluxRecord :=
  Influx.mkRecord 0 (<["device_id" := Py.VStr id]> ∅).

Definition sensor_type_row (t : string) : Influx.FluxRecord :=
  Influx.mkRecord 0 (<["sensor_type" := Py.VStr t]> ∅).

Definition stat_row (stat : string) (time : Z) : Influx.FluxRecord :=
  Influx.mkRecord 1
    (<["stat" := Py.VStr stat]>
     (<["_time" := Py.VDatetime time]>
      (<["_field" := Py.VStr "value"]> (<["_value" := Py.VFloat (43 # 2)]> ∅)))).

Definition device_answers : list (list (list Influx.FluxRecord)) :=
  [ [[device_id_row "1"; device_id_row "2"]];
    [[sensor_type_row "temperature"]; [stat_row "first" 100; stat_row "last" 200]];
    [[sensor_type_row "humidity"]; [stat_row "first" 100]] ].

(** ** Concrete inputs used in the further examples *)

(** A transport that is unavailable twice and then accepts; the world
    counts the calls. *)
Definition flaky_transport : PubSub.Transport nat :=
  λ _ _ w, (if (w <? 2)%nat then Raised PubSub.ServiceUnavailable else Returned "msg-3", S w).

(** Settings with two keys, one of them the empty string. *)
Definition keyed_settings : Auth.Settings :=
  {| Auth.api_keys := ["alpha"; ""]; Auth.public_access_enabled := false |}.

(** A validated temperature reading. *)
Definition validated_reading : Sensors.SensorData :=
  {| Sensors.device_id := 12345;
     Sensors.sensor_type := History.TEMPERATURE;
     Sensors.value := Sensors.NDecimal (47 # 2);
     Sensors.latitude := Sensors.NFloat (50 # 1);
     Sensors.longitude := Sensors.NFloat (30 # 1);
     Sensors.timestamp := 1705320000 |}.

(** A reading with a value and a foreign key, and nothing else. *)
Definition sparse_reading : gmap string Py.PyVal :=
  <["value" := Py.VInt 21]> (<["received_by" := Py.VStr "edge-7"]> ∅).

(** A row of the windowed count of a device, and the answer of the store
    for a device that has a sensor type, a count, a first and a last row. *)
Definition count_row (n : Z) : Influx.FluxRecord :=
  Influx.mkRecord 1 (<["_field" := Py.VStr "value"]> (<["_value" := Py.VInt n]> ∅)).

Definition counted_device_answers : list (list (list Influx.FluxRecord)) :=
  [ [[sensor_type_row "temperature"]; [count_row 7];
     [stat_row "first" 100; stat_row "last" 200]] ].



(** Rows of a statistics result for one sensor type. *)
Definition type_stat_row (t stat : string) (time : Z) (value : Py.PyVal) : Influx.FluxRecord :=
  Influx.mkRecord 0
    (<["sensor_type" := Py.VStr t]>
     (<["stat" := Py.VStr stat]>
      (<["_time" := Py.VDatetime time]> (<["_value" := value]> ∅)))).

(** A service on the real transport whose breaker opens at the second
    failure. *)
Definition sensitive_service : PubSub.PubSubService :=
  {| PubSub.project_id := "demo";
     PubSub.topic_mapping := default_topics;
     PubSub.backend := PubSub.RealBackend (Breaker.init 2 60) |}.

(* ===================================================================== *)
(** * Properties *)
(* ===================================================================== *)

(** ** Circuit breaker *)

Section BreakerFacts.
Import Breaker.
Context {W E A : Type}.
Implicit Types (self : CircuitBreaker) (clk : ClockReads)
  (func : W -> PyResult E A * W) (w : W)
  (calls : list (ClockReads * (W -> PyResult E A * W))).

Lemma entry_check_early self now :
  state self = OPEN ->
  (∀ t, last_failure_time self = Some t -> now - t < recovery_timeout self) ->
  entry_check self now = None.
Proof.
  intros Hs Hearly. unfold entry_check, _should_attempt_reset. rewrite Hs.
  destruct (last_failure_time self) as [t|]; [|done].
  specialize (Hearly t eq_refl).
  destruct (Z.leb_spec (recovery_timeout self) (now - t)); [lia|done].
Qed.

Lemma call_rejected self clk func w :
  state self = OPEN ->
  (∀ t, last_failure_time self = Some t ->
        at_check clk - t < recovery_timeout self) ->
  call self clk func w = (Raised CircuitIsOpen, self, w).
Proof.
  intros Hs Hearly. unfold call. by rewrite entry_check_early.
Qed.

Lemma call_closed_failure self clk func w e w' :
  state self = CLOSED -> func w = (Raised e, w') ->
  call self clk func w = (Raised (Propagated e), _on_failure self (at_failure clk), w').
Proof. intros Hs Hf. unfold call, entry_check. by rewrite Hs, Hf. Qed.

Lemma final_cons self self' (r : PyResult (CallError E) A) tr :
  final self ((r, self') :: tr) = final self' tr.
Proof.
  unfold final. simpl. rewrite last_cons.
  by destruct (last (map snd tr)).
Qed.

Lemma run_app self calls1 calls2 w :
  run self (calls1 ++ calls2) w =
  let '(tr1, w1) := run self calls1 w in
  let '(tr2, w2) := run (final self tr1) calls2 w1 in
  (tr1 ++ tr2, w2).
Proof.
  revert self w. induction calls1 as [|[clk func] calls1 IH]; intros self w; simpl.
  - unfold final. simpl. by destruct (run self calls2 w).
  - destruct (call self clk func w) as [[r self'] w'] eqn:Hc.
    rewrite IH. destruct (run self' calls1 w') as [tr1 w1] eqn:Hr1.
    rewrite final_cons.
    by destruct (run (final self' tr1) calls2 w1).
Qed.

(** While the count stays under the threshold, failures leave the breaker
    CLOSED, and each of them comes from the wrapped function. *)
Lemma run_failures_below self calls w :
  state self = CLOSED ->
  Forall (λ c, always_raises c.2) calls ->
  failure_count self + Z.of_nat (length calls) < failure_threshold self ->
  let tr := (run self calls w).1 in
  Forall (λ x, (∃ e, x.1 = Raised (Propagated e)) ∧ state x.2 = CLOSED) tr ∧
  length tr = length calls ∧
  state (final self tr) = CLOSED ∧
  failure_count (final self tr) = failure_count self + Z.of_nat (length calls) ∧
  failure_threshold (final self tr) = failure_threshold self ∧
  recovery_timeout (final self tr) = recovery_timeout self.
Proof.
  revert self w. induction calls as [|[clk func] calls IH]; intros self w Hs Hall Hlt.
  - simpl. unfold final. simpl. repeat split; auto. lia.
  - apply Forall_cons in Hall as [Hf Hall]. simpl in Hf.
    destruct (Hf w) as (e & w' & Hfw).
    cbn [run]. rewrite (call_closed_failure _ _ _ _ _ _ Hs Hfw).
    set (self' := _on_failure self (at_failure clk)).
    assert (Hs' : state self' = CLOSED).
    { unfold self', _on_failure. simpl. rewrite Hs.
      destruct (Z.leb_spec (failure_threshold self) (failure_count self + 1)); [|done].
      rewrite length_cons in Hlt. lia. }
    assert (Hlt' : failure_count self' + Z.of_nat (length calls) < failure_threshold self').
    { unfold self', _on_failure. simpl. rewrite length_cons in Hlt. lia. }
    destruct (IH self' w' Hs' Hall Hlt') as (H1 & H2 & H3 & H4 & H5 & H6).
    destruct (run self' calls w') as [tr w''] eqn:Hr. simpl in *.
    rewrite final_cons. repeat split; auto.
    + constructor; [|done]. simpl. eauto.
    + rewrite H4. unfold self', _on_failure. simpl. lia.
Qed.

(** Calls that arrive at an OPEN breaker before the recovery timeout has
    elapsed are all rejected; neither the breaker nor the world moves. *)
Lemma run_rejected self calls w :
  state self = OPEN ->
  Forall (λ c, ∀ t, last_failure_time self = Some t ->
                    at_check c.1 - t < recovery_timeout self) calls ->
  run self calls w = (map (λ _, (Raised CircuitIsOpen, self)) calls, w).
Proof.
  intros Hs. induction calls as [|[clk func] calls IH]; intros Hall; [done|].
  apply Forall_cons in Hall as [Hc Hall]. simpl in Hc.
  cbn [run]. rewrite (call_rejected _ _ _ _ Hs Hc).
  by rewrite (IH Hall).
Qed.

Lemma count_opens_closed_prefix ss :
  Forall (λ s, s = CLOSED) ss ->
  count_opens (CLOSED :: ss ++ [OPEN]) = 1%nat.
Proof.
  induction 1 as [|s ss -> _ IH]; [done|].
  change (count_opens (CLOSED :: (CLOSED :: ss) ++ [OPEN]))
    with (0 + count_opens (CLOSED :: ss ++ [OPEN]))%nat.
  by rewrite IH.
Qed.

End BreakerFacts.

(** C1 (as amended).  For every failure_threshold N >= 1: from the fresh
    breaker (CLOSED, failure_count 0), N consecutive calls whose wrapped
    function raises all reach that function; the state stays CLOSED after
    each of the first N-1 and is OPEN after the Nth, so that it moves from
    CLOSED to OPEN exactly once; and from then on every call whose clock
    reading is less than recovery_timeout after the last failure is
    rejected with the breaker's own exception, the wrapped function not
    being run (the world and the breaker are left as they were). *)
Theorem breaker_opens_on_nth_failure {W E A : Type} (N T : Z)
    (calls : list (Breaker.ClockReads * (W -> PyResult E A * W))) (w : W) :
  1 <= N ->
  Z.of_nat (length calls) = N ->
  Forall (λ c, Breaker.always_raises c.2) calls ->
  let tr := (Breaker.run (Breaker.init N T) calls w).1 in
  let w' := (Breaker.run (Breaker.init N T) calls w).2 in
  let states := map (λ x, Breaker.state x.2) tr in
  let opened := Breaker.final (Breaker.init N T) tr in
  Forall (λ x, ∃ e, x.1 = Raised (Breaker.Propagated e)) tr ∧
  (∀ k s, (k < length calls - 1)%nat -> states !! k = Some s -> s = Breaker.CLOSED) ∧
  states !! (length calls - 1)%nat = Some Breaker.OPEN ∧
  Breaker.state opened = Breaker.OPEN ∧
  Breaker.count_opens (Breaker.CLOSED :: states) = 1%nat ∧
  ∃ tN, Breaker.last_failure_time opened = Some tN ∧
    ∀ later : list (Breaker.ClockReads * (W -> PyResult E A * W)),
      Forall (λ c, Breaker.at_check c.1 - tN < T) later ->
      Breaker.run opened later w' =
        (map (λ _, (Raised Breaker.CircuitIsOpen, opened)) later, w').
Proof.
  intros HN Hlen Hall.
  destruct (exists_last (l := calls)) as (front & [clk func] & ->).
  { intros ->. simpl in Hlen. lia. }
  rewrite length_app in *. simpl in Hlen.
  apply Forall_app in Hall as [Hfront Hlast].
  apply Forall_cons in Hlast as [Hlast _]. simpl in Hlast.
  rewrite run_app.
  pose proof (run_failures_below (Breaker.init N T) front w eq_refl Hfront) as Hbelow.
  simpl in Hbelow.
  destruct Hbelow as (Htr & Hlentr & Hst & Hcnt & Hthr & Hto); [lia|].
  destruct (Breaker.run (Breaker.init N T) front w) as [tr1 w1] eqn:Hr1. simpl in *.
  set (mid := Breaker.final (Breaker.init N T) tr1) in *.
  destruct (Hlast w1) as (e & w2 & Hfw).
  rewrite (call_closed_failure _ _ _ _ _ _ Hst Hfw).
  set (opened := Breaker._on_failure mid (Breaker.at_failure clk)).
  assert (Hopen : Breaker.state opened = Breaker.OPEN).
  { unfold opened, Breaker._on_failure. simpl.
    destruct (Z.leb_spec (Breaker.failure_threshold mid) (Breaker.failure_count mid + 1)); [done|lia]. }
  assert (Hlft : Breaker.last_failure_time opened = Some (Breaker.at_failure clk)) by done.
  assert (HT : Breaker.recovery_timeout opened = T) by (unfold opened; simpl; lia).
  clearbody opened. cbn [fst snd].
  assert (Hfin : Breaker.final (Breaker.init N T)
                   (tr1 ++ [(Raised (Breaker.Propagated e), opened)]) = opened).
  { unfold Breaker.final. rewrite map_app. cbn [map snd]. by rewrite last_snoc. }
  rewrite Hfin.
  assert (Hstates : Forall (λ s, s = Breaker.CLOSED) (map (λ x, Breaker.state x.2) tr1)).
  { apply Forall_fmap. eapply Forall_impl; [exact Htr|]. by intros x [_ ?]. }
  replace (length front + 1 - 1)%nat with (length front) by lia.
  rewrite map_app. cbn [map snd]. rewrite Hopen.
  repeat split.
  - apply Forall_app. split.
    + eapply Forall_impl; [exact Htr|]. by intros x [? _].
    + constructor; [|done]. simpl. eauto.
  - intros k s Hk Hlk. rewrite lookup_app_l in Hlk by (rewrite length_map; lia).
    by eapply (Forall_lookup_1 _ _ _ _ Hstates).
  - rewrite lookup_app_r by (rewrite length_map; lia).
    by rewrite length_map, Hlentr, Nat.sub_diag.
  - by apply count_opens_closed_prefix.
  - exists (Breaker.at_failure clk). split; [done|].
    intros later Hlater. apply run_rejected; [done|].
    eapply Forall_impl; [exact Hlater|]. intros c Hc t Ht.
    rewrite Hlft in Ht. injection Ht as <-. by rewrite HT.
Qed.

(** The statement of C1 without its amendment fails at threshold 0: no
    call is fed, and the breaker is still CLOSED, having never opened. *)
Lemma breaker_threshold_zero_stays_closed :
  let calls : list (Breaker.ClockReads * (unit -> PyResult unit unit * unit)) := [] in
  let tr := (Breaker.run (Breaker.init 0 60) calls tt).1 in
  Z.of_nat (length calls) = 0 ∧
  Forall (λ c, Breaker.always_raises c.2) calls ∧
  Breaker.state (Breaker.final (Breaker.init 0 60) tr) = Breaker.CLOSED ∧
  ¬ Breaker.count_opens
      (Breaker.CLOSED :: map (λ x, Breaker.state x.2) tr) = 1%nat.
Proof. simpl. repeat split; [constructor | discriminate]. Qed.

Lemma failing_op_always_raises : Breaker.always_raises failing_op.
Proof. intros w. by exists tt, (S w). Qed.

Lemma breaker_opens_on_nth_failure_witness :
  let calls := [(Breaker.mkClockReads 0 10, failing_op);
                (Breaker.mkClockReads 11 12, failing_op)] in
  let tr := (Breaker.run (Breaker.init 2 60) calls 0%nat).1 in
  map (λ x, Breaker.state x.2) tr = [Breaker.CLOSED; Breaker.OPEN] ∧
  Breaker.count_opens (Breaker.CLOSED :: map (λ x, Breaker.state x.2) tr) = 1%nat.
Proof.
  pose proof (breaker_opens_on_nth_failure 2 60
    [(Breaker.mkClockReads 0 10, failing_op); (Breaker.mkClockReads 11 12, failing_op)]
    0%nat ltac:(lia) eq_refl
    ltac:(repeat constructor; apply failing_op_always_raises)) as H.
  split; [reflexivity | exact (proj1 (proj2 (proj2 (proj2 (proj2 H)))))].
Defined.

(** An OPEN breaker that the code produced has reached its threshold. *)
Lemma reachable_open_at_threshold self :
  Breaker.reachable self ->
  Breaker.state self = Breaker.OPEN ->
  Breaker.failure_threshold self <= Breaker.failure_count self.
Proof.
  induction 1 as [N T | W E A self clk func w Hreach IH]; [discriminate|].
  unfold Breaker.call, Breaker.entry_check.
  destruct (Breaker.state self) eqn:Hs.
  - destruct (func w) as [[r|e] w']; simpl; [discriminate|].
    rewrite Hs. destruct (Z.leb_spec (Breaker.failure_threshold self)
                            (Breaker.failure_count self + 1)); [done|discriminate].
  - destruct (Breaker._should_attempt_reset self (Breaker.at_check clk)).
    + destruct (func w) as [[r|e] w']; simpl; [discriminate|].
      destruct (Z.leb_spec (Breaker.failure_threshold self)
                  (Breaker.failure_count self + 1)); [done|discriminate].
    + simpl. intros _. by apply IH.
  - destruct (func w) as [[r|e] w']; simpl; [discriminate|].
    rewrite Hs. destruct (Z.leb_spec (Breaker.failure_threshold self)
                            (Breaker.failure_count self + 1)); [done|discriminate].
Qed.

(** C2.  A breaker produced by the code is OPEN, and a call arrives once
    recovery_timeout has elapsed since the last failure: the call is let
    through in state HALF_OPEN.  If the wrapped function returns, the
    breaker ends CLOSED with failure_count 0; if it raises, the breaker ends
    OPEN with failure_count one higher and last_failure_time set to the
    clock reading taken at the failure. *)
Theorem half_open_trial_outcome {W E A : Type} (self : Breaker.CircuitBreaker)
    (clk : Breaker.ClockReads) (func : W -> PyResult E A * W) (w : W) (t : Z) :
  Breaker.reachable self ->
  Breaker.state self = Breaker.OPEN ->
  Breaker.last_failure_time self = Some t ->
  Breaker.recovery_timeout self <= Breaker.at_check clk - t ->
  Breaker.entry_check self (Breaker.at_check clk)
    = Some (Breaker.set_state self Breaker.HALF_OPEN) ∧
  let '(outcome, self', w') := Breaker.call self clk func w in
  match func w with
  | (Returned r, w1) =>
      outcome = Returned r ∧ w' = w1 ∧
      Breaker.state self' = Breaker.CLOSED ∧
      Breaker.failure_count self' = 0
  | (Raised e, w1) =>
      outcome = Raised (Breaker.Propagated e) ∧ w' = w1 ∧
      Breaker.state self' = Breaker.OPEN ∧
      Breaker.failure_count self' = Breaker.failure_count self + 1 ∧
      Breaker.last_failure_time self' = Some (Breaker.at_failure clk)
  end.
Proof.
  intros Hreach Hs Hlft Hdue.
  pose proof (reachable_open_at_threshold self Hreach Hs) as Hthr.
  assert (Hentry : Breaker.entry_check self (Breaker.at_check clk)
                  = Some (Breaker.set_state self Breaker.HALF_OPEN)).
  { unfold Breaker.entry_check, Breaker._should_attempt_reset. rewrite Hs, Hlft.
    destruct (Z.leb_spec (Breaker.recovery_timeout self) (Breaker.at_check clk - t));
      [done|lia]. }
  split; [exact Hentry|].
  unfold Breaker.call. rewrite Hentry.
  destruct (func w) as [[r|e] w1]; simpl; [done|].
  repeat split.
  destruct (Z.leb_spec (Breaker.failure_threshold self) (Breaker.failure_count self + 1));
    [done|lia].
Qed.

Lemma half_open_trial_outcome_witness :
  let opened := (Breaker.call (Breaker.init 1 60) (Breaker.mkClockReads 0 100) failing_op 0%nat).1.2 in
  let '(outcome, self', w') :=
    Breaker.call opened (Breaker.mkClockReads 160 161) failing_op 1%nat in
  Breaker.state opened = Breaker.OPEN ∧
  outcome = Raised (Breaker.Propagated tt) ∧ w' = 2%nat ∧
  Breaker.state self' = Breaker.OPEN ∧
  Breaker.failure_count self' = 2 ∧
  Breaker.last_failure_time self' = Some 161.
Proof.
  pose proof (half_open_trial_outcome
    (Breaker.call (Breaker.init 1 60) (Breaker.mkClockReads 0 100) failing_op 0%nat).1.2
    (Breaker.mkClockReads 160 161) failing_op 1%nat 100
    (Breaker.reachable_call nat unit unit _ _ _ _ (Breaker.reachable_init 1 60))
    eq_refl eq_refl ltac:(simpl; lia)) as [_ H].
  split; [reflexivity | exact H].
Defined.

(** C10.  A call that meets the breaker OPEN, less than recovery_timeout
    after last_failure_time, is rejected with the breaker's own exception
    and changes nothing: the breaker after the call is the breaker before
    it (failure_count, last_failure_time and state included), and the
    wrapped function has not touched the world. *)
Theorem rejected_call_changes_nothing {W E A : Type} (self : Breaker.CircuitBreaker)
    (clk : Breaker.ClockReads) (func : W -> PyResult E A * W) (w : W) (t : Z) :
  Breaker.state self = Breaker.OPEN ->
  Breaker.last_failure_time self = Some t ->
  Breaker.at_check clk - t < Breaker.recovery_timeout self ->
  Breaker.call self clk func w = (Raised Breaker.CircuitIsOpen, self, w) ∧
  let self' := (Breaker.call self clk func w).1.2 in
  Breaker.failure_count self' = Breaker.failure_count self ∧
  Breaker.last_failure_time self' = Breaker.last_failure_time self ∧
  Breaker.state self' = Breaker.state self.
Proof.
  intros Hs Hlft Hearly.
  assert (Hcall : Breaker.call self clk func w = (Raised Breaker.CircuitIsOpen, self, w)).
  { apply call_rejected; [done|]. intros t' Ht'. rewrite Hlft in Ht'. by injection Ht' as <-. }
  by rewrite Hcall.
Qed.

Lemma rejected_call_changes_nothing_witness :
  let opened := Breaker.mkCircuitBreaker 5 60 5 (Some 1000) Breaker.OPEN in
  Breaker.call opened (Breaker.mkClockReads 1059 1059) failing_op 7%nat
    = (Raised Breaker.CircuitIsOpen, opened, 7%nat).
Proof.
  exact (proj1 (rejected_call_changes_nothing
    (Breaker.mkCircuitBreaker 5 60 5 (Some 1000) Breaker.OPEN)
    (Breaker.mkClockReads 1059 1059) failing_op 7%nat 1000
    eq_refl eq_refl ltac:(simpl; lia))).
Defined.

(** ** Retry wrapper *)

Section RetryFacts.
Import Py PubSub.
Context {W E A : Type} (retry_on : E -> bool) (wait : nat -> Z) (reraise : bool)
  (stop_after : nat).
Implicit Types (fn : W -> PyResult E A * W) (w : W).

Lemma attempt_loop_unretried fn left w e w' :
  fn w = (Raised e, w') -> retry_on e = false ->
  attempt_loop retry_on wait reraise stop_after left fn w = (Raised (Unretried e), [], w').
Proof. intros Hf He. destruct left; simpl; by rewrite Hf, He. Qed.

Lemma attempt_loop_exhausted fn w e w' :
  fn w = (Raised e, w') -> retry_on e = true ->
  attempt_loop retry_on wait false stop_after 0 fn w = (Raised (RetryError e), [], w').
Proof. intros Hf He. simpl. by rewrite Hf, He. Qed.

End RetryFacts.

Section PublishRetryFacts.
Import Py PubSub.
Context {W : Type}.
Implicit Types (client : Transport W) (w : W).

Lemma streak_delays_length wait stop_after n left :
  length (PubSub.streak_delays wait stop_after n left) = n.
Proof. induction n as [|n IH]; simpl; [done|]. by rewrite IH. Qed.

Lemma attempt_loop_streak {V A : Type} (fn : V -> PyResult TransportError A * V)
    wait reraise stop_after n left (v v' : V) :
  transient_streak fn n v v' ->
  attempt_loop is_transient wait reraise stop_after (n + left) fn v =
  let '(r, delays, v'') := attempt_loop is_transient wait reraise stop_after left fn v' in
  (r, PubSub.streak_delays wait stop_after n left ++ delays, v'').
Proof.
  induction 1 as [v | n v e v1 v' Hf He Hstreak IH].
  - simpl. by destruct (attempt_loop _ _ _ _ _ _ _) as [[r ds] v''].
  - cbn [Nat.add attempt_loop]. rewrite Hf, He, IH.
    destruct (attempt_loop is_transient wait reraise stop_after left fn v') as [[r ds] v''].
    reflexivity.
Qed.

Lemma body_recording self client topic msg log w :
  using_mock self = false ->
  _publish_message_body self (recording client) topic msg (log, w) =
  let '(r, w') := _publish_message_body self client topic msg w in
  (r, (log ++ [(topic, msg)], w')).
Proof. intros Hreal. unfold _publish_message_body, recording. by rewrite Hreal. Qed.

Lemma streak_recording self client topic msg n w w' log :
  using_mock self = false ->
  transient_streak (_publish_message_body self client topic msg) n w w' ->
  transient_streak (_publish_message_body self (recording client) topic msg) n
    (log, w) (log ++ replicate n (topic, msg), w').
Proof.
  intros Hreal Hstreak. revert log.
  induction Hstreak as [w | n w e w1 w' Hf He Hstreak IH]; intros log.
  - simpl. rewrite app_nil_r. constructor.
  - eapply streak_cons with (e := e) (w1 := (log ++ [(topic, msg)], w1)).
    + rewrite body_recording by done. by rewrite Hf.
    + done.
    + specialize (IH (log ++ [(topic, msg)])).
      by rewrite <- app_assoc in IH.
Qed.

End PublishRetryFacts.

(** C3 (as amended).  With every message handed to the transport written
    down: if the three attempts all raise an error of the allow-list
    (service-unavailable, deadline-exceeded, internal-error), the transport
    is handed the message exactly 3 times, with two back-off sleeps in
    between, and the wrapper then raises the library's RetryError holding
    the error of the third attempt (not that error itself); if an attempt,
    after k < 3 transient failures, raises an error outside the allow-list,
    that very error is raised at once and the transport has been handed the
    message exactly k + 1 times. *)
Theorem retry_wrapper_outcomes {W : Type} (self : PubSub.PubSubService)
    (client : PubSub.Transport W) (topic : string) (msg : gmap string Py.JsonToken) :
  let fn := PubSub._publish_message_body self client topic msg in
  let decorated := PubSub._publish_message self (PubSub.recording client) topic msg in
  (∀ w w2 e w3 log,
     PubSub.transient_streak fn 2 w w2 ->
     fn w2 = (Raised e, w3) -> PubSub.is_transient e = true ->
     ∃ delays,
       length delays = 2%nat ∧
       decorated (log, w) =
         (Raised (PubSub.RetryError e), delays, (log ++ replicate 3 (topic, msg), w3))) ∧
  (∀ k w wk e w' log,
     (k < PubSub.max_attempts)%nat ->
     PubSub.transient_streak fn k w wk ->
     fn wk = (Raised e, w') -> PubSub.is_transient e = false ->
     ∃ delays,
       length delays = k ∧
       decorated (log, w) =
         (Raised (PubSub.Unretried e), delays, (log ++ replicate (S k) (topic, msg), w'))).
Proof.
  intros fn decorated.
  destruct (PubSub.using_mock self) eqn:Hreal.
  { (* in mock mode the body returns at once and never raises *)
    split; intros; subst fn; unfold PubSub._publish_message_body in *;
      rewrite Hreal in *; discriminate. }
  split.
  - intros w w2 e w3 log Hstreak Hf He.
    unfold decorated, PubSub._publish_message, PubSub.retry.
    exists (PubSub.streak_delays (PubSub.wait_exponential 1 1 10) PubSub.max_attempts 2 0).
    split; [apply streak_delays_length|].
    change (PubSub.max_attempts - 1)%nat with (2 + 0)%nat.
    rewrite (attempt_loop_streak _ _ _ _ 2 0 _ _
               (streak_recording self client topic msg 2 w w2 log Hreal Hstreak)).
    rewrite (attempt_loop_exhausted _ _ _ _ _ e (log ++ replicate 3 (topic, msg), w3));
      [by rewrite app_nil_r| |done].
    rewrite body_recording by done. fold fn. rewrite Hf.
    by rewrite (replicate_S_end 2), app_assoc.
  - intros k w wk e w' log Hk Hstreak Hf He.
    unfold decorated, PubSub._publish_message, PubSub.retry.
    exists (PubSub.streak_delays (PubSub.wait_exponential 1 1 10) PubSub.max_attempts k (2 - k)).
    split; [apply streak_delays_length|].
    replace (PubSub.max_attempts - 1)%nat with (k + (2 - k))%nat
      by (unfold PubSub.max_attempts in *; lia).
    rewrite (attempt_loop_streak _ _ _ _ k (2 - k) _ _
               (streak_recording self client topic msg k w wk log Hreal Hstreak)).
    rewrite (attempt_loop_unretried _ _ _ _ _ _ _ e (log ++ replicate (S k) (topic, msg), w'));
      [by rewrite app_nil_r| |done].
    rewrite body_recording by done. fold fn. rewrite Hf.
    by rewrite (replicate_S_end k), app_assoc.
Qed.

(** The statement of C3 without its amendment fails: with a transport that
    is always unavailable, the caller does not get the last
    service-unavailable error itself but the library's RetryError. *)
Lemma retry_exhaustion_raises_retry_error :
  let outcome :=
    (PubSub._publish_message real_service (PubSub.recording unavailable_transport)
       temperature_path ∅ ([], 0%nat)).1.1 in
  outcome = Raised (PubSub.RetryError PubSub.ServiceUnavailable) ∧
  outcome ≠ Raised (PubSub.Unretried PubSub.ServiceUnavailable).
Proof. split; [reflexivity | discriminate]. Qed.

Lemma retry_wrapper_outcomes_witness :
  ∃ delays,
    length delays = 2%nat ∧
    PubSub._publish_message real_service (PubSub.recording unavailable_transport)
      temperature_path ∅ ([], 0%nat) =
    (Raised (PubSub.RetryError PubSub.ServiceUnavailable), delays,
     ([] ++ replicate 3 (temperature_path, ∅), 3%nat)).
Proof.
  refine (proj1 (retry_wrapper_outcomes real_service unavailable_transport
            temperature_path ∅)
            0%nat 2%nat PubSub.ServiceUnavailable 3%nat [] _ eq_refl eq_refl).
  eapply PubSub.streak_cons; [reflexivity | reflexivity |].
  eapply PubSub.streak_cons; [reflexivity | reflexivity |].
  apply PubSub.streak_nil.
Defined.

(** ** Mock transport buffer *)

Section MockFacts.
Import Py MockPubSub.

Lemma buffer_store (pm : gmap string (list MockPubSubMessage)) (t t' : string)
    (b : list MockPubSubMessage) :
  default [] (<[t := b]> pm !! t') = if decide (t = t') then b else default [] (pm !! t').
Proof.
  destruct (decide (t = t')) as [->|Hne].
  - by rewrite lookup_insert_eq.
  - by rewrite lookup_insert_ne.
Qed.

Lemma publish_bounded c clock path d :
  buffers_bounded c -> buffers_bounded (publish c clock path d).2.
Proof.
  intros [Hmax Hlen]. unfold publish. rewrite Hmax.
  pose proof (Hlen (last_segment path)) as Hb.
  destruct (Z.leb_spec 1000 (Z.of_nat (length (buffer c (last_segment path))))) as [Hfull|Hroom].
  - destruct (buffer c (last_segment path)) as [|oldest rest] eqn:Hbuf; simpl in *; [lia|].
    split; [done|]. intros t. unfold buffer at 1. simpl. rewrite buffer_store.
    case_decide; [|apply Hlen]. rewrite length_app. simpl. lia.
  - split; [done|]. intros t. unfold buffer at 1. simpl. rewrite buffer_store.
    case_decide; [|apply Hlen]. rewrite length_app. simpl. lia.
Qed.

Lemma clear_bounded c t : buffers_bounded c -> buffers_bounded (clear_messages c t).
Proof.
  intros [Hmax Hlen]. split; [done|]. intros t'. unfold buffer, clear_messages. simpl.
  destruct t as [t|]; [|rewrite lookup_empty; simpl; lia].
  destruct (String.eqb t ""); [rewrite lookup_empty; simpl; lia|].
  rewrite buffer_store. case_decide; [simpl; lia|apply Hlen].
Qed.

Lemma client_run_bounded ops c :
  buffers_bounded c -> buffers_bounded (client_run c ops).
Proof.
  revert c. induction ops as [|op ops IH]; intros c Hc; [done|].
  simpl. apply IH. destruct op; simpl; [by apply publish_bounded|by apply clear_bounded].
Qed.

End MockFacts.

(** C5.  Whatever the sequence of publishes (and clears) applied to the
    fresh mock client, no topic buffer holds more than 1000 messages; a
    publish to a topic whose buffer holds 1000 succeeds, drops exactly the
    oldest message of that topic and appends the new one at the end, the
    other topics being left alone; below the cap nothing is dropped. *)
Theorem mock_buffer_capped_fifo :
  (∀ gcp ops topic_name,
     (length (MockPubSub.buffer
                (MockPubSub.client_run (MockPubSub.client_init gcp) ops) topic_name)
      <= 1000)%nat) ∧
  (∀ gcp ops clock path d,
     let c := MockPubSub.client_run (MockPubSub.client_init gcp) ops in
     let topic_name := Py.last_segment path in
     let c' := (MockPubSub.publish c clock path d).2 in
     ∃ id,
       (MockPubSub.publish c clock path d).1 = Returned id ∧
       (∀ other, other ≠ topic_name ->
                 MockPubSub.buffer c' other = MockPubSub.buffer c other) ∧
       let new := MockPubSub.mkMessage id topic_name d (MockPubSub.datetime_now clock) in
       (∀ oldest rest,
          MockPubSub.buffer c topic_name = oldest :: rest ->
          length (oldest :: rest) = 1000%nat ->
          MockPubSub.buffer c' topic_name = rest ++ [new]) ∧
       ((length (MockPubSub.buffer c topic_name) < 1000)%nat ->
        MockPubSub.buffer c' topic_name = MockPubSub.buffer c topic_name ++ [new])).
Proof.
  assert (Hinit : ∀ gcp, MockPubSub.buffers_bounded (MockPubSub.client_init gcp)).
  { intros gcp. split; [done|]. intros t. unfold MockPubSub.buffer. simpl.
    rewrite lookup_empty. simpl. lia. }
  split.
  - intros gcp ops topic_name.
    by destruct (client_run_bounded ops _ (Hinit gcp)) as [_ Hlen].
  - intros gcp ops clock path d c topic_name c'.
    destruct (client_run_bounded ops _ (Hinit gcp)) as [Hmax Hlen]. fold c in Hmax, Hlen.
    pose proof (Hlen topic_name) as Hb.
    subst c'. unfold MockPubSub.publish. fold topic_name. rewrite Hmax.
    destruct (Z.leb_spec 1000 (Z.of_nat (length (MockPubSub.buffer c topic_name))))
      as [Hfull|Hroom].
    + destruct (MockPubSub.buffer c topic_name) as [|oldest rest] eqn:Hbuf;
        [simpl in Hfull; lia|].
      eexists. split; [reflexivity|]. cbn [snd]. split; [|split].
      * intros other Hne. unfold MockPubSub.buffer at 1. simpl.
        rewrite buffer_store. by case_decide.
      * intros oldest' rest' [= <- <-] _. unfold MockPubSub.buffer at 1. simpl.
        rewrite buffer_store. by case_decide.
      * intros Hlt. simpl in Hlt, Hfull. lia.
    + eexists. split; [reflexivity|]. cbn [snd]. split; [|split].
      * intros other Hne. unfold MockPubSub.buffer at 1. simpl.
        rewrite buffer_store. by case_decide.
      * intros oldest rest Hbuf Hlen'. rewrite Hbuf in Hroom. lia.
      * intros _. unfold MockPubSub.buffer at 1. simpl.
        rewrite buffer_store. by case_decide.
Qed.

Lemma mock_buffer_capped_fifo_witness :
  let clock := MockPubSub.mkMockClock 1705320060 1705320060 in
  let after := (MockPubSub.publish full_client clock temperature_path ∅).2 in
  length (MockPubSub.buffer full_client "sensor-temperature") = 1000%nat ∧
  MockPubSub.message_id <$> head (MockPubSub.buffer full_client "sensor-temperature")
    = Some "mock-msg-1705320000-1" ∧
  MockPubSub.buffer after "sensor-temperature" =
    tail (MockPubSub.buffer full_client "sensor-temperature") ++
    [MockPubSub.mkMessage "mock-msg-1705320060-1001" "sensor-temperature" ∅ 1705320060].
Proof.
  split; [vm_compute; reflexivity|]. split; [vm_compute; reflexivity|].
  destruct (proj2 mock_buffer_capped_fifo "demo"
              (replicate 1000
                 (MockPubSub.OpPublish (MockPubSub.mkMockClock 1705320000 1705320000)
                    temperature_path ∅))
              (MockPubSub.mkMockClock 1705320060 1705320060) temperature_path ∅)
    as (id & Hid & _ & Hfull & _).
  assert (id = "mock-msg-1705320060-1001") as ->.
  { vm_compute in Hid. by injection Hid as <-. }
  apply (Hfull (default (MockPubSub.mkMessage "" "" ∅ 0)
                  (head (MockPubSub.buffer full_client "sensor-temperature")))).
  - vm_compute. reflexivity.
  - vm_compute. reflexivity.
Defined.

(** ** Publish pipeline *)

Section PublishFacts.
Import Py PubSub.
Context {parsers : Parsers} {W : Type}.
Implicit Types (client : Transport W) (w : W).

Lemma transform_wire_schema utcnow_iso (data transformed : gmap string PyVal) :
  _transform_data_for_avro_schema utcnow_iso data = Returned transformed ->
  wire_schema data utcnow_iso (json_dumps transformed).
Proof.
  unfold _transform_data_for_avro_schema, wire_schema.
  destruct (py_int _) as [z|e]; [|discriminate]. simpl.
  destruct (py_float (dict_get_default data "value" _)) as [v|e]; [|discriminate]. simpl.
  destruct (py_float (dict_get_default data "latitude" _)) as [la|e]; [|discriminate]. simpl.
  destruct (py_float (dict_get_default data "longitude" _)) as [lo|e]; [|discriminate]. simpl.
  intros [= <-]. unfold json_dumps.
  repeat split; try (eexists; split; [reflexivity|]); rewrite lookup_fmap; reflexivity.
Qed.

(** Under the decorator, the recording transport is handed the same topic
    and message at every attempt, and at least once. *)
Lemma attempt_loop_log self client topic msg wait reraise stop_after left log w :
  using_mock self = false ->
  ∃ n, (attempt_loop is_transient wait reraise stop_after left
          (_publish_message_body self (recording client) topic msg) (log, w)).2.1
       = log ++ replicate (S n) (topic, msg).
Proof.
  intros Hreal. revert log w. induction left as [|left IH]; intros log w.
  - exists 0%nat. cbn [attempt_loop]. rewrite body_recording by done.
    destruct (_publish_message_body self client topic msg w) as [[r|e] w']; [done|].
    by destruct (is_transient e).
  - cbn [attempt_loop]. rewrite body_recording by done.
    destruct (_publish_message_body self client topic msg w) as [[r|e] w'];
      [by exists 0%nat|].
    destruct (is_transient e); [|by exists 0%nat].
    destruct (IH (log ++ [(topic, msg)]) w') as [n Hn].
    destruct (attempt_loop _ _ _ _ _ _ _) as [[r ds] [log' w'']]. simpl in *.
    exists (S n). rewrite Hn. by rewrite <- app_assoc.
Qed.

End PublishFacts.

(** C4 (as amended).  On the real transport, every payload that
    [publish_sensor_data] hands to the transport's publish is the reading
    normalised to the wire schema (device_id an integer, value, latitude
    and longitude floats, timestamp a string: the reading's own when it is
    one, the current UTC time in ISO format otherwise), and a call that
    returns has handed over at least one.  On the mock transport the
    reading is serialised as it stands, without normalisation, and put in
    the topic's buffer; the real transport is not touched. *)
Theorem payload_normalized_on_real_transport {parsers : Py.Parsers} {W : Type}
    (self : PubSub.PubSubService) (env : PubSub.Env) (client : PubSub.Transport W)
    (sensor_type : string) (data : gmap string Py.PyVal) (w : W) :
  (PubSub.using_mock self = false ->
   ∀ log,
     let '(res, _, (log', _)) :=
       PubSub.publish_sensor_data self env (PubSub.recording client) sensor_type data (log, w) in
     ∃ sent,
       log' = log ++ sent ∧
       Forall (λ tp, PubSub.wire_schema data (PubSub.utcnow_iso env) tp.2) sent ∧
       (is_returned res = true -> sent ≠ [])) ∧
  (PubSub.using_mock self = true ->
   let '(res, self', w') := PubSub.publish_sensor_data self env client sensor_type data w in
   w' = w ∧
   ∀ id, res = Returned id ->
     ∃ m' topic_name front,
       PubSub.backend self' = PubSub.MockBackend m' ∧
       MockPubSub.buffer (MockPubSub.client m') topic_name =
         front ++ [MockPubSub.mkMessage id topic_name (Py.json_dumps data)
                     (MockPubSub.datetime_now (PubSub.mock_clock env))]).
Proof.
  split.
  - intros Hreal log. unfold PubSub.publish_sensor_data.
    pose proof Hreal as Hmode. unfold PubSub.using_mock in Hmode.
    destruct (PubSub.backend self) as [cb|m]; [|discriminate].
    destruct (PubSub.get_topic_path self sensor_type) as [path|e].
    2:{ exists []. rewrite app_nil_r. repeat split; [constructor|discriminate]. }
    destruct (PubSub._transform_data_for_avro_schema _ data) as [t|e] eqn:Ht.
    2:{ exists []. rewrite app_nil_r. repeat split; [constructor|discriminate]. }
    unfold Breaker.call.
    destruct (Breaker.entry_check cb _) as [cb1|].
    2:{ exists []. rewrite app_nil_r. repeat split; [constructor|discriminate]. }
    unfold PubSub._publish_message, PubSub.retry.
    destruct (attempt_loop_log self client path (Py.json_dumps t)
                (PubSub.wait_exponential 1 1 10) false PubSub.max_attempts
                (PubSub.max_attempts - 1) log w Hreal) as [n Hn].
    destruct (PubSub.attempt_loop _ _ _ _ _ _ _) as [[r ds] [log' w']]. simpl in Hn.
    assert (Hsent : Forall (λ tp, PubSub.wire_schema data (PubSub.utcnow_iso env) tp.2)
                      (replicate (S n) (path, Py.json_dumps t))).
    { apply Forall_forall. intros x [-> _]%elem_of_replicate.
      by apply transform_wire_schema. }
    destruct r as [id|e]; exists (replicate (S n) (path, Py.json_dumps t));
      (split; [done|]); (split; [exact Hsent|done]).
  - intros Hmock. unfold PubSub.publish_sensor_data.
    unfold PubSub.using_mock in Hmock.
    destruct (PubSub.backend self) as [cb|m]; [discriminate|].
    unfold MockPubSub.publish_sensor_data.
    destruct (MockPubSub.get_topic_path m sensor_type) as [path|e]; [|by split].
    unfold MockPubSub.mock_call, MockPubSub._publish_message, MockPubSub.publish.
    set (topic_name := Py.last_segment path).
    destruct (MockPubSub.max_messages_per_topic (MockPubSub.client m) <=? _).
    + destruct (MockPubSub.buffer (MockPubSub.client m) topic_name) as [|oldest rest];
        (split; [done|]); intros id [= <-].
      eexists _, topic_name, rest. split; [reflexivity|].
      unfold MockPubSub.buffer. simpl. by rewrite lookup_insert_eq.
    + split; [done|]. intros id [= <-].
      eexists _, topic_name, _. split; [reflexivity|].
      unfold MockPubSub.buffer at 1. simpl. by rewrite lookup_insert_eq.
Qed.

(** The statement of C4 without its amendment fails on the mock transport:
    a reading whose value was validated as a Decimal is published with that
    value written as text, not as a floating-point number. *)
Lemma mock_payload_keeps_decimal_as_text :
  let '(res, self', _) :=
    PubSub.publish_sensor_data (parsers := plain_parsers) mock_service test_env
      accepting_transport "temperature" decimal_reading 0%nat in
  res = Returned "mock-msg-1705320000-1" ∧
  ∃ m' msg,
    PubSub.backend self' = PubSub.MockBackend m' ∧
    MockPubSub.buffer (MockPubSub.client m') "sensor-temperature" = [msg] ∧
    MockPubSub.data msg !! "value" = Some (Py.JTextOf (Py.VDecimal (47 # 2))) ∧
    ¬ ∃ q, MockPubSub.data msg !! "value" = Some (Py.JNumReal q).
Proof.
  vm_compute. split; [reflexivity|].
  eexists _, _. split; [reflexivity|]. split; [vm_compute; reflexivity|].
  split; [vm_compute; reflexivity|].
  intros [q Hq]. vm_compute in Hq. discriminate.
Qed.

Lemma payload_normalized_on_real_transport_witness :
  PubSub.using_mock real_service = false ∧
  let '(res, _, (log', _)) :=
    PubSub.publish_sensor_data (parsers := plain_parsers) real_service test_env
      (PubSub.recording accepting_transport) "temperature" float_reading ([], 0%nat) in
  ∃ sent,
    log' = [] ++ sent ∧
    Forall (λ tp, PubSub.wire_schema (parsers := plain_parsers) float_reading
                    (PubSub.utcnow_iso test_env) tp.2) sent ∧
    (is_returned res = true -> sent ≠ []).
Proof.
  split; [reflexivity|].
  exact (proj1 (payload_normalized_on_real_transport (parsers := plain_parsers)
                  real_service test_env accepting_transport "temperature"
                  float_reading 0%nat) eq_refl []).
Defined.

(** ** History parameters and the query builder *)

Section StringFacts.

Lemma string_app_cons (c : ascii) (s t : string) :
  String c s +:+ t = String c (s +:+ t).
Proof. reflexivity. Qed.



Lemma string_app_nil_r (s : string) : s +:+ "" = s.
Proof. induction s as [|c s IH]; [done|]. by rewrite string_app_cons, IH. Qed.

Lemma string_app_assoc (s t u : string) : (s +:+ t) +:+ u = s +:+ t +:+ u.
Proof. induction s as [|c s IH]; [done|]. by rewrite !string_app_cons, IH. Qed.



End StringFacts.

Section HistoryFacts.
Import Py History.





End HistoryFacts.



Section QueryBuilderFacts.
Import Py History Influx.
Context {printers : Printers}.












End QueryBuilderFacts.



(** ** Aggregated history *)

Section AggregationFacts.
Import Py History Influx.
Context {parsers : Parsers}.







End AggregationFacts.



(** ** Device list *)

Section DeviceFacts.
Import Py History Influx.
Context {parsers : Parsers} {W : Type}.
Implicit Types (store : Store W) (w : W).

Lemma device_info_of_incomplete device_id f :
  sensor_types f = [] ∨ truthy (first_seen f) = false ∨ truthy (last_seen f) = false ->
  device_info_of device_id f = None.
Proof.
  unfold device_info_of. intros [Hs|[Hf|Hl]].
  - rewrite Hs. by rewrite bool_decide_eq_true_2.
  - rewrite Hf. simpl. by rewrite orb_true_r.
  - rewrite Hl. simpl. by rewrite orb_true_r.
Qed.

Lemma device_info_of_complete device_id f t1 t2 :
  sensor_types f ≠ [] -> first_seen f = VDatetime t1 -> last_seen f = VDatetime t2 ->
  device_info_of device_id f =
    Some {| info_device_id := device_id;
            info_sensor_types := remove_dups (sensor_types f);
            info_first_seen := t1;
            info_last_seen := t2;
            info_total_measurements := total_measurements f;
            info_last_location := last_location f |}.
Proof.
  unfold device_info_of. intros Hs -> ->.
  by rewrite bool_decide_eq_false_2.
Qed.

Lemma device_info_of_some device_id f info :
  device_info_of device_id f = Some info ->
  sensor_types f ≠ [] ∧ truthy (first_seen f) = true ∧ truthy (last_seen f) = true ∧
  info_device_id info = device_id.
Proof.
  unfold device_info_of.
  destruct (bool_decide (sensor_types f = [])) eqn:Hs; [discriminate|].
  destruct (truthy (first_seen f)); [|discriminate].
  destruct (truthy (last_seen f)); [|discriminate]. simpl.
  destruct (as_datetime (first_seen f)); [|discriminate].
  destruct (as_datetime (last_seen f)); [|discriminate]. simpl.
  intros [= <-]. split; [|done]. by apply bool_decide_eq_false in Hs.
Qed.

Lemma collect_devices_runs self store sensor_type device_ids w :
  (collect_devices self store sensor_type device_ids w).1 =
    omap (λ run, run.2) (device_runs self store sensor_type device_ids w) ∧
  map (λ run, run.1.1) (device_runs self store sensor_type device_ids w) = device_ids ∧
  Forall (λ run, (_get_device_info self store run.1.1 sensor_type run.1.2).1 = run.2)
    (device_runs self store sensor_type device_ids w).
Proof.
  revert w. induction device_ids as [|device_id rest IH]; intros w.
  - repeat split; constructor.
  - cbn [collect_devices device_runs].
    destruct (_get_device_info self store device_id sensor_type w) as [res w1] eqn:Hinfo.
    destruct (IH w1) as (Hdevices & Hids & Hruns).
    destruct (collect_devices self store sensor_type rest w1) as [devices w2].
    cbn [fst snd] in *. split; [|split].
    + cbn [omap list_omap snd]. rewrite <- Hdevices. by destruct res.
    + cbn [map fst snd]. by rewrite Hids.
    + constructor; [|done]. cbn [fst snd]. by rewrite Hinfo.
Qed.

End DeviceFacts.

(** C8.  For one device: when the rows that the store returns for it fold
    to facets with no sensor type, or with no first-seen or no last-seen
    timestamp, [_get_device_info] returns None; it returns a DeviceInfo
    only from facets that have all three, and does so whenever the three
    are there (a non-empty list of sensor types and two datetimes).  For
    the list: once the listing query has given the device ids, the
    operation returns (it does not fail on any device), and what it returns
    is, in order, the DeviceInfo of every listed device whose
    [_get_device_info] gave one; a device for which it gave None is left
    out. *)
Theorem incomplete_devices_omitted {parsers : Py.Parsers} {W : Type}
    (self : Influx.InfluxDBService) (store : Influx.Store W)
    (sensor_type : option History.SensorType) :
  (∀ device_id w tables w' f,
     store (Influx.device_info_query self device_id (Influx.sensor_filter sensor_type)) w
       = (Returned tables, w') ->
     Influx.fold_tables Influx.no_facets tables = Returned f ->
     (Influx.sensor_types f = [] ∨
      Py.truthy (Influx.first_seen f) = false ∨
      Py.truthy (Influx.last_seen f) = false ->
      Influx._get_device_info self store device_id sensor_type w = (None, w')) ∧
     (∀ info,
        Influx._get_device_info self store device_id sensor_type w = (Some info, w') ->
        Influx.sensor_types f ≠ [] ∧
        Py.truthy (Influx.first_seen f) = true ∧
        Py.truthy (Influx.last_seen f) = true) ∧
     (∀ t1 t2,
        Influx.sensor_types f ≠ [] ->
        Influx.first_seen f = Py.VDatetime t1 ->
        Influx.last_seen f = Py.VDatetime t2 ->
        Influx._get_device_info self store device_id sensor_type w =
          (Some {| Influx.info_device_id := device_id;
                   Influx.info_sensor_types := remove_dups (Influx.sensor_types f);
                   Influx.info_first_seen := t1;
                   Influx.info_last_seen := t2;
                   Influx.info_total_measurements := Influx.total_measurements f;
                   Influx.info_last_location := Influx.last_location f |}, w'))) ∧
  (∀ w tables w1 device_ids,
     store (Influx.device_list_query self (Influx.sensor_filter sensor_type)) w
       = (Returned tables, w1) ->
     Influx.listed_device_ids (concat tables) = Returned device_ids ->
     let runs := Influx.device_runs self store sensor_type device_ids w1 in
     (Influx.get_device_list self store sensor_type w).1
       = Returned (omap (λ run, run.2) runs) ∧
     map (λ run, run.1.1) runs = device_ids ∧
     Forall (λ run, (Influx._get_device_info self store run.1.1 sensor_type run.1.2).1
                    = run.2) runs).
Proof.
  split.
  - intros device_id w tables w' f Hstore Hfold. unfold Influx._get_device_info.
    rewrite Hstore, Hfold. split; [|split].
    + intros Hmissing. by rewrite device_info_of_incomplete.
    + intros info [= Hinfo]. apply device_info_of_some in Hinfo. tauto.
    + intros t1 t2 Hs Hf Hl. by rewrite (device_info_of_complete _ _ t1 t2).
  - intros w tables w1 device_ids Hstore Hids runs.
    destruct (collect_devices_runs self store sensor_type device_ids w1)
      as (Hdevices & Hmap & Hruns).
    split; [|by split].
    unfold Influx.get_device_list. rewrite Hstore, Hids.
    destruct (Influx.collect_devices self store sensor_type device_ids w1) as [devices w2].
    cbn [fst snd] in *. by rewrite Hdevices.
Qed.

Lemma incomplete_devices_omitted_witness :
  (Influx.get_device_list (parsers := plain_parsers) test_influx
     (scripted_store device_answers) None 0%nat).1
  = Returned [Influx.mkDeviceInfo 1 [History.TEMPERATURE] 100 200 0 (0, 0)%Q].
Proof.
  destruct (proj2 (incomplete_devices_omitted (parsers := plain_parsers) test_influx
                     (scripted_store device_answers) None)
              0%nat [[device_id_row "1"; device_id_row "2"]] 1%nat [1; 2]
              eq_refl eq_refl) as (Hlist & _ & _).
  rewrite Hlist. vm_compute. reflexivity.
Defined.

(* ===================================================================== *)
(** * Further properties of the code *)
(* ===================================================================== *)

(** ** Circuit breaker: invariant and streaks *)

Section BreakerStateFacts.
Import Breaker BreakerState.
Context {W E A : Type}.
Implicit Types (self : CircuitBreaker) (clk : ClockReads)
  (func : W -> PyResult E A * W) (w : W)
  (calls : list (ClockReads * (W -> PyResult E A * W))).

Lemma settled_init N T : settled N T (init N T).
Proof.
  unfold settled, init. simpl. repeat split; try done; try lia.
  all: try (intros _; by left).
Qed.

Lemma settled_call N T self clk func w :
  settled N T self -> settled N T (call self clk func w).1.2.
Proof.
  intros (Hthr & Hto & Hhalf & Hpos & Hopen & Hclosed & Hnone).
  assert (Hfail : ∀ self1 now,
            failure_threshold self1 = N -> recovery_timeout self1 = T ->
            failure_count self1 = failure_count self ->
            (state self1 = CLOSED -> state self = CLOSED) ->
            (state self1 = OPEN -> False) ->
            (state self1 = HALF_OPEN -> N <= failure_count self) ->
            settled N T (_on_failure self1 now)).
  { intros self1 now H1 H2 H3 H4 H5 H6. unfold settled, _on_failure. simpl.
    rewrite H1, H3.
    destruct (Z.leb_spec N (failure_count self + 1)) as [Hle|Hlt].
    - repeat split; try done; try lia; try (intros; discriminate).
      all: try (intros _; split; [lia|by eexists]).
    - destruct (state self1) eqn:Hs1.
      + repeat split; try done; try lia; try (intros; discriminate).
        all: try (intros _; right; lia).
      + by destruct H5.
      + specialize (H6 eq_refl). lia. }
  assert (Hok : ∀ self1,
            failure_threshold self1 = N -> recovery_timeout self1 = T ->
            last_failure_time self1 = last_failure_time self ->
            settled N T (_on_success self1)).
  { intros self1 H1 H2 H3. unfold settled, _on_success. simpl.
    repeat split; try done; try lia; try (intros; discriminate).
    all: try (intros _; by left). }
  unfold call, entry_check.
  destruct (state self) eqn:Hs; [| |done].
  - destruct (func w) as [[r|e] w']; cbn [fst snd].
    + by apply Hok.
    + apply Hfail; try done; rewrite Hs; discriminate.
  - destruct (Hopen eq_refl) as [Hge Hsome].
    destruct (_should_attempt_reset self (at_check clk)).
    + destruct (func w) as [[r|e] w']; cbn [fst snd].
      * by apply Hok.
      * apply Hfail; try done; simpl; discriminate.
    + cbn [fst snd]. unfold settled. by rewrite Hs.
Qed.

Lemma settled_run N T self calls w :
  settled N T self ->
  Forall (λ x, settled N T x.2) (run self calls w).1 ∧
  settled N T (final self (run self calls w).1).
Proof.
  revert self w. induction calls as [|[clk func] calls IH]; intros self w Hs.
  - split; [constructor|done].
  - cbn [run].
    pose proof (settled_call N T self clk func w Hs) as Hs'.
    destruct (call self clk func w) as [[r self'] w'].
    destruct (IH self' w' Hs') as [Hall Hfin].
    destruct (run self' calls w') as [tr w'']. cbn [fst snd] in *.
    rewrite final_cons. split; [by constructor|done].
Qed.

(** An OPEN breaker stays OPEN as long as the wrapped function fails,
    whether the calls are rejected or let through as trials. *)
Lemma open_stays_open N T self calls w :
  settled N T self -> state self = OPEN ->
  Forall (λ c, always_raises c.2) calls ->
  state (final self (run self calls w).1) = OPEN.
Proof.
  revert self w. induction calls as [|[clk func] calls IH]; intros self w Hset Hs Hall.
  - done.
  - apply Forall_cons in Hall as [Hf Hall]. simpl in Hf.
    cbn [run].
    pose proof (settled_call N T self clk func w Hset) as Hset'.
    assert (Hs' : state (call self clk func w).1.2 = OPEN).
    { destruct Hset as (Hthr & _ & _ & _ & Hopen & _).
      destruct (Hopen Hs) as [Hge _].
      unfold call, entry_check. rewrite Hs.
      destruct (_should_attempt_reset self (at_check clk)); [|done].
      destruct (Hf w) as (e & w' & ->). simpl. rewrite Hthr.
      by destruct (Z.leb_spec N (failure_count self + 1)); [|lia]. }
    destruct (call self clk func w) as [[r self'] w'].
    cbn [fst snd] in *.
    specialize (IH self' w' Hset' Hs' Hall).
    destruct (run self' calls w') as [tr w'']. cbn [fst snd] in *.
    by rewrite final_cons.
Qed.

End BreakerStateFacts.

(** X1.  Between two calls, a breaker constructed with threshold N and
    timeout T and driven by any sequence of calls (whatever the wrapped
    functions do and whatever the clock reads) keeps its threshold and its
    timeout, is never left HALF_OPEN, has a non-negative failure_count, is
    OPEN only with failure_count >= N and a last_failure_time, is CLOSED
    only with failure_count 0 or below N, and has a failure_count of 0 as
    long as no failure time was recorded. *)
Theorem breaker_settled_after_every_call {W E A : Type} (N T : Z)
    (calls : list (Breaker.ClockReads * (W -> PyResult E A * W))) (w : W) :
  Forall (λ x, BreakerState.settled N T x.2)
    (Breaker.run (Breaker.init N T) calls w).1.
Proof. apply settled_run, settled_init. Qed.

Section BreakerStreakFacts.
Import Breaker BreakerState.
Context {W E A : Type}.
Implicit Types (self : CircuitBreaker) (clk : ClockReads)
  (func : W -> PyResult E A * W) (w : W)
  (calls : list (ClockReads * (W -> PyResult E A * W))).

Lemma final_app self (tr1 tr2 : list (PyResult (CallError E) A * CircuitBreaker)) :
  final self (tr1 ++ tr2) = final (final self tr1) tr2.
Proof.
  revert self. induction tr1 as [|[r self'] tr1 IH]; intros self; [done|].
  by rewrite <- app_comm_cons, !final_cons.
Qed.

Lemma run_app_final self calls1 calls2 w :
  final self (run self (calls1 ++ calls2) w).1 =
  final (final self (run self calls1 w).1)
    (run (final self (run self calls1 w).1) calls2 (run self calls1 w).2).1.
Proof.
  rewrite run_app. destruct (run self calls1 w) as [tr1 w1]. cbn [fst snd].
  destruct (run (final self tr1) calls2 w1) as [tr2 w2]. cbn [fst snd].
  apply final_app.
Qed.

Lemma first_failure_opens N T clk func w :
  N <= 1 -> always_raises func ->
  state (call (init N T) clk func w).1.2 = OPEN.
Proof.
  intros HN Hf. destruct (Hf w) as (e & w' & Hfw).
  rewrite (call_closed_failure (init N T) _ _ _ _ _ eq_refl Hfw). simpl.
  by destruct (Z.leb_spec N (0 + 1)); [|lia].
Qed.

End BreakerStreakFacts.

(** X2.  From the fresh breaker, after k >= 1 consecutive calls whose
    wrapped function raises, whatever the clock reads, the breaker is OPEN
    if k has reached the threshold and CLOSED otherwise; a threshold of 1,
    0 or less opens it at the first failure. *)
Theorem consecutive_failures_open_iff {W E A : Type} (N T : Z)
    (calls : list (Breaker.ClockReads * (W -> PyResult E A * W))) (w : W) :
  calls ≠ [] ->
  Forall (λ c, Breaker.always_raises c.2) calls ->
  Breaker.state (Breaker.final (Breaker.init N T)
                   (Breaker.run (Breaker.init N T) calls w).1)
  = if N <=? Z.of_nat (length calls) then Breaker.OPEN else Breaker.CLOSED.
Proof.
  intros Hne Hall.
  destruct (Z.leb_spec N (Z.of_nat (length calls))) as [Hle|Hlt].
  - destruct (Z.le_gt_cases N 1) as [Hsmall|Hbig].
    + destruct calls as [|[clk func] rest]; [done|].
      apply Forall_cons in Hall as [Hf Hrest]. simpl in Hf.
      cbn [Breaker.run].
      pose proof (first_failure_opens N T clk func w Hsmall Hf) as Hopen.
      pose proof (settled_call N T _ clk func w (settled_init N T)) as Hset.
      destruct (Breaker.call (Breaker.init N T) clk func w) as [[r self'] w'].
      cbn [fst snd] in *.
      pose proof (open_stays_open N T self' rest w' Hset Hopen Hrest) as Hfin.
      destruct (Breaker.run self' rest w') as [tr w'']. cbn [fst snd] in *.
      by rewrite final_cons.
    + (* N >= 2: N-1 failures leave it CLOSED, the N-th opens it *)
      set (n := Z.to_nat (N - 1)).
      assert (Hn : (n < length calls)%nat) by lia.
      rewrite <- (take_drop n calls) in Hall |- *.
      apply Forall_app in Hall as [Hfront Hback].
      assert (Hlenf : length (take n calls) = n) by (rewrite length_take; lia).
      rewrite run_app_final.
      destruct (run_failures_below (Breaker.init N T) (take n calls) w eq_refl Hfront)
        as (_ & _ & Hst & Hcnt & Hthr & Hto).
      { simpl. rewrite Hlenf. lia. }
      pose proof (proj2 (settled_run N T (Breaker.init N T) (take n calls) w
                           (settled_init N T))) as Hset.
      set (mid := Breaker.final (Breaker.init N T)
                    (Breaker.run (Breaker.init N T) (take n calls) w).1) in *.
      set (w1 := (Breaker.run (Breaker.init N T) (take n calls) w).2).
      destruct (drop n calls) as [|[clk func] rest] eqn:Hdrop.
      { apply (f_equal length) in Hdrop. rewrite length_drop in Hdrop. simpl in Hdrop. lia. }
      apply Forall_cons in Hback as [Hf Hrest]. simpl in Hf.
      cbn [Breaker.run].
      destruct (Hf w1) as (e & w2 & Hfw).
      rewrite (call_closed_failure _ _ _ _ _ _ Hst Hfw).
      pose proof (settled_call N T mid clk func w1 Hset) as Hset'.
      rewrite (call_closed_failure _ _ _ _ _ _ Hst Hfw) in Hset'. cbn [fst snd] in Hset'.
      assert (Hopen : Breaker.state (Breaker._on_failure mid (Breaker.at_failure clk))
                      = Breaker.OPEN).
      { unfold Breaker._on_failure. simpl. rewrite Hthr, Hcnt, Hlenf. simpl.
        by destruct (Z.leb_spec N (0 + Z.of_nat n + 1)); [|lia]. }
      pose proof (open_stays_open N T _ rest w2 Hset' Hopen Hrest) as Hfin.
      destruct (Breaker.run _ rest w2) as [tr w'']. cbn [fst snd] in *.
      by rewrite final_cons.
  - destruct (run_failures_below (Breaker.init N T) calls w eq_refl Hall)
      as (_ & _ & Hst & _); [simpl; lia|done].
Qed.

Lemma consecutive_failures_open_iff_witness :
  let calls := [(Breaker.mkClockReads 0 10, failing_op);
                (Breaker.mkClockReads 11 12, failing_op)] in
  Breaker.state (Breaker.final (Breaker.init 0 60)
                   (Breaker.run (Breaker.init 0 60) calls 0%nat).1) = Breaker.OPEN ∧
  Breaker.state (Breaker.final (Breaker.init 3 60)
                   (Breaker.run (Breaker.init 3 60) calls 0%nat).1) = Breaker.CLOSED.
Proof.
  split.
  - exact (consecutive_failures_open_iff 0 60
             [(Breaker.mkClockReads 0 10, failing_op);
              (Breaker.mkClockReads 11 12, failing_op)] 0%nat
             ltac:(discriminate)
             ltac:(repeat constructor; apply failing_op_always_raises)).
  - exact (consecutive_failures_open_iff 3 60
             [(Breaker.mkClockReads 0 10, failing_op);
              (Breaker.mkClockReads 11 12, failing_op)] 0%nat
             ltac:(discriminate)
             ltac:(repeat constructor; apply failing_op_always_raises)).
Defined.

(** X3.  A call that the breaker lets through and whose wrapped function
    returns leaves the breaker CLOSED with failure_count 0, whatever it was
    before; from there, any run of fewer than failure_threshold consecutive
    failing calls reaches the wrapped function every time and leaves the
    breaker CLOSED. *)
Theorem success_restarts_failure_streak {W E A : Type} (self self' : Breaker.CircuitBreaker)
    (clk : Breaker.ClockReads) (func : W -> PyResult E A * W) (w w' : W) (r : A)
    (calls : list (Breaker.ClockReads * (W -> PyResult E A * W))) :
  Breaker.call self clk func w = (Returned r, self', w') ->
  Forall (λ c, Breaker.always_raises c.2) calls ->
  Z.of_nat (length calls) < Breaker.failure_threshold self ->
  Breaker.state self' = Breaker.CLOSED ∧
  Breaker.failure_count self' = 0 ∧
  Forall (λ x, (∃ e, x.1 = Raised (Breaker.Propagated e)) ∧
               Breaker.state x.2 = Breaker.CLOSED)
    (Breaker.run self' calls w').1.
Proof.
  intros Hcall Hall Hlen.
  assert (Hself' : Breaker.state self' = Breaker.CLOSED ∧ Breaker.failure_count self' = 0 ∧
                   Breaker.failure_threshold self' = Breaker.failure_threshold self).
  { unfold Breaker.call, Breaker.entry_check in Hcall.
    destruct (Breaker.state self).
    - destruct (func w) as [[r0|e] w0]; [|discriminate]. by injection Hcall as _ <- _.
    - destruct (Breaker._should_attempt_reset self (Breaker.at_check clk)); [|discriminate].
      destruct (func w) as [[r0|e] w0]; [|discriminate]. by injection Hcall as _ <- _.
    - destruct (func w) as [[r0|e] w0]; [|discriminate]. by injection Hcall as _ <- _. }
  destruct Hself' as (Hs & Hc & Hthr).
  split; [done|]. split; [done|].
  destruct (run_failures_below self' calls w' Hs Hall) as (Htr & _); [|done].
  rewrite Hc, Hthr. lia.
Qed.

Lemma success_restarts_failure_streak_witness :
  let worn := Breaker.mkCircuitBreaker 3 60 2 (Some 5) Breaker.CLOSED in
  let ok : nat -> PyResult unit unit * nat := λ w, (Returned tt, S w) in
  let self' := (Breaker.call worn (Breaker.mkClockReads 6 6) ok 0%nat).1.2 in
  Breaker.state self' = Breaker.CLOSED ∧
  Breaker.failure_count self' = 0 ∧
  Forall (λ x, (∃ e, x.1 = Raised (Breaker.Propagated e)) ∧
               Breaker.state x.2 = Breaker.CLOSED)
    (Breaker.run self' [(Breaker.mkClockReads 7 7, failing_op);
                        (Breaker.mkClockReads 8 8, failing_op)] 1%nat).1.
Proof.
  exact (success_restarts_failure_streak
           (Breaker.mkCircuitBreaker 3 60 2 (Some 5) Breaker.CLOSED) _
           (Breaker.mkClockReads 6 6) (λ w, (Returned tt, S w)) 0%nat 1%nat tt
           [(Breaker.mkClockReads 7 7, failing_op); (Breaker.mkClockReads 8 8, failing_op)]
           eq_refl
           ltac:(repeat constructor; apply failing_op_always_raises)
           ltac:(simpl; lia)).
Defined.

(** X4.  When the trial call of an OPEN breaker fails, the cool-down starts
    again from the clock reading taken at that failure: every later call
    that arrives less than recovery_timeout after it is rejected without
    the wrapped function being run, even if recovery_timeout has long
    elapsed since the failure that opened the breaker. *)
Theorem failed_trial_restarts_cooldown {W E A : Type} (N T : Z)
    (self : Breaker.CircuitBreaker) (clk : Breaker.ClockReads)
    (func : W -> PyResult E A * W) (w w' : W) (e : E) (t : Z)
    (later : list (Breaker.ClockReads * (W -> PyResult E A * W))) :
  BreakerState.settled N T self ->
  Breaker.state self = Breaker.OPEN ->
  Breaker.last_failure_time self = Some t ->
  T <= Breaker.at_check clk - t ->
  func w = (Raised e, w') ->
  Forall (λ c, Breaker.at_check c.1 - Breaker.at_failure clk < T) later ->
  let self' := (Breaker.call self clk func w).1.2 in
  Breaker.call self clk func w = (Raised (Breaker.Propagated e), self', w') ∧
  Breaker.run self' later w' =
    (map (λ _, (Raised Breaker.CircuitIsOpen, self')) later, w').
Proof.
  intros Hset Hs Hlft Hdue Hf Hlater.
  destruct Hset as (Hthr & Hto & _ & _ & Hopen & _).
  destruct (Hopen Hs) as [Hge _].
  assert (Hcall : Breaker.call self clk func w =
            (Raised (Breaker.Propagated e),
             Breaker._on_failure (Breaker.set_state self Breaker.HALF_OPEN)
               (Breaker.at_failure clk), w')).
  { unfold Breaker.call, Breaker.entry_check, Breaker._should_attempt_reset.
    rewrite Hs, Hlft, Hto, Hf.
    by destruct (Z.leb_spec T (Breaker.at_check clk - t)); [|lia]. }
  rewrite Hcall. cbn [fst snd]. split; [done|].
  apply run_rejected.
  - unfold Breaker._on_failure. simpl. rewrite Hthr.
    by destruct (Z.leb_spec N (Breaker.failure_count self + 1)); [|lia].
  - eapply Forall_impl; [exact Hlater|]. intros c Hc t' [= <-]. simpl. by rewrite Hto.
Qed.

Lemma failed_trial_restarts_cooldown_witness :
  let opened := Breaker.mkCircuitBreaker 5 60 5 (Some 1000) Breaker.OPEN in
  let self' := (Breaker.call opened (Breaker.mkClockReads 1060 1061) failing_op 0%nat).1.2 in
  Breaker.run self' [(Breaker.mkClockReads 1120 1120, failing_op)] 1%nat =
    ([(Raised Breaker.CircuitIsOpen, self')], 1%nat).
Proof.
  refine (proj2 (failed_trial_restarts_cooldown 5 60
            (Breaker.mkCircuitBreaker 5 60 5 (Some 1000) Breaker.OPEN)
            (Breaker.mkClockReads 1060 1061) failing_op 0%nat 1%nat tt 1000
            [(Breaker.mkClockReads 1120 1120, failing_op)]
            _ eq_refl eq_refl ltac:(simpl; lia) eq_refl
            ltac:(repeat constructor; simpl; lia))).
  unfold BreakerState.settled. simpl.
  repeat split; try done; try lia; try (intros; discriminate).
  all: try (intros _; split; [lia|by eexists]).
Defined.

(** ** Retry wrapper: success and bounds *)

Section RetryBoundFacts.
Import Py PubSub.
Context {W : Type}.
Implicit Types (client : Transport W) (w : W).

Lemma attempt_loop_returned {V E A : Type} (retry_on : E -> bool) wait reraise stop_after
    left (fn : V -> PyResult E A * V) v r v' :
  fn v = (Returned r, v') ->
  attempt_loop retry_on wait reraise stop_after left fn v = (Returned r, [], v').
Proof. intros Hf. destruct left; simpl; by rewrite Hf. Qed.

Lemma attempt_loop_bounded self client topic msg wait reraise stop_after left log w :
  using_mock self = false ->
  ∃ n, (n <= left)%nat ∧
    length (attempt_loop is_transient wait reraise stop_after left
              (_publish_message_body self (recording client) topic msg) (log, w)).1.2 = n ∧
    (attempt_loop is_transient wait reraise stop_after left
       (_publish_message_body self (recording client) topic msg) (log, w)).2.1
    = log ++ replicate (S n) (topic, msg).
Proof.
  intros Hreal. revert log w. induction left as [|left IH]; intros log w.
  - exists 0%nat. split; [done|]. cbn [attempt_loop]. rewrite body_recording by done.
    destruct (_publish_message_body self client topic msg w) as [[r|e] w']; [done|].
    by destruct (is_transient e).
  - cbn [attempt_loop]. rewrite body_recording by done.
    destruct (_publish_message_body self client topic msg w) as [[r|e] w'];
      [exists 0%nat; split; [lia|done]|].
    destruct (is_transient e); [|exists 0%nat; split; [lia|done]].
    destruct (IH (log ++ [(topic, msg)]) w') as (n & Hn & Hd & Hlog).
    destruct (attempt_loop _ _ _ _ _ _ _) as [[r ds] [log' w'']]. cbn [fst snd] in *.
    exists (S n). split; [lia|]. split; [simpl; by rewrite Hd|].
    rewrite Hlog. by rewrite <- app_assoc.
Qed.

End RetryBoundFacts.

(** X5.  On the real transport, when an attempt succeeds after k < 3
    attempts that raised transient errors, the decorated [_publish_message]
    returns the id of that attempt and stops: the transport has been handed
    the message exactly k + 1 times, with k back-off sleeps. *)
Theorem retry_returns_first_success {W : Type} (self : PubSub.PubSubService)
    (client : PubSub.Transport W) (topic : string) (msg : gmap string Py.JsonToken)
    (k : nat) (w wk w' : W) (id : string) (log : list (string * gmap string Py.JsonToken)) :
  PubSub.using_mock self = false ->
  (k < PubSub.max_attempts)%nat ->
  PubSub.transient_streak (PubSub._publish_message_body self client topic msg) k w wk ->
  PubSub._publish_message_body self client topic msg wk = (Returned id, w') ->
  ∃ delays,
    length delays = k ∧
    PubSub._publish_message self (PubSub.recording client) topic msg (log, w) =
      (Returned id, delays, (log ++ replicate (S k) (topic, msg), w')).
Proof.
  intros Hreal Hk Hstreak Hf.
  unfold PubSub._publish_message, PubSub.retry.
  exists (PubSub.streak_delays (PubSub.wait_exponential 1 1 10) PubSub.max_attempts k (2 - k)).
  split; [apply streak_delays_length|].
  replace (PubSub.max_attempts - 1)%nat with (k + (2 - k))%nat
    by (unfold PubSub.max_attempts in *; lia).
  rewrite (attempt_loop_streak _ _ _ _ k (2 - k) _ _
             (streak_recording self client topic msg k w wk log Hreal Hstreak)).
  rewrite (attempt_loop_returned _ _ _ _ _ _ _ id (log ++ replicate (S k) (topic, msg), w'));
    [by rewrite app_nil_r|].
  rewrite body_recording by done. rewrite Hf.
  by rewrite (replicate_S_end k), app_assoc.
Qed.

Lemma retry_returns_first_success_witness :
  ∃ delays,
    length delays = 2%nat ∧
    PubSub._publish_message real_service (PubSub.recording flaky_transport)
      temperature_path ∅ ([], 0%nat) =
    (Returned "msg-3", delays, ([] ++ replicate 3 (temperature_path, ∅), 3%nat)).
Proof.
  refine (retry_returns_first_success real_service flaky_transport temperature_path ∅
            2 0%nat 2%nat 3%nat "msg-3" [] eq_refl ltac:(unfold PubSub.max_attempts; lia)
            _ eq_refl).
  eapply PubSub.streak_cons; [reflexivity | reflexivity |].
  eapply PubSub.streak_cons; [reflexivity | reflexivity |].
  apply PubSub.streak_nil.
Defined.

(** X6.  Whatever the transport does, one call of the decorated
    [_publish_message] on the real transport hands it the same topic and
    message at least once and at most 3 times, and sleeps once between two
    consecutive attempts; in mock mode it returns "mock-message-id" without
    handing anything to the transport. *)
Theorem retry_attempts_between_one_and_three {W : Type} (self : PubSub.PubSubService)
    (client : PubSub.Transport W) (topic : string) (msg : gmap string Py.JsonToken)
    (w : W) (log : list (string * gmap string Py.JsonToken)) :
  let run := PubSub._publish_message self (PubSub.recording client) topic msg (log, w) in
  (PubSub.using_mock self = false ->
   ∃ n, (1 <= n <= 3)%nat ∧
        run.2.1 = log ++ replicate n (topic, msg) ∧
        length run.1.2 = (n - 1)%nat) ∧
  (PubSub.using_mock self = true ->
   run = (Returned "mock-message-id", [], (log, w))).
Proof.
  intros run. split.
  - intros Hreal.
    destruct (attempt_loop_bounded self client topic msg (PubSub.wait_exponential 1 1 10)
                false PubSub.max_attempts (PubSub.max_attempts - 1) log w Hreal)
      as (n & Hn & Hd & Hlog).
    exists (S n). split; [unfold PubSub.max_attempts in Hn; lia|].
    split; [exact Hlog|]. subst run. unfold PubSub._publish_message, PubSub.retry.
    rewrite Hd. lia.
  - intros Hmock. subst run.
    unfold PubSub._publish_message, PubSub.retry, PubSub._publish_message_body.
    simpl. by rewrite Hmock.
Qed.

(** ** Publish pipeline: failures before and behind the breaker *)

Section PipelineFacts.
Import Py PubSub.
Context {parsers : Parsers} {W : Type}.
Implicit Types (client : Transport W) (w : W).

Lemma publish_message_exhausted self client topic msg w w2 e w3 log :
  using_mock self = false ->
  transient_streak (_publish_message_body self client topic msg) 2 w w2 ->
  _publish_message_body self client topic msg w2 = (Raised e, w3) ->
  is_transient e = true ->
  ∃ delays,
    _publish_message self (recording client) topic msg (log, w) =
      (Raised (RetryError e), delays, (log ++ replicate 3 (topic, msg), w3)).
Proof.
  intros Hreal Hstreak Hf He. unfold _publish_message, retry.
  eexists.
  change (max_attempts - 1)%nat with (2 + 0)%nat.
  rewrite (attempt_loop_streak _ _ _ _ 2 0 _ _
             (streak_recording self client topic msg 2 w w2 log Hreal Hstreak)).
  rewrite (attempt_loop_exhausted _ _ _ _ _ e (log ++ replicate 3 (topic, msg), w3));
    [reflexivity| |done].
  rewrite body_recording by done. rewrite Hf.
  by rewrite (replicate_S_end 2), app_assoc.
Qed.

Lemma with_breaker_same self cb :
  backend self = RealBackend cb -> with_breaker self cb = self.
Proof. destruct self as [p t b]. simpl. by intros ->. Qed.

Lemma mapped_topic_path self cb sensor_type topic_name :
  backend self = RealBackend cb ->
  topic_mapping self !! sensor_type = Some topic_name ->
  topic_name ≠ "" ->
  get_topic_path self sensor_type
    = Returned ("projects/" +:+ project_id self +:+ "/topics/" +:+ topic_name).
Proof.
  intros Hreal Hmap Hname. unfold get_topic_path. rewrite Hmap, Hreal.
  destruct (String.eqb_spec topic_name ""); [done|reflexivity].
Qed.

Lemma publish_accepted self cb env client sensor_type path id
    (data transformed : gmap string PyVal) w w' log :
  backend self = RealBackend cb ->
  Breaker.state cb = Breaker.CLOSED ->
  get_topic_path self sensor_type = Returned path ->
  _transform_data_for_avro_schema (utcnow_iso env) data = Returned transformed ->
  client path (json_dumps transformed) w = (Returned id, w') ->
  publish_sensor_data self env (recording client) sensor_type data (log, w)
    = (Returned id, with_breaker self (Breaker._on_success cb),
       (log ++ [(path, json_dumps transformed)], w')).
Proof.
  intros Hreal Hclosed Hpath Ht Hclient.
  assert (Hmode : using_mock self = false).
  { unfold using_mock. by rewrite Hreal. }
  unfold publish_sensor_data. rewrite Hreal, Hpath, Ht.
  unfold Breaker.call, Breaker.entry_check. rewrite Hclosed.
  unfold _publish_message, retry.
  rewrite (attempt_loop_returned _ _ _ _ _ _ _ id (log ++ [(path, json_dumps transformed)], w')).
  2:{ rewrite body_recording by done. unfold _publish_message_body.
      by rewrite Hmode, Hclient. }
  reflexivity.
Qed.

End PipelineFacts.

(** X7.  On the real transport, a reading whose sensor type has no topic
    (no entry in the mapping, or an empty topic name), or one of whose
    fields cannot be converted, is refused before anything else happens:
    the transport is not called, and the circuit breaker records nothing. *)
Theorem publish_refused_before_transport {parsers : Py.Parsers} {W : Type}
    (self : PubSub.PubSubService) (cb : Breaker.CircuitBreaker) (env : PubSub.Env)
    (client : PubSub.Transport W) (sensor_type : string) (data : gmap string Py.PyVal)
    (w : W) :
  PubSub.backend self = PubSub.RealBackend cb ->
  ((PubSub.topic_mapping self !! sensor_type = None ∨
    PubSub.topic_mapping self !! sensor_type = Some "") ->
   PubSub.publish_sensor_data self env client sensor_type data w
     = (Raised PubSub.NoTopicMapping, self, w)) ∧
  (∀ path e,
     PubSub.get_topic_path self sensor_type = Returned path ->
     PubSub._transform_data_for_avro_schema (PubSub.utcnow_iso env) data = Raised e ->
     PubSub.publish_sensor_data self env client sensor_type data w
       = (Raised (PubSub.Conversion e), self, w)).
Proof.
  intros Hreal. split.
  - intros Hmap. unfold PubSub.publish_sensor_data, PubSub.get_topic_path. rewrite Hreal.
    by destruct Hmap as [-> | ->].
  - intros path e Hpath Ht. unfold PubSub.publish_sensor_data.
    by rewrite Hreal, Hpath, Ht.
Qed.

Lemma publish_refused_before_transport_witness :
  PubSub.publish_sensor_data (parsers := plain_parsers) real_service test_env
    accepting_transport "pressure" float_reading 0%nat
  = (Raised PubSub.NoTopicMapping, real_service, 0%nat).
Proof.
  exact (proj1 (publish_refused_before_transport (parsers := plain_parsers) real_service
                  (Breaker.init 5 60) test_env accepting_transport "pressure"
                  float_reading 0%nat eq_refl)
           (or_introl eq_refl)).
Defined.

(** X8.  The circuit breaker is wrapped around the retry loop, not the
    other way round: when the breaker is CLOSED and the transport raises a
    transient error at each of the three attempts of one publish, the
    transport has been called three times but the breaker counts a single
    failure, and the caller gets the RetryError of the retry loop. *)
Theorem exhausted_retry_is_one_breaker_failure {parsers : Py.Parsers} {W : Type}
    (self : PubSub.PubSubService) (cb : Breaker.CircuitBreaker) (env : PubSub.Env)
    (client : PubSub.Transport W) (sensor_type path : string)
    (data transformed : gmap string Py.PyVal) (w w2 w3 : W) (e : PubSub.TransportError)
    (log : list (string * gmap string Py.JsonToken)) :
  PubSub.backend self = PubSub.RealBackend cb ->
  Breaker.state cb = Breaker.CLOSED ->
  PubSub.get_topic_path self sensor_type = Returned path ->
  PubSub._transform_data_for_avro_schema (PubSub.utcnow_iso env) data = Returned transformed ->
  PubSub.transient_streak
    (PubSub._publish_message_body self client path (Py.json_dumps transformed)) 2 w w2 ->
  PubSub._publish_message_body self client path (Py.json_dumps transformed) w2
    = (Raised e, w3) ->
  PubSub.is_transient e = true ->
  let cb' := Breaker._on_failure cb (Breaker.at_failure (PubSub.clk env)) in
  PubSub.publish_sensor_data self env (PubSub.recording client) sensor_type data (log, w)
    = (Raised (PubSub.FromBreaker (Breaker.Propagated (PubSub.RetryError e))),
       PubSub.with_breaker self cb',
       (log ++ replicate 3 (path, Py.json_dumps transformed), w3)) ∧
  Breaker.failure_count cb' = Breaker.failure_count cb + 1.
Proof.
  intros Hreal Hclosed Hpath Ht Hstreak Hf He cb'. split; [|done].
  unfold PubSub.publish_sensor_data. rewrite Hreal, Hpath, Ht.
  unfold Breaker.call, Breaker.entry_check. rewrite Hclosed.
  destruct (publish_message_exhausted self client path (Py.json_dumps transformed)
              w w2 e w3 log) as [delays ->]; try done.
  unfold PubSub.using_mock. by rewrite Hreal.
Qed.

Lemma exhausted_retry_is_one_breaker_failure_witness :
  let '(res, self', (log', w')) :=
    PubSub.publish_sensor_data (parsers := plain_parsers) real_service test_env
      (PubSub.recording unavailable_transport) "temperature" float_reading ([], 0%nat) in
  res = Raised (PubSub.FromBreaker
                  (Breaker.Propagated (PubSub.RetryError PubSub.ServiceUnavailable))) ∧
  length log' = 3%nat ∧ w' = 3%nat ∧
  ∃ cb', PubSub.backend self' = PubSub.RealBackend cb' ∧ Breaker.failure_count cb' = 1.
Proof.
  destruct (exhausted_retry_is_one_breaker_failure (parsers := plain_parsers)
              real_service (Breaker.init 5 60) test_env unavailable_transport
              "temperature" temperature_path float_reading _ 0%nat 2%nat 3%nat
              PubSub.ServiceUnavailable [] eq_refl eq_refl eq_refl eq_refl
              ltac:(eapply PubSub.streak_cons; [reflexivity|reflexivity|];
                    eapply PubSub.streak_cons; [reflexivity|reflexivity|];
                    apply PubSub.streak_nil)
              eq_refl eq_refl) as [-> _].
  split; [done|]. split; [done|]. split; [done|]. by eexists.
Defined.

(** X9.  While the breaker is OPEN and less than recovery_timeout has
    elapsed since the last failure, [publish_sensor_data] on the real
    transport raises the breaker's exception and does not call the
    transport at all; the service is left as it was. *)
Theorem open_breaker_shields_transport {parsers : Py.Parsers} {W : Type}
    (self : PubSub.PubSubService) (cb : Breaker.CircuitBreaker) (env : PubSub.Env)
    (client : PubSub.Transport W) (sensor_type path : string)
    (data transformed : gmap string Py.PyVal) (w : W) (t : Z) :
  PubSub.backend self = PubSub.RealBackend cb ->
  Breaker.state cb = Breaker.OPEN ->
  Breaker.last_failure_time cb = Some t ->
  Breaker.at_check (PubSub.clk env) - t < Breaker.recovery_timeout cb ->
  PubSub.get_topic_path self sensor_type = Returned path ->
  PubSub._transform_data_for_avro_schema (PubSub.utcnow_iso env) data = Returned transformed ->
  PubSub.publish_sensor_data self env client sensor_type data w
    = (Raised (PubSub.FromBreaker Breaker.CircuitIsOpen), self, w).
Proof.
  intros Hreal Hopen Hlft Hearly Hpath Ht.
  unfold PubSub.publish_sensor_data. rewrite Hreal, Hpath, Ht.
  rewrite call_rejected; [|done|].
  - by rewrite with_breaker_same.
  - intros t' Ht'. rewrite Hlft in Ht'. by injection Ht' as <-.
Qed.

Lemma open_breaker_shields_transport_witness :
  let tripped :=
    PubSub.mkService "demo" default_topics
      (PubSub.RealBackend (Breaker.mkCircuitBreaker 5 60 5 (Some 90) Breaker.OPEN)) in
  PubSub.publish_sensor_data (parsers := plain_parsers) tripped test_env
    accepting_transport "temperature" float_reading 0%nat
  = (Raised (PubSub.FromBreaker Breaker.CircuitIsOpen), tripped, 0%nat).
Proof.
  exact (open_breaker_shields_transport (parsers := plain_parsers)
           (PubSub.mkService "demo" default_topics
              (PubSub.RealBackend (Breaker.mkCircuitBreaker 5 60 5 (Some 90) Breaker.OPEN)))
           _ test_env accepting_transport "temperature" temperature_path float_reading _
           0%nat 90 eq_refl eq_refl eq_refl ltac:(simpl; lia) eq_refl eq_refl).
Defined.

(** X10.  On the real transport with the breaker CLOSED, a reading whose
    sensor type is mapped to a topic name and which the transport accepts
    at the first attempt is handed over exactly once, to the topic path
    projects/<project>/topics/<name>; the call returns the transport's
    message id and leaves the breaker CLOSED with failure_count 0. *)
Theorem accepted_reading_is_routed_to_its_topic {parsers : Py.Parsers} {W : Type}
    (self : PubSub.PubSubService) (cb : Breaker.CircuitBreaker) (env : PubSub.Env)
    (client : PubSub.Transport W) (sensor_type topic_name id : string)
    (data transformed : gmap string Py.PyVal) (w w' : W)
    (log : list (string * gmap string Py.JsonToken)) :
  PubSub.backend self = PubSub.RealBackend cb ->
  Breaker.state cb = Breaker.CLOSED ->
  PubSub.topic_mapping self !! sensor_type = Some topic_name ->
  topic_name ≠ "" ->
  PubSub._transform_data_for_avro_schema (PubSub.utcnow_iso env) data = Returned transformed ->
  let path := "projects/" +:+ PubSub.project_id self +:+ "/topics/" +:+ topic_name in
  client path (Py.json_dumps transformed) w = (Returned id, w') ->
  ∃ self',
    PubSub.publish_sensor_data self env (PubSub.recording client) sensor_type data (log, w)
      = (Returned id, self', (log ++ [(path, Py.json_dumps transformed)], w')) ∧
    ∃ cb', PubSub.backend self' = PubSub.RealBackend cb' ∧
           Breaker.state cb' = Breaker.CLOSED ∧ Breaker.failure_count cb' = 0.
Proof.
  intros Hreal Hclosed Hmap Hname Ht path Hclient.
  eexists. split.
  - apply (publish_accepted self cb); try done.
    by apply (mapped_topic_path self cb).
  - by eexists.
Qed.

Lemma accepted_reading_is_routed_to_its_topic_witness :
  ∃ self' payload,
    PubSub.publish_sensor_data (parsers := plain_parsers) real_service test_env
      (PubSub.recording accepting_transport) "temperature" float_reading ([], 0%nat)
    = (Returned "msg-1", self',
       ([] ++ [("projects/demo/topics/sensor-temperature", payload)], 1%nat)).
Proof.
  destruct (accepted_reading_is_routed_to_its_topic (parsers := plain_parsers)
              real_service (Breaker.init 5 60) test_env accepting_transport
              "temperature" "sensor-temperature" "msg-1" float_reading _ 0%nat 1%nat []
              eq_refl eq_refl eq_refl ltac:(discriminate) eq_refl eq_refl)
    as (self' & Hpub & _).
  by eexists self', _.
Defined.

(** ** The payload of the wire schema *)

Section PayloadFacts.
Import Py PubSub.
Context {parsers : Parsers}.

Lemma transform_returned utcnow_iso (data transformed : gmap string PyVal) :
  _transform_data_for_avro_schema utcnow_iso data = Returned transformed ->
  ∃ device_id value latitude longitude,
    py_int (dict_get_default data "device_id" (VInt 0)) = Returned device_id ∧
    py_float (dict_get_default data "value" (VFloat 0)) = Returned value ∧
    py_float (dict_get_default data "latitude" (VFloat 0)) = Returned latitude ∧
    py_float (dict_get_default data "longitude" (VFloat 0)) = Returned longitude ∧
    transformed =
      <["device_id" := VInt device_id]>
      (<["sensor_type" := dict_get_default data "sensor_type" (VStr "")]>
       (<["value" := VFloat value]>
        (<["latitude" := VFloat latitude]>
         (<["longitude" := VFloat longitude]>
          (<["timestamp" := VStr match dict_get data "timestamp" with
                                 | VStr s => s
                                 | _ => utcnow_iso +:+ "Z"
                                 end]> ∅))))).
Proof.
  unfold _transform_data_for_avro_schema.
  destruct (py_int _) as [z|e]; [|discriminate]. simpl.
  destruct (py_float (dict_get_default data "value" _)) as [v|e]; [|discriminate]. simpl.
  destruct (py_float (dict_get_default data "latitude" _)) as [la|e]; [|discriminate]. simpl.
  destruct (py_float (dict_get_default data "longitude" _)) as [lo|e]; [|discriminate]. simpl.
  intros [= <-]. by exists z, v, la, lo.
Qed.

End PayloadFacts.

(** X11.  Whenever the conversion to the wire schema returns, the payload
    has exactly the six keys of the schema, whatever other keys the reading
    carried; a key that the reading lacks is not an error but is filled in:
    device_id with 0, sensor_type with the empty string, value, latitude
    and longitude with 0.0, and a timestamp that is not a string with the
    current UTC time followed by Z. *)
Theorem payload_has_schema_keys_and_defaults {parsers : Py.Parsers} (utcnow_iso : string)
    (data transformed : gmap string Py.PyVal) :
  PubSub._transform_data_for_avro_schema utcnow_iso data = Returned transformed ->
  dom transformed
    = ({["device_id"; "sensor_type"; "value"; "latitude"; "longitude"; "timestamp"]}
       : gset string) ∧
  (data !! "device_id" = None -> transformed !! "device_id" = Some (Py.VInt 0)) ∧
  (data !! "sensor_type" = None -> transformed !! "sensor_type" = Some (Py.VStr "")) ∧
  (data !! "value" = None -> transformed !! "value" = Some (Py.VFloat 0)) ∧
  (data !! "latitude" = None -> transformed !! "latitude" = Some (Py.VFloat 0)) ∧
  (data !! "longitude" = None -> transformed !! "longitude" = Some (Py.VFloat 0)) ∧
  ((∀ s, data !! "timestamp" ≠ Some (Py.VStr s)) ->
   transformed !! "timestamp" = Some (Py.VStr (utcnow_iso +:+ "Z"))).
Proof.
  intros Ht. apply transform_returned in Ht
    as (device_id & value & latitude & longitude & Hd & Hv & Hla & Hlo & ->).
  unfold Py.dict_get_default, Py.dict_get in *.
  split; [rewrite !dom_insert_L, dom_empty_L; set_solver|].
  repeat split.
  - intros Hnone. rewrite Hnone in Hd. injection Hd as <-. by simplify_map_eq.
  - intros Hnone. rewrite Hnone. by simplify_map_eq.
  - intros Hnone. rewrite Hnone in Hv. injection Hv as <-. by simplify_map_eq.
  - intros Hnone. rewrite Hnone in Hla. injection Hla as <-. by simplify_map_eq.
  - intros Hnone. rewrite Hnone in Hlo. injection Hlo as <-. by simplify_map_eq.
  - intros Hnostr. simplify_map_eq.
    destruct (data !! "timestamp") as [[| | | |s|]|] eqn:Hts; try done.
    by destruct (Hnostr s).
Qed.

Lemma payload_has_schema_keys_and_defaults_witness :
  ∃ transformed : gmap string Py.PyVal,
    dom transformed
      = ({["device_id"; "sensor_type"; "value"; "latitude"; "longitude"; "timestamp"]}
         : gset string) ∧
    transformed !! "latitude" = Some (Py.VFloat 0).
Proof.
  destruct (payload_has_schema_keys_and_defaults (parsers := plain_parsers)
              "2024-01-15T12:00:05" sparse_reading
              (<["device_id" := Py.VInt 0]>
               (<["sensor_type" := Py.VStr ""]>
                (<["value" := Py.VFloat (inject_Z 21)]>
                 (<["latitude" := Py.VFloat 0]>
                  (<["longitude" := Py.VFloat 0]>
                   (<["timestamp" := Py.VStr "2024-01-15T12:00:05Z"]> ∅))))))
              eq_refl) as (Hdom & _ & _ & _ & Hla & _).
  eexists. split; [exact Hdom|]. by apply Hla.
Defined.

(** ** The submit endpoint *)

Section SubmitFacts.
Import Py PubSub Sensors.
Context {parsers : Parsers} {printers : Printers}.

Lemma sensor_dict_transform utcnow_iso (sensor_data : SensorData) :
  _transform_data_for_avro_schema utcnow_iso (sensor_dict sensor_data)
  = Returned
      (<["device_id" := VInt (device_id sensor_data)]>
       (<["sensor_type" := VStr (History.sensor_type_value (sensor_type sensor_data))]>
        (<["value" := VFloat (number_float (value sensor_data))]>
         (<["latitude" := VFloat (number_float (latitude sensor_data))]>
          (<["longitude" := VFloat (number_float (longitude sensor_data))]>
           (<["timestamp" := VStr (isoformat (timestamp sensor_data))]> ∅)))))).
Proof.
  unfold _transform_data_for_avro_schema, sensor_dict, dict, dict_get, dict_get_default.
  simplify_map_eq.
  by destruct (value sensor_data), (latitude sensor_data), (longitude sensor_data).
Qed.

End SubmitFacts.

(** X12.  The submit endpoint never answers 503: the HTTPException with
    status 503 that it raises when the publish fails is raised inside the
    outer try, whose handler for Exception replaces it by status 500.  So a
    failed publish is answered 500, and a publish that returns is answered
    with the response that echoes the device id and the sensor type of the
    reading. *)
Theorem submit_failure_is_answered_500 {parsers : Py.Parsers} {printers : Py.Printers}
    {W : Type} (sensor_data : Sensors.SensorData) (pubsub_service : PubSub.PubSubService)
    (env : PubSub.Env) (client : PubSub.Transport W) (utcnow : Z) (w : W) :
  let published :=
    PubSub.publish_sensor_data pubsub_service env client
      (History.sensor_type_value (Sensors.sensor_type sensor_data))
      (Sensors.sensor_dict sensor_data) w in
  let answer :=
    (Sensors.submit_sensor_data sensor_data pubsub_service env client utcnow w).1.1 in
  (is_returned published.1.1 = false ->
   answer = Raised Sensors.HTTP_500_INTERNAL_SERVER_ERROR) ∧
  (is_returned published.1.1 = true ->
   answer = Returned (Sensors.mkResponse "Data received successfully"
                        (Sensors.device_id sensor_data) (Sensors.sensor_type sensor_data)
                        utcnow)) ∧
  answer ≠ Raised Sensors.HTTP_503_SERVICE_UNAVAILABLE ∧
  answer ≠ Raised Sensors.HTTP_422_UNPROCESSABLE_ENTITY ∧
  (Sensors.submit_sensor_data sensor_data pubsub_service env client utcnow w).2 = published.2.
Proof.
  unfold Sensors.submit_sensor_data, Sensors.submit_body. cbv zeta.
  destruct (PubSub.publish_sensor_data _ _ _ _ _ _) as [[[id|e] service'] w']; simpl;
    repeat split; done.
Qed.

(** X13.  A validated reading submitted to a service on the real transport
    whose breaker is CLOSED, whose mapping names a topic for the sensor
    type of the reading, and whose transport accepts the message, is
    answered with the success response, and the transport has been handed
    exactly one message, on the topic path of that sensor type: its
    device_id is the reading's, its value, latitude and longitude are the
    floats of the reading's (also where the reading held a Decimal), and its
    timestamp is the ISO text of the reading's timestamp. *)
Theorem validated_reading_reaches_its_topic {parsers : Py.Parsers} {printers : Py.Printers}
    {W : Type} (sensor_data : Sensors.SensorData) (self : PubSub.PubSubService)
    (cb : Breaker.CircuitBreaker) (env : PubSub.Env) (client : PubSub.Transport W)
    (topic_name id : string) (utcnow : Z) (w w' : W)
    (log : list (string * gmap string Py.JsonToken)) :
  PubSub.backend self = PubSub.RealBackend cb ->
  Breaker.state cb = Breaker.CLOSED ->
  PubSub.topic_mapping self !! History.sensor_type_value (Sensors.sensor_type sensor_data)
    = Some topic_name ->
  topic_name ≠ "" ->
  let path := "projects/" +:+ PubSub.project_id self +:+ "/topics/" +:+ topic_name in
  (∀ message_data, client path message_data w = (Returned id, w')) ->
  ∃ self' payload,
    Sensors.submit_sensor_data sensor_data self env (PubSub.recording client) utcnow (log, w)
      = (Returned (Sensors.mkResponse "Data received successfully"
                     (Sensors.device_id sensor_data) (Sensors.sensor_type sensor_data) utcnow),
         self', (log ++ [(path, payload)], w')) ∧
    payload !! "device_id" = Some (Py.JNumInt (Sensors.device_id sensor_data)) ∧
    payload !! "sensor_type"
      = Some (Py.JText (History.sensor_type_value (Sensors.sensor_type sensor_data))) ∧
    payload !! "value"
      = Some (Py.JNumReal (Sensors.number_float (Sensors.value sensor_data))) ∧
    payload !! "latitude"
      = Some (Py.JNumReal (Sensors.number_float (Sensors.latitude sensor_data))) ∧
    payload !! "longitude"
      = Some (Py.JNumReal (Sensors.number_float (Sensors.longitude sensor_data))) ∧
    payload !! "timestamp"
      = Some (Py.JText (Py.isoformat (Sensors.timestamp sensor_data))) ∧
    dom payload
      = ({["device_id"; "sensor_type"; "value"; "latitude"; "longitude"; "timestamp"]}
         : gset string).
Proof.
  intros Hreal Hclosed Hmap Hname path Hclient.
  eexists _, _. split.
  - unfold Sensors.submit_sensor_data, Sensors.submit_body.
    rewrite (publish_accepted self cb env client _ path id _ _ w w' log Hreal Hclosed
               (mapped_topic_path self cb _ topic_name Hreal Hmap Hname)
               (sensor_dict_transform _ sensor_data) (Hclient _)).
    reflexivity.
  - unfold Py.json_dumps. rewrite !lookup_fmap. simplify_map_eq.
    repeat split; try done.
    all: rewrite dom_fmap_L, !dom_insert_L, dom_empty_L; set_solver.
Qed.

Lemma validated_reading_reaches_its_topic_witness :
  ∃ self' payload,
    Sensors.submit_sensor_data (parsers := plain_parsers) (printers := plain_printers)
      validated_reading real_service test_env (PubSub.recording accepting_transport)
      1705320005 ([], 0%nat)
    = (Returned (Sensors.mkResponse "Data received successfully" 12345 History.TEMPERATURE
                   1705320005),
       self', ([] ++ [("projects/demo/topics/sensor-temperature", payload)], 1%nat)) ∧
    payload !! "value" = Some (Py.JNumReal (47 # 2)).
Proof.
  destruct (validated_reading_reaches_its_topic (parsers := plain_parsers)
              (printers := plain_printers) validated_reading real_service
              (Breaker.init 5 60) test_env accepting_transport "sensor-temperature" "msg-1"
              1705320005 0%nat 1%nat [] eq_refl eq_refl eq_refl ltac:(discriminate)
              (λ _, eq_refl))
    as (self' & payload & Hsubmit & _ & _ & Hvalue & _).
  by exists self', payload.
Defined.

(** ** Authentication *)

Section AuthFacts.
Import Auth.

Lemma valid_keys_empty settings :
  valid_api_keys (AuthService_init settings) = ∅ ↔ api_keys settings = [].
Proof.
  unfold AuthService_init. simpl. split.
  - destruct (api_keys settings) as [|k ks]; [done|]. simpl. set_solver.
  - by intros ->.
Qed.

End AuthFacts.

(** X14.  A request is let through exactly when public access is enabled,
    or no API key is configured at all, or the request carries a non-empty
    key that is one of the configured keys; every other request is refused
    with status 401.  In particular an empty string among the configured
    keys lets nobody in. *)
Theorem request_accepted_iff (settings : Auth.Settings) (api_key : option string) :
  let answer :=
    Auth.authenticate_request settings (Auth.AuthService_init settings) api_key in
  (answer = Returned true ↔
     Auth.public_access_enabled settings = true ∨
     Auth.api_keys settings = [] ∨
     ∃ key, api_key = Some key ∧ key ≠ "" ∧ key ∈ Auth.api_keys settings) ∧
  (answer = Returned true ∨ ∃ detail, answer = Raised (Auth.HTTP_401 detail)) ∧
  (answer = Returned true ->
   Auth.get_api_key settings (Auth.AuthService_init settings) api_key = Returned api_key).
Proof.
  cbv zeta. unfold Auth.get_api_key, Auth.authenticate_request, Auth.validate_api_key.
  destruct (Auth.public_access_enabled settings) eqn:Hpublic.
  { split; [split; [by left|done]|]. split; [by left|done]. }
  case_bool_decide as Hempty.
  { apply valid_keys_empty in Hempty. split; [split; [by right; left|done]|].
    split; [by left|done]. }
  assert (Hkeys : Auth.api_keys settings ≠ []) by (by rewrite <-valid_keys_empty).
  destruct api_key as [key|].
  - destruct (String.eqb_spec key "") as [->|Hkey].
    + split; [|split; [right; by eexists|done]].
      split; [done|]. intros [?|[?|(key & [= <-] & ? & _)]]; done.
    + simpl. case_bool_decide as Hin; simpl.
      * split; [|split; [by left|done]]. split; [|done].
        intros _. right; right. exists key. split; [done|]. split; [done|].
        by apply elem_of_list_to_set in Hin.
      * split; [|split; [right; by eexists|done]]. split; [done|].
        intros [?|[?|(key' & [= <-] & _ & Hin')]]; try done.
        destruct Hin. by apply elem_of_list_to_set.
  - split; [|split; [right; by eexists|done]]. split; [done|].
    intros [?|[?|(key & ? & _)]]; done.
Qed.

(** X15.  The flag api_key_required that the root endpoint reports agrees
    with what authentication does: it is true exactly when a request
    without a key is refused. *)
Theorem api_key_required_iff_anonymous_refused (settings : Auth.Settings) :
  Auth.api_key_required settings = true ↔
  is_returned (Auth.authenticate_request settings (Auth.AuthService_init settings) None)
    = false.
Proof.
  unfold Auth.api_key_required, Auth.authenticate_request.
  destruct (Auth.public_access_enabled settings); [done|].
  cbn [negb andb]. case_bool_decide as Hempty.
  - apply valid_keys_empty in Hempty. by rewrite Hempty.
  - rewrite valid_keys_empty in Hempty. by destruct (Auth.api_keys settings).
Qed.

(** ** The characters of a printed integer *)

Section PrettyFacts.

Lemma pretty_N_go_chars (P : ascii -> Prop) (x : N) (s : string) :
  (∀ d, P (pretty_N_char d)) ->
  Forall P (list_ascii_of_string s) ->
  Forall P (list_ascii_of_string (pretty_N_go x s)).
Proof.
  intros Hdigit. revert s.
  induction (N.lt_wf_0 x) as [x _ IH]; intros s Hs.
  assert (x = 0 ∨ 0 < x)%N as [->|Hpos] by lia.
  - by rewrite pretty_N_go_0.
  - rewrite pretty_N_go_step by done. apply IH.
    + by apply N.div_lt.
    + simpl. by constructor.
Qed.

Lemma pretty_positive_chars (P : ascii -> Prop) (p : positive) :
  (∀ d, P (pretty_N_char d)) ->
  Forall P (list_ascii_of_string (pretty (Z.pos p))).
Proof.
  intros Hdigit. unfold pretty, pretty_Z, pretty, pretty_positive, pretty, pretty_N.
  destruct (decide (N.pos p = 0%N)); [done|].
  apply pretty_N_go_chars; [done|constructor].
Qed.

Lemma pretty_Z_chars (P : ascii -> Prop) (z : Z) :
  (∀ d, P (pretty_N_char d)) -> P "0"%char -> P "-"%char ->
  Forall P (list_ascii_of_string (pretty z)).
Proof.
  intros Hdigit Hzero Hdash. destruct z as [|p|p].
  - by repeat constructor.
  - by apply pretty_positive_chars.
  - change (pretty (Z.neg p)) with ("-" +:+ pretty (Z.pos p)).
    cbv [String.append]. simpl. constructor; [done|].
    by apply pretty_positive_chars.
Qed.

(** A character whose code is outside the range of the digits is not the
    print of a digit. *)
Lemma digit_not (c : ascii) :
  (nat_of_ascii c < 48 ∨ 57 < nat_of_ascii c)%nat ->
  ∀ d, pretty_N_char d ≠ c.
Proof.
  intros Hcode d <-. unfold pretty_N_char in Hcode.
  repeat case_match; vm_compute in Hcode; lia.
Qed.

(** [needle in hay] needs the first character of the needle in the hay. *)
Lemma contains_first (c : ascii) (needle hay : string) :
  Py.contains (String c needle) hay = true -> c ∈ list_ascii_of_string hay.
Proof.
  induction hay as [|a hay IH]; [done|].
  cbn [Py.contains String.prefix list_ascii_of_string].
  destruct (ascii_dec c a) as [->|Hne].
  - intros _. by left.
  - simpl. intros Hrest. right. by apply IH.
Qed.

Lemma count_not_in_integer (z : Z) : Py.contains "count" (pretty z) = false.
Proof.
  apply not_true_is_false. intros Hin. apply contains_first in Hin.
  pose proof (pretty_Z_chars (λ a, a ≠ "c"%char) z) as Hchars.
  rewrite Forall_forall in Hchars.
  by apply (Hchars ltac:(apply digit_not; vm_compute; lia) ltac:(done) ltac:(done) _ Hin).
Qed.

(** Text that ends in a dash and a run of characters without a dash tells
    both parts. *)
Lemma split_at_last_dash (a a' b b' : string) :
  "-"%char ∉ list_ascii_of_string b ->
  "-"%char ∉ list_ascii_of_string b' ->
  a +:+ String "-" b = a' +:+ String "-" b' ->
  a = a' ∧ b = b'.
Proof.
  intros Hb Hb'. revert a'. induction a as [|x a IH]; intros [|x' a']; cbv [String.append];
    fold String.append.
  - by intros [= ->].
  - intros [= <- ->]. destruct Hb.
    clear. induction a' as [|y a' IH]; [by left|right; apply IH].
  - intros [= -> <-]. destruct Hb'.
    clear. induction a as [|y a IH]; [by left|right; apply IH].
  - intros [= -> Hrest]. by destruct (IH a' Hrest) as [-> ->].
Qed.

End PrettyFacts.

(** ** The ids of the mock client *)

Section MockIdFacts.
Import MockPubSub MockRuns.

Lemma mock_id_counter (t1 t2 c1 c2 : Z) :
  0 < c1 -> 0 < c2 -> mock_id t1 c1 = mock_id t2 c2 -> c1 = c2.
Proof.
  intros H1 H2 Heq. unfold mock_id in Heq.
  apply (inj (String.app "mock-msg-")) in Heq.
  apply split_at_last_dash in Heq as [_ Heq]; [by apply (inj pretty) in Heq| |].
  - destruct c1 as [|p|p]; try lia. intros Hin.
    pose proof (pretty_positive_chars (λ a, a ≠ "-"%char) p) as Hchars.
    rewrite Forall_forall in Hchars.
    by apply (Hchars ltac:(apply digit_not; vm_compute; lia) _ Hin).
  - destruct c2 as [|p|p]; try lia. intros Hin.
    pose proof (pretty_positive_chars (λ a, a ≠ "-"%char) p) as Hchars.
    rewrite Forall_forall in Hchars.
    by apply (Hchars ltac:(apply digit_not; vm_compute; lia) _ Hin).
Qed.

Lemma publish_counter self clock path d :
  message_counter (publish self clock path d).2 = message_counter self + 1.
Proof.
  unfold publish. destruct (_ <=? _); [|done]. by destruct (buffer self _).
Qed.

Lemma publish_id self clock path d id :
  (publish self clock path d).1 = Returned id ->
  id = mock_id (time_time clock) (message_counter self + 1).
Proof.
  unfold publish. destruct (_ <=? _); [|by intros [= <-]].
  destruct (buffer self _); [done|by intros [= <-]].
Qed.

Lemma step_counter self op :
  message_counter self <= message_counter (client_step self op).
Proof.
  destruct op; simpl; [rewrite publish_counter; lia|done].
Qed.

Lemma published_ids_above self ops id :
  id ∈ published_ids self ops ->
  ∃ t c, id = mock_id t c ∧ message_counter self < c.
Proof.
  revert self. induction ops as [|op ops IH]; intros self; [by intros ?%elem_of_nil|].
  cbn [published_ids]. rewrite elem_of_app. intros [Hhead|Htail].
  - destruct op as [clock path d|]; [|by apply elem_of_nil in Hhead].
    destruct (publish self clock path d).1 as [id'|] eqn:Hpub; [|by apply elem_of_nil in Hhead].
    apply list_elem_of_singleton in Hhead as ->.
    apply publish_id in Hpub. exists (time_time clock), (message_counter self + 1).
    split; [done|lia].
  - destruct (IH _ Htail) as (t & c & -> & Hc). exists t, c. split; [done|].
    pose proof (step_counter self op). lia.
Qed.

Lemma published_ids_nodup self ops :
  0 <= message_counter self -> NoDup (published_ids self ops).
Proof.
  revert self. induction ops as [|op ops IH]; intros self Hself; [constructor|].
  cbn [published_ids].
  assert (Hrest : NoDup (published_ids (client_step self op) ops)).
  { apply IH. pose proof (step_counter self op). lia. }
  destruct op as [clock path d|]; [|done].
  destruct (publish self clock path d).1 as [id|] eqn:Hpub; [|done].
  simpl. constructor; [|done].
  intros (t & c & Hid & Hc)%published_ids_above.
  simpl in Hc. rewrite publish_counter in Hc.
  apply publish_id in Hpub. rewrite Hpub in Hid.
  apply mock_id_counter in Hid; lia.
Qed.

Lemma run_counter self ops :
  message_counter (client_run self ops) = message_counter self + Z.of_nat (publish_count ops).
Proof.
  revert self. induction ops as [|op ops IH]; intros self.
  { unfold client_run, publish_count. simpl. lia. }
  unfold client_run. cbn [foldl]. fold (client_run (client_step self op) ops).
  rewrite IH. unfold publish_count. destruct op; simpl.
  - rewrite publish_counter. lia.
  - lia.
Qed.

End MockIdFacts.

Section MockRunFacts.
Import MockPubSub MockRuns.

Lemma publish_returns self clock path d :
  buffers_bounded self -> is_returned (publish self clock path d).1 = true.
Proof.
  intros [Hmax Hlen]. unfold publish. rewrite Hmax.
  destruct (Z.leb_spec 1000 (Z.of_nat (length (buffer self (Py.last_segment path)))));
    [|done].
  destruct (buffer self (Py.last_segment path)); [simpl in *; lia|done].
Qed.

Lemma published_ids_length self ops :
  buffers_bounded self -> length (published_ids self ops) = publish_count ops.
Proof.
  revert self. induction ops as [|op ops IH]; intros self Hself; [done|].
  cbn [published_ids]. rewrite length_app. unfold publish_count. destruct op as [clock path d|t].
  - pose proof (publish_returns self clock path d Hself) as Hret.
    destruct (publish self clock path d).1; [|done]. simpl.
    f_equal. apply IH. simpl. by apply publish_bounded.
  - simpl. apply IH. simpl. by apply clear_bounded.
Qed.

Lemma client_init_bounded gcp : buffers_bounded (client_init gcp).
Proof.
  split; [done|]. intros t. unfold buffer. simpl. rewrite lookup_empty. simpl. lia.
Qed.

End MockRunFacts.

(** X16.  Over any sequence of publishes and clears applied to the fresh
    mock client, every publish returns an id and no id is returned twice,
    also when the clock reads the same second at several publishes; the
    message counter ends at the number of publishes made, clears do not
    reset it. *)
Theorem mock_ids_never_repeat (gcp : string) (ops : list MockPubSub.ClientOp) :
  NoDup (MockRuns.published_ids (MockPubSub.client_init gcp) ops) ∧
  length (MockRuns.published_ids (MockPubSub.client_init gcp) ops)
    = MockRuns.publish_count ops ∧
  MockPubSub.message_counter (MockPubSub.client_run (MockPubSub.client_init gcp) ops)
    = Z.of_nat (MockRuns.publish_count ops).
Proof.
  split; [by apply published_ids_nodup|].
  split; [apply published_ids_length, client_init_bounded|].
  by rewrite run_counter.
Qed.

(** ** The facets of a device *)

Section DeviceFoldFacts.
Import Py History Influx.
Context {parsers : Parsers}.

Lemma fold_record_total table_name acc r acc' :
  fold_record table_name acc r = Returned acc' ->
  total_measurements acc' = total_measurements acc.
Proof.
  unfold fold_record. rewrite count_not_in_integer, andb_false_r.
  unfold mbind, PyResult_bind.
  repeat case_match; intros; simplify_eq/=; done.
Qed.

Lemma fold_records_total table_name rows acc acc' :
  fold_records table_name acc rows = Returned acc' ->
  total_measurements acc' = total_measurements acc.
Proof.
  revert acc. induction rows as [|r rows IH]; intros acc; [by intros [= <-]|].
  cbn [fold_records]. destruct (fold_record table_name acc r) as [acc1|e] eqn:Hr; [|done].
  simpl. intros Hrest. rewrite (IH _ Hrest). by apply fold_record_total in Hr.
Qed.

Lemma fold_tables_total tables acc acc' :
  fold_tables acc tables = Returned acc' ->
  total_measurements acc' = total_measurements acc.
Proof.
  revert acc. induction tables as [|records tables IH]; intros acc; [by intros [= <-]|].
  cbn [fold_tables].
  destruct (fold_records _ acc records) as [acc1|e] eqn:Hr; [|done].
  simpl. intros Hrest. rewrite (IH _ Hrest). by apply fold_records_total in Hr.
Qed.

Lemma device_info_of_fields device_id f info :
  device_info_of device_id f = Some info ->
  info_total_measurements info = total_measurements f ∧
  info_sensor_types info = remove_dups (sensor_types f).
Proof.
  unfold device_info_of. case_match; [done|].
  destruct (as_datetime (first_seen f)); [|done].
  destruct (as_datetime (last_seen f)); [|done]. simpl.
  by intros [= <-].
Qed.

Lemma get_device_info_recording {W : Type} self (store : Store W) device_id sensor_type log w :
  ∃ w',
    _get_device_info self (recording_store store) device_id sensor_type (log, w)
    = ((_get_device_info self store device_id sensor_type w).1,
       (log ++ [device_info_query self device_id (sensor_filter sensor_type)], w')).
Proof.
  unfold _get_device_info, recording_store. simpl.
  destruct (store _ w) as [[tables|e] w']; [|by eexists].
  destruct (fold_tables no_facets tables); by eexists.
Qed.

Lemma collect_devices_recording {W : Type} self (store : Store W) sensor_type device_ids log w :
  ∃ devices w2,
    collect_devices self (recording_store store) sensor_type device_ids (log, w)
    = (devices,
       (log ++ map (λ id, device_info_query self id (sensor_filter sensor_type)) device_ids,
        w2)) ∧
    sublist (info_device_id <$> devices) device_ids.
Proof.
  revert log w. induction device_ids as [|device_id rest IH]; intros log w.
  - exists [], w. simpl. by rewrite app_nil_r.
  - cbn [collect_devices].
    destruct (get_device_info_recording self store device_id sensor_type log w) as [w' ->].
    destruct (IH (log ++ [device_info_query self device_id (sensor_filter sensor_type)]) w')
      as (devices & w2 & -> & Hsub).
    rewrite <-app_assoc. simpl.
    destruct (_get_device_info self store device_id sensor_type w).1 as [info|] eqn:Hinfo.
    + exists (info :: devices), w2. split; [done|].
      assert (info_device_id info = device_id) as <-; [|by apply sublist_skip].
      unfold _get_device_info in Hinfo.
      destruct (store _ w) as [[tables|e] w1]; [|done].
      destruct (fold_tables no_facets tables) as [f|e]; [|done].
      by apply device_info_of_some in Hinfo as (_ & _ & _ & ?).
    + exists devices, w2. split; [done|]. by apply sublist_cons.
Qed.

End DeviceFoldFacts.

(** X17.  The total_measurements of every DeviceInfo that
    [_get_device_info] returns is 0, whatever rows the store answers: the
    branch that adds up the counts asks for the text count inside the
    printed table index of the row, and the printed form of an integer never
    contains it.  The DeviceInfo carries the device id that was asked for
    and a non-empty list of sensor types without repetition. *)
Theorem device_total_measurements_is_zero {parsers : Py.Parsers} {W : Type}
    (self : Influx.InfluxDBService) (store : Influx.Store W) (device_id : Z)
    (sensor_type_filter : option History.SensorType) (w w' : W) (info : Influx.DeviceInfo) :
  Influx._get_device_info self store device_id sensor_type_filter w = (Some info, w') ->
  Influx.info_total_measurements info = 0 ∧
  Influx.info_device_id info = device_id ∧
  Influx.info_sensor_types info ≠ [] ∧
  NoDup (Influx.info_sensor_types info).
Proof.
  unfold Influx._get_device_info.
  destruct (store _ w) as [[tables|e] w1]; [|done].
  destruct (Influx.fold_tables Influx.no_facets tables) as [f|e] eqn:Hfold; [|done].
  intros [= Hinfo <-].
  pose proof (device_info_of_fields _ _ _ Hinfo) as [Htotal Htypes].
  apply device_info_of_some in Hinfo as (Hne & _ & _ & Hid).
  apply fold_tables_total in Hfold. rewrite Htotal, Hfold, Htypes.
  split; [done|]. split; [done|]. split; [|apply NoDup_remove_dups].
  destruct (Influx.sensor_types f) as [|st sts]; [done|].
  intros Hnil. assert (Hin : st ∈ remove_dups (st :: sts)).
  { apply elem_of_remove_dups. by left. }
  rewrite Hnil in Hin. by apply elem_of_nil in Hin.
Qed.

Lemma device_total_measurements_is_zero_witness :
  ∃ info,
    Influx._get_device_info (parsers := plain_parsers) test_influx
      (scripted_store counted_device_answers) 1 None 0%nat = (Some info, 1%nat) ∧
    Influx.info_total_measurements info = 0.
Proof.
  exists (Influx.mkDeviceInfo 1 [History.TEMPERATURE] 100 200 0 (0, 0)%Q).
  split; [reflexivity|].
  exact (proj1 (device_total_measurements_is_zero (parsers := plain_parsers) test_influx
                  (scripted_store counted_device_answers) 1 None 0%nat 1%nat _ eq_refl)).
Defined.

(** X18.  Once the listing query has returned the device ids,
    [get_device_list] asks the store exactly one more query per listed id,
    the detail query of that id, in the order of the listing, and returns;
    a device whose detail query fails or yields nothing does not stop the
    queries for the devices after it.  The devices returned carry listed
    ids, in the order of the listing. *)
Theorem device_list_asks_once_per_listed_device {parsers : Py.Parsers} {W : Type}
    (self : Influx.InfluxDBService) (store : Influx.Store W)
    (sensor_type : option History.SensorType) (log : list string) (w w1 : W)
    (tables : list (list Influx.FluxRecord)) (device_ids : list Z) :
  store (Influx.device_list_query self (Influx.sensor_filter sensor_type)) w
    = (Returned tables, w1) ->
  Influx.listed_device_ids (concat tables) = Returned device_ids ->
  ∃ devices w2,
    Influx.get_device_list self (Influx.recording_store store) sensor_type (log, w)
    = (Returned devices,
       (log ++ Influx.device_list_query self (Influx.sensor_filter sensor_type)
            :: map (λ id, Influx.device_info_query self id (Influx.sensor_filter sensor_type))
                 device_ids,
        w2)) ∧
    sublist (Influx.info_device_id <$> devices) device_ids.
Proof.
  intros Hstore Hids. unfold Influx.get_device_list, Influx.recording_store.
  simpl. rewrite Hstore, Hids.
  destruct (collect_devices_recording self store sensor_type device_ids
              (log ++ [Influx.device_list_query self (Influx.sensor_filter sensor_type)]) w1)
    as (devices & w2 & Hcollect & Hsub).
  unfold Influx.recording_store in Hcollect. rewrite Hcollect.
  exists devices, w2. split; [|done]. by rewrite <-app_assoc.
Qed.

Lemma device_list_asks_once_per_listed_device_witness :
  ∃ devices w2,
    Influx.get_device_list (parsers := plain_parsers) test_influx
      (Influx.recording_store (scripted_store device_answers)) None ([], 0%nat)
    = (Returned devices,
       ([] ++ Influx.device_list_query test_influx (Influx.sensor_filter None)
           :: map (λ id, Influx.device_info_query test_influx id (Influx.sensor_filter None))
                [1; 2],
        w2)) ∧
    sublist (Influx.info_device_id <$> devices) [1; 2].
Proof.
  exact (device_list_asks_once_per_listed_device (parsers := plain_parsers) test_influx
           (scripted_store device_answers) None [] 0%nat 1%nat
           [[device_id_row "1"; device_id_row "2"]] [1; 2] eq_refl eq_refl).
Defined.

(** ** The query parameters *)

Section ParamsFacts.
Import Py History.





End ParamsFacts.


(** ** The mock path of a publish *)

Section MockPathFacts.
Import Py MockPubSub.

Lemma last_segment_from_plain (acc s : string) :
  "/"%char ∉ list_ascii_of_string s -> last_segment_from acc s = acc +:+ s.
Proof.
  revert acc. induction s as [|c s IH]; intros acc Hs.
  - by rewrite string_app_nil_r.
  - cbn [last_segment_from]. simpl in Hs. apply not_elem_of_cons in Hs as [Hc Hs].
    destruct (Ascii.eqb_spec c "/"%char) as [->|_]; [done|].
    rewrite IH by done. by rewrite string_app_assoc.
Qed.

Lemma last_segment_from_slash (acc a b : string) :
  last_segment_from acc (a +:+ String "/" b) = last_segment_from "" b.
Proof.
  revert acc. induction a as [|c a IH]; intros acc.
  - reflexivity.
  - rewrite string_app_cons. cbn [last_segment_from].
    destruct (Ascii.eqb c "/"%char); apply IH.
Qed.

(** Splitting the topic path gives the topic name back, when the name has
    no slash. *)
Lemma last_segment_topic_path project_id topic_name :
  "/"%char ∉ list_ascii_of_string topic_name ->
  last_segment (topic_path project_id topic_name) = topic_name.
Proof.
  intros Hname. unfold last_segment, topic_path.
  change ("/topics/" +:+ topic_name) with ("/topics" +:+ String "/" topic_name).
  rewrite <-!string_app_assoc, last_segment_from_slash.
  by rewrite last_segment_from_plain.
Qed.

End MockPathFacts.

(** X20.  In mock mode [publish_sensor_data] does not touch the real
    transport nor a circuit breaker: for a sensor type that the mock
    service maps to a topic name without a slash, it returns the id
    mock-msg-<seconds>-<counter + 1>, and the message, holding the JSON of
    the reading as it was given, is the newest one in the buffer of that
    topic name; the buffers of the other topics are unchanged. *)
Theorem mock_publish_lands_in_topic_buffer {parsers : Py.Parsers} {W : Type}
    (self : PubSub.PubSubService) (m : MockPubSub.MockPubSubService) (env : PubSub.Env)
    (client : PubSub.Transport W) (sensor_type topic_name : string)
    (data : gmap string Py.PyVal) (w : W) :
  PubSub.backend self = PubSub.MockBackend m ->
  MockPubSub.topic_mapping m !! sensor_type = Some topic_name ->
  topic_name ≠ "" ->
  "/"%char ∉ list_ascii_of_string topic_name ->
  MockPubSub.buffers_bounded (MockPubSub.client m) ->
  let id :=
    MockRuns.mock_id (MockPubSub.time_time (PubSub.mock_clock env))
      (MockPubSub.message_counter (MockPubSub.client m) + 1) in
  ∃ m',
    PubSub.publish_sensor_data self env client sensor_type data w
      = (Returned id, PubSub.with_mock self m', w) ∧
    last (MockPubSub.buffer (MockPubSub.client m') topic_name)
      = Some (MockPubSub.mkMessage id topic_name (Py.json_dumps data)
                (MockPubSub.datetime_now (PubSub.mock_clock env))) ∧
    (∀ other, other ≠ topic_name ->
       MockPubSub.buffer (MockPubSub.client m') other
       = MockPubSub.buffer (MockPubSub.client m) other).
Proof.
  intros Hmock Hmap Hname Hslash [Hmax Hlen] id.
  unfold PubSub.publish_sensor_data. rewrite Hmock.
  unfold MockPubSub.publish_sensor_data, MockPubSub.get_topic_path. rewrite Hmap.
  destruct (String.eqb_spec topic_name "") as [|_]; [done|].
  unfold MockPubSub.mock_call, MockPubSub._publish_message, MockPubSub.publish.
  rewrite last_segment_topic_path by done. rewrite Hmax.
  pose proof (Hlen topic_name) as Hb.
  destruct (Z.leb_spec 1000 (Z.of_nat (length (MockPubSub.buffer (MockPubSub.client m)
                                                 topic_name)))) as [Hfull|Hroom].
  - destruct (MockPubSub.buffer (MockPubSub.client m) topic_name) as [|oldest rest] eqn:Hbuf;
      [simpl in Hfull; lia|].
    eexists. split; [reflexivity|]. simpl. split.
    + unfold MockPubSub.buffer. simpl. rewrite lookup_insert_eq. simpl. by rewrite last_snoc.
    + intros other Hother. unfold MockPubSub.buffer. simpl.
      by rewrite lookup_insert_ne.
  - eexists. split; [reflexivity|]. simpl. split.
    + unfold MockPubSub.buffer at 1. simpl. rewrite lookup_insert_eq. simpl.
      by rewrite last_snoc.
    + intros other Hother. unfold MockPubSub.buffer. simpl.
      by rewrite lookup_insert_ne.
Qed.

Lemma mock_publish_lands_in_topic_buffer_witness :
  ∃ m',
    PubSub.publish_sensor_data (parsers := plain_parsers) mock_service test_env
      accepting_transport "humidity" float_reading 0%nat
    = (Returned (MockRuns.mock_id 1705320000 (0 + 1)), PubSub.with_mock mock_service m', 0%nat).
Proof.
  destruct (mock_publish_lands_in_topic_buffer (parsers := plain_parsers) mock_service _
              test_env accepting_transport "humidity" "sensor-humidity" float_reading 0%nat
              eq_refl eq_refl ltac:(discriminate)
              ltac:(vm_compute; intros Hin; repeat (apply elem_of_cons in Hin as [Hin|Hin];
                      [discriminate|]); by apply elem_of_nil in Hin)
              (client_init_bounded "demo"))
    as (m' & Hpub & _).
  by exists m'.
Defined.

(** ** Rows of the history query *)

Section HistoryRowFacts.
Import Py History Influx InfluxQueries.
Context {parsers : Parsers}.





End HistoryRowFacts.





(** ** The statistics by sensor type *)

Section StatsFacts.
Import Py History Influx InfluxQueries.
Context {parsers : Parsers}.

Lemma update_keys (d : StatsByType) st f : (update d st f).*1 = d.*1.
Proof.
  induction d as [|[k s] d IH]; [done|]. cbn [update].
  destruct (decide (k = st)); [done|]. by rewrite !fmap_cons, IH.
Qed.

Lemma elem_of_update (d : StatsByType) st f k s' :
  (k, s') ∈ update d st f ->
  (k, s') ∈ d ∨ (k = st ∧ ∃ s, (k, s) ∈ d ∧ s' = f s).
Proof.
  induction d as [|[k0 s0] d IH]; [by intros ?%elem_of_nil|]. simpl.
  destruct (decide (k0 = st)) as [->|Hne].
  - intros [[= -> ->]|Hin]%elem_of_cons.
    + right. split; [done|]. exists s0. split; [by left|done].
    + left. by right.
  - intros [[= -> ->]|Hin]%elem_of_cons; [left; by left|].
    destruct (IH Hin) as [Hold|(-> & s & Hs & ->)].
    + left. by right.
    + right. split; [done|]. exists s. split; [by right|done].
Qed.

Lemma update_invariant all (d : StatsByType) st f :
  stats_invariant all d ->
  (∀ s, stamped_by all st "first" (first_measurement s) ->
        stamped_by all st "first" (first_measurement (f s))) ->
  (∀ s, stamped_by all st "last" (last_measurement s) ->
        stamped_by all st "last" (last_measurement (f s))) ->
  stats_invariant all (update d st f).
Proof.
  intros [Hnodup Hstamps] Hfirst Hlast. split; [by rewrite update_keys|].
  intros k s' [Hold|(-> & s & Hs & ->)]%elem_of_update; [by apply Hstamps|].
  destruct (Hstamps _ _ Hs). split; [by apply Hfirst|by apply Hlast].
Qed.

Lemma with_type_invariant all (d : StatsByType) st :
  stats_invariant all d ->
  stats_invariant all (if has_type d st then d else d ++ [(st, new_stats)]).
Proof.
  intros [Hnodup Hstamps]. unfold has_type. case_bool_decide as Hin; [done|].
  split.
  - rewrite fmap_app. apply NoDup_app. split; [done|]. split; [|by apply NoDup_singleton].
    intros k Hk ->%list_elem_of_singleton. done.
  - intros k s [Hold|[= -> ->]%list_elem_of_singleton]%elem_of_app; [by apply Hstamps|].
    split; by left.
Qed.

Lemma stats_record_invariant all r d d' :
  r ∈ all -> stats_invariant all d -> stats_record d r = Returned d' ->
  stats_invariant all d'.
Proof.
  intros Hr Hd. unfold stats_record.
  destruct (truthy (dict_get (values r) "sensor_type")); simpl; [|by intros [= <-]].
  destruct (SensorType_of (dict_get (values r) "sensor_type")) as [st|] eqn:Hst;
    [|by intros [= <-]].
  pose proof (with_type_invariant all d st Hd) as Hd0.
  destruct (get_value r) as [value|e]; [|done]. simpl.
  destruct (py_eqb _ (VStr "device_count")).
  { destruct (py_int _) as [n|e]; [|done]. simpl. intros [= <-].
    by apply update_invariant. }
  destruct (py_eqb _ (VStr "measurement_count")).
  { destruct (py_int _) as [n|e]; [|done]. simpl. intros [= <-].
    by apply update_invariant. }
  destruct (py_eqb _ (VStr "first")) eqn:Hfirst.
  { destruct (get_time r) as [t|e] eqn:Ht; [|done]. simpl. intros [= <-].
    apply update_invariant; [done| |done].
    intros s _. right. by exists r. }
  destruct (py_eqb _ (VStr "last")) eqn:Hlast.
  { destruct (get_time r) as [t|e] eqn:Ht; [|done]. simpl. intros [= <-].
    apply update_invariant; [done|done|].
    intros s _. right. by exists r. }
  destruct (py_eqb _ (VStr "min")).
  { destruct (py_float _) as [x|e]; [|done]. simpl. intros [= <-].
    by apply update_invariant. }
  destruct (py_eqb _ (VStr "max")).
  { destruct (py_float _) as [x|e]; [|done]. simpl. intros [= <-].
    by apply update_invariant. }
  destruct (py_eqb _ (VStr "mean")).
  { destruct (py_float _) as [x|e]; [|done]. simpl. intros [= <-].
    by apply update_invariant. }
  by intros [= <-].
Qed.

Lemma stats_records_invariant all rows d d' :
  (∀ r, r ∈ rows -> r ∈ all) -> stats_invariant all d ->
  stats_records d rows = Returned d' -> stats_invariant all d'.
Proof.
  revert d. induction rows as [|r rows IH]; intros d Hall Hd; [by intros [= <-]|].
  cbn [stats_records]. destruct (stats_record d r) as [d1|e] eqn:Hrec; [|done]. simpl.
  apply IH.
  - intros r' Hr'. apply Hall. by right.
  - apply (stats_record_invariant all r d); [apply Hall; by left|done|done].
Qed.

Lemma sensor_stats_spec (d : StatsByType) stats :
  sensor_stats d = Returned stats ->
  sublist (stats_sensor_type <$> stats) d.*1 ∧
  ∀ s, s ∈ stats ->
    ∃ ts, (stats_sensor_type s, ts) ∈ d ∧
          truthy (first_measurement ts) = true ∧
          truthy (last_measurement ts) = true ∧
          as_datetime (first_measurement ts) = Some (stats_first_measurement s) ∧
          as_datetime (last_measurement ts) = Some (stats_last_measurement s).
Proof.
  revert stats. induction d as [|[st ts] d IH]; intros stats.
  - intros [= <-]. split; [constructor|]. by intros s ?%elem_of_nil.
  - cbn [sensor_stats].
    destruct (truthy (first_measurement ts)) eqn:Hf; simpl.
    2:{ intros Hrest. destruct (IH _ Hrest) as [Hsub Hin]. split; [by apply sublist_cons|].
        intros s Hs. destruct (Hin s Hs) as (ts' & ? & ?). exists ts'. split; [by right|done]. }
    destruct (truthy (last_measurement ts)) eqn:Hl; simpl.
    2:{ intros Hrest. destruct (IH _ Hrest) as [Hsub Hin]. split; [by apply sublist_cons|].
        intros s Hs. destruct (Hin s Hs) as (ts' & ? & ?). exists ts'. split; [by right|done]. }
    destruct (as_datetime (first_measurement ts)) as [first|] eqn:Hfirst; [|done].
    destruct (as_datetime (last_measurement ts)) as [last|] eqn:Hlast; [|done].
    destruct (sensor_stats d) as [others|e]; [|done]. simpl. intros [= <-].
    destruct (IH _ eq_refl) as [Hsub Hin]. split; [by apply sublist_skip|].
    intros s [->|Hs]%elem_of_cons.
    + exists ts. simpl. split; [by left|done].
    + destruct (Hin s Hs) as (ts' & ? & ?). exists ts'. split; [by right|done].
Qed.

Lemma sensor_types_at_most_three (l : list SensorType) : NoDup l -> (length l <= 3)%nat.
Proof.
  intros Hl. change 3%nat with (length [TEMPERATURE; HUMIDITY; NDIR]).
  apply submseteq_length, NoDup_submseteq; [done|].
  intros [] _; set_solver.
Qed.

End StatsFacts.

(** X23.  Whenever [get_sensor_type_stats] returns, its list has at most
    one entry per sensor type, hence at most three entries, and every entry
    rests on rows of the answer: a row of that sensor type tagged first
    whose time is the entry's first_measurement, and one tagged last whose
    time is its last_measurement.  A sensor type without such a pair of
    rows has no entry. *)
Theorem sensor_stats_one_entry_per_type {parsers : Py.Parsers} {W : Type}
    (self : Influx.InfluxDBService) (store : Influx.Store W) (w w1 : W)
    (stats : list InfluxQueries.SensorTypeStats) :
  InfluxQueries.get_sensor_type_stats self store w = (Returned stats, w1) ->
  NoDup (InfluxQueries.stats_sensor_type <$> stats) ∧
  (length stats <= 3)%nat ∧
  ∃ tables,
    store (InfluxQueries.stats_query self) w = (Returned tables, w1) ∧
    ∀ s, s ∈ stats ->
      (∃ r t, r ∈ concat tables ∧
              History.SensorType_of (Py.dict_get (Influx.values r) "sensor_type")
                = Some (InfluxQueries.stats_sensor_type s) ∧
              Py.py_eqb (Py.dict_get (Influx.values r) "stat") (Py.VStr "first") = true ∧
              Influx.get_time r = Returned t ∧
              Influx.as_datetime t = Some (InfluxQueries.stats_first_measurement s)) ∧
      (∃ r t, r ∈ concat tables ∧
              History.SensorType_of (Py.dict_get (Influx.values r) "sensor_type")
                = Some (InfluxQueries.stats_sensor_type s) ∧
              Py.py_eqb (Py.dict_get (Influx.values r) "stat") (Py.VStr "last") = true ∧
              Influx.get_time r = Returned t ∧
              Influx.as_datetime t = Some (InfluxQueries.stats_last_measurement s)).
Proof.
  unfold InfluxQueries.get_sensor_type_stats.
  destruct (store _ w) as [[tables|e] w'] eqn:Hstore; [|done].
  destruct (InfluxQueries.stats_records [] (concat tables)) as [d|e] eqn:Hrecords; [|done].
  destruct (InfluxQueries.sensor_stats d) as [stats'|e] eqn:Hstats; [|done].
  intros [= -> ->].
  assert (Hinv : InfluxQueries.stats_invariant (concat tables) d).
  { apply (stats_records_invariant (concat tables) (concat tables) []); [done| |done].
    split; [constructor|]. by intros st s ?%elem_of_nil. }
  destruct Hinv as [Hnodup Hstamps].
  apply sensor_stats_spec in Hstats as [Hsub Hentries].
  assert (Hnd : NoDup (InfluxQueries.stats_sensor_type <$> stats))
    by (eapply sublist_NoDup; eauto).
  split; [done|]. split.
  { rewrite <-(length_fmap InfluxQueries.stats_sensor_type).
    by apply sensor_types_at_most_three. }
  exists tables. split; [done|]. intros s Hs.
  destruct (Hentries s Hs) as (ts & Hts & Hf & Hl & Hfirst & Hlast).
  destruct (Hstamps _ _ Hts) as [[Hnone|(r1 & ? & ? & ? & ?)] [Hnone'|(r2 & ? & ? & ? & ?)]].
  - by rewrite Hnone in Hf.
  - by rewrite Hnone in Hf.
  - by rewrite Hnone' in Hl.
  - split; [by exists r1, (InfluxQueries.first_measurement ts)
           |by exists r2, (InfluxQueries.last_measurement ts)].
Qed.

Lemma sensor_stats_one_entry_per_type_witness :
  ∃ stats,
    (InfluxQueries.get_sensor_type_stats (parsers := plain_parsers) test_influx
       (scripted_store
          [[[type_stat_row "temperature" "first" 100 (Py.VFloat (43 # 2));
             type_stat_row "temperature" "last" 200 (Py.VFloat (45 # 2));
             type_stat_row "humidity" "first" 100 (Py.VFloat (40 # 1))]]])
       0%nat).1 = Returned stats ∧
    (length stats <= 3)%nat ∧ NoDup (InfluxQueries.stats_sensor_type <$> stats).
Proof.
  eexists. split; [reflexivity|].
  destruct (sensor_stats_one_entry_per_type (parsers := plain_parsers) test_influx
              (scripted_store
                 [[[type_stat_row "temperature" "first" 100 (Py.VFloat (43 # 2));
                    type_stat_row "temperature" "last" 200 (Py.VFloat (45 # 2));
                    type_stat_row "humidity" "first" 100 (Py.VFloat (40 # 1))]]])
              0%nat 1%nat _ eq_refl) as (Hnodup & Hlen & _).
  by split.
Defined.

(** ** Bounds on one publish *)

Section PublishBoundFacts.
Import Py PubSub.

Lemma wait_exponential_bounds (n : nat) : 1 <= wait_exponential 1 1 10 n <= 10.
Proof. unfold wait_exponential. lia. Qed.

Lemma attempt_loop_delays {V E A : Type} (retry_on : E -> bool) (wait : nat -> Z)
    reraise stop_after left (fn : V -> PyResult E A * V) v (P : Z -> Prop) :
  (∀ n, P (wait n)) ->
  (length (attempt_loop retry_on wait reraise stop_after left fn v).1.2 <= left)%nat ∧
  Forall P (attempt_loop retry_on wait reraise stop_after left fn v).1.2.
Proof.
  intros Hwait. revert v. induction left as [|left IH]; intros v; cbn [attempt_loop].
  - destruct (fn v) as [[r|e] v']; [by split|]. destruct (retry_on e); by split.
  - destruct (fn v) as [[r|e] v']; [split; [simpl; lia|done]|].
    destruct (retry_on e); [|split; [simpl; lia|done]].
    destruct (IH v') as [Hlen Hall].
    destruct (attempt_loop _ _ _ _ _ _ _) as [[r ds] v'']. simpl in *.
    split; [lia|by constructor].
Qed.

Lemma sum_bounded (ds : list Z) (n : nat) :
  (length ds <= n)%nat -> Forall (λ d, 1 <= d <= 10) ds ->
  0 <= foldr Z.add 0 ds <= 10 * Z.of_nat n.
Proof.
  revert n. induction ds as [|d ds IH]; intros n Hlen Hall; simpl in *; [lia|].
  apply Forall_cons in Hall as [Hd Hall].
  destruct n as [|n]; [lia|]. specialize (IH n ltac:(lia) Hall). lia.
Qed.

End PublishBoundFacts.

(** X24.  Whatever the transport does, the back-off of one call of
    [_publish_message] is bounded: it sleeps at most twice, each sleep
    lasts between 1 and 10 seconds, so retrying adds at most 20 seconds of
    waiting to a publish. *)
Theorem backoff_sleeps_are_bounded {W : Type} (self : PubSub.PubSubService)
    (client : PubSub.Transport W) (topic : string) (msg : gmap string Py.JsonToken) (w : W) :
  let delays := (PubSub._publish_message self client topic msg w).1.2 in
  (length delays <= 2)%nat ∧
  Forall (λ d, 1 <= d <= 10) delays ∧
  foldr Z.add 0 delays <= 20.
Proof.
  intros delays. subst delays. unfold PubSub._publish_message, PubSub.retry.
  destruct (attempt_loop_delays PubSub.is_transient (PubSub.wait_exponential 1 1 10) false
              PubSub.max_attempts (PubSub.max_attempts - 1)
              (PubSub._publish_message_body self client topic msg) w
              (λ d, 1 <= d <= 10) wait_exponential_bounds) as [Hlen Hall].
  split; [exact Hlen|]. split; [exact Hall|].
  pose proof (sum_bounded _ 2 Hlen Hall). lia.
Qed.

(** X25.  One call of [publish_sensor_data] on the real transport hands
    the transport at most three messages, all of them the same message on
    the same topic path, whatever the state of the breaker, the reading and
    the behaviour of the transport. *)
Theorem publish_hands_over_at_most_three {parsers : Py.Parsers} {W : Type}
    (self : PubSub.PubSubService) (cb : Breaker.CircuitBreaker) (env : PubSub.Env)
    (client : PubSub.Transport W) (sensor_type : string) (data : gmap string Py.PyVal)
    (w : W) (log : list (string * gmap string Py.JsonToken)) :
  PubSub.backend self = PubSub.RealBackend cb ->
  ∃ n entry,
    (n <= 3)%nat ∧
    (PubSub.publish_sensor_data self env (PubSub.recording client) sensor_type data
       (log, w)).2.1
    = log ++ replicate n entry.
Proof.
  intros Hreal. unfold PubSub.publish_sensor_data. rewrite Hreal.
  destruct (PubSub.get_topic_path self sensor_type) as [path|e] eqn:Hpath.
  2:{ exists 0%nat, ("", ∅). split; [lia|]. simpl. by rewrite app_nil_r. }
  destruct (PubSub._transform_data_for_avro_schema _ data) as [transformed|e] eqn:Ht.
  2:{ exists 0%nat, ("", ∅). split; [lia|]. simpl. by rewrite app_nil_r. }
  unfold Breaker.call.
  destruct (Breaker.entry_check cb _) as [cb1|] eqn:Hentry.
  2:{ exists 0%nat, ("", ∅). split; [lia|]. simpl. by rewrite app_nil_r. }
  assert (Hmode : PubSub.using_mock self = false).
  { unfold PubSub.using_mock. by rewrite Hreal. }
  destruct (attempt_loop_bounded self client path (Py.json_dumps transformed)
              (PubSub.wait_exponential 1 1 10) false PubSub.max_attempts
              (PubSub.max_attempts - 1) log w Hmode) as (n & Hn & _ & Hlog).
  unfold PubSub._publish_message, PubSub.retry.
  destruct (PubSub.attempt_loop _ _ _ _ _ _ _) as [[r ds] [log' w']]. simpl in Hlog.
  subst log'. exists (S n), (path, Py.json_dumps transformed).
  split; [unfold PubSub.max_attempts in Hn; lia|]. by destruct r.
Qed.

Lemma publish_hands_over_at_most_three_witness :
  ∃ n entry,
    (n <= 3)%nat ∧
    (PubSub.publish_sensor_data (parsers := plain_parsers) real_service test_env
       (PubSub.recording unavailable_transport) "temperature" float_reading ([], 0%nat)).2.1
    = [] ++ replicate n entry.
Proof.
  exact (publish_hands_over_at_most_three (parsers := plain_parsers) real_service
           (Breaker.init 5 60) test_env unavailable_transport "temperature"
           float_reading 0%nat [] eq_refl).
Defined.

(** ** An outage of the transport *)

Section OutageFacts.
Import Py PubSub PublishRuns.
Context {parsers : Parsers} {W : Type}.

Lemma publish_during_outage self cb env (client : Transport W) sensor_type data log w :
  transport_down client ->
  backend self = RealBackend cb ->
  Breaker.state cb = Breaker.CLOSED ->
  reaches_transport self (env, sensor_type, data) ->
  ∃ e log' w',
    publish_sensor_data self env (recording client) sensor_type data (log, w)
    = (Raised (FromBreaker (Breaker.Propagated (RetryError e))),
       with_breaker self (Breaker._on_failure cb (Breaker.at_failure (clk env))),
       (log', w')) ∧
    length log' = (length log + 3)%nat.
Proof.
  intros Hdown Hreal Hclosed [(topic_name & Hmap & Hname) Hconv]. simpl in *.
  destruct (_transform_data_for_avro_schema (utcnow_iso env) data) as [transformed|]
    eqn:Ht; [|done].
  pose proof (mapped_topic_path self cb sensor_type topic_name Hreal Hmap Hname) as Hpath.
  set (path := "projects/" +:+ project_id self +:+ "/topics/" +:+ topic_name) in *.
  assert (Hmode : using_mock self = false).
  { unfold using_mock. by rewrite Hreal. }
  assert (Hbody : ∀ w0, _publish_message_body self client path (json_dumps transformed) w0
                        = client path (json_dumps transformed) w0).
  { intros w0. unfold _publish_message_body. by rewrite Hmode. }
  destruct (Hdown path (json_dumps transformed) w) as (e1 & w1 & H1 & Ht1).
  destruct (Hdown path (json_dumps transformed) w1) as (e2 & w2 & H2 & Ht2).
  destruct (Hdown path (json_dumps transformed) w2) as (e3 & w3 & H3 & Ht3).
  destruct (publish_message_exhausted self client path (json_dumps transformed)
              w w2 e3 w3 log Hmode) as [delays Hrun].
  { eapply streak_cons; [by rewrite Hbody|done|].
    eapply streak_cons; [by rewrite Hbody|done|]. apply streak_nil. }
  { by rewrite Hbody. }
  { done. }
  exists e3, (log ++ replicate 3 (path, json_dumps transformed)), w3.
  split; [|by rewrite length_app, length_replicate].
  unfold publish_sensor_data. rewrite Hreal, Hpath, Ht.
  unfold Breaker.call, Breaker.entry_check. rewrite Hclosed. by rewrite Hrun.
Qed.

Lemma reaches_transport_with_breaker self cb call :
  reaches_transport self call -> reaches_transport (with_breaker self cb) call.
Proof. done. Qed.

Lemma outage_run N (self : PubSubService) (client : Transport W) calls :
  transport_down client ->
  Forall (reaches_transport self) calls ->
  ∀ cb log w,
    Breaker.state cb = Breaker.CLOSED ->
    Breaker.failure_threshold cb = N ->
    Breaker.failure_count cb + Z.of_nat (length calls) <= N ->
    ∃ cb' rs log' w',
      publish_run (with_breaker self cb) (recording client) calls (log, w)
      = (rs, with_breaker self cb', (log', w')) ∧
      length log' = (length log + 3 * length calls)%nat ∧
      Forall (λ r, ∃ e, r = Raised (FromBreaker (Breaker.Propagated (RetryError e)))) rs ∧
      Breaker.failure_threshold cb' = N ∧
      Breaker.failure_count cb' = Breaker.failure_count cb + Z.of_nat (length calls) ∧
      (calls ≠ [] ->
       Breaker.state cb' = if N <=? Breaker.failure_count cb' then Breaker.OPEN
                           else Breaker.CLOSED).
Proof.
  intros Hdown Hcalls. induction Hcalls as [|[[env sensor_type] data] calls Hcall _ IH];
    intros cb log w Hclosed HN Hcount.
  - exists cb, [], log, w. simpl. repeat split; try done; lia.
  - cbn [publish_run].
    destruct (publish_during_outage (with_breaker self cb) cb env client sensor_type data
                log w Hdown eq_refl Hclosed (reaches_transport_with_breaker _ _ _ Hcall))
      as (e & log1 & w1 & -> & Hlog1).
    set (cb1 := Breaker._on_failure cb (Breaker.at_failure (clk env))).
    change (with_breaker (with_breaker self cb) cb1) with (with_breaker self cb1).
    assert (Hcount1 : Breaker.failure_count cb1 = Breaker.failure_count cb + 1) by done.
    assert (HN1 : Breaker.failure_threshold cb1 = N) by done.
    assert (Hstate1 : Breaker.state cb1
                      = if N <=? Breaker.failure_count cb1 then Breaker.OPEN
                        else Breaker.CLOSED).
    { unfold cb1, Breaker._on_failure. simpl. rewrite HN, Hclosed.
      by destruct (N <=? Breaker.failure_count cb + 1). }
    destruct calls as [|call calls].
    + exists cb1, [Raised (FromBreaker (Breaker.Propagated (RetryError e)))], log1, w1.
      simpl. split; [done|]. split; [lia|]. split; [repeat constructor; by eexists|].
      split; [done|]. split; [lia|]. intros _. exact Hstate1.
    + simpl length in Hcount.
      assert (Hclosed1 : Breaker.state cb1 = Breaker.CLOSED).
      { rewrite Hstate1. destruct (Z.leb_spec N (Breaker.failure_count cb1)); [lia|done]. }
      destruct (IH cb1 log1 w1 Hclosed1 HN1 ltac:(simpl length; lia))
        as (cb' & rs & log' & w' & -> & Hlog' & Hrs & HN' & Hcount' & Hstate').
      exists cb', (Raised (FromBreaker (Breaker.Propagated (RetryError e))) :: rs), log', w'.
      split; [done|]. split; [simpl length in *; lia|].
      split; [constructor; [by eexists|done]|]. split; [done|].
      split; [simpl length in *; lia|]. intros _. by apply Hstate'.
Qed.

End OutageFacts.

(** X26.  During an outage of the transport (every attempt raises a
    transient error), a service on the real transport whose breaker has
    just been built with threshold N >= 1 makes N publishes that each use
    up their three attempts and each raise the RetryError: the transport has
    then been called 3 * N times in all, the breaker has counted N failures
    and is OPEN, so that the service stops calling the transport. *)
Theorem outage_opens_breaker_after_threshold_publishes {parsers : Py.Parsers} {W : Type}
    (self : PubSub.PubSubService) (client : PubSub.Transport W) (N T : Z)
    (calls : list (PubSub.Env * string * gmap string Py.PyVal)) (w : W) :
  PubSub.backend self = PubSub.RealBackend (Breaker.init N T) ->
  0 < N ->
  Z.of_nat (length calls) = N ->
  PublishRuns.transport_down client ->
  Forall (PublishRuns.reaches_transport self) calls ->
  ∃ cb' rs log' w',
    PublishRuns.publish_run self (PubSub.recording client) calls ([], w)
      = (rs, PubSub.with_breaker self cb', (log', w')) ∧
    Z.of_nat (length log') = 3 * N ∧
    Forall (λ r, ∃ e, r = Raised (PubSub.FromBreaker
                                    (Breaker.Propagated (PubSub.RetryError e)))) rs ∧
    Breaker.state cb' = Breaker.OPEN ∧
    Breaker.failure_count cb' = N.
Proof.
  intros Hreal HN Hlen Hdown Hcalls.
  destruct (outage_run N self client calls Hdown Hcalls (Breaker.init N T) [] w
              eq_refl eq_refl ltac:(simpl; lia))
    as (cb' & rs & log' & w' & Hrun & Hlog & Hrs & _ & Hcount & Hstate).
  rewrite (with_breaker_same self _ Hreal) in Hrun.
  exists cb', rs, log', w'. split; [done|]. split; [simpl in Hlog; lia|].
  split; [done|]. simpl in Hcount. split; [|lia].
  rewrite Hstate; [|by intros ->; simpl in Hlen; lia].
  destruct (Z.leb_spec N (Breaker.failure_count cb')); [done|lia].
Qed.

Lemma outage_opens_breaker_after_threshold_publishes_witness :
  ∃ cb' rs log' w',
    PublishRuns.publish_run (parsers := plain_parsers) sensitive_service
      (PubSub.recording unavailable_transport)
      [(test_env, "temperature", float_reading); (test_env, "humidity", float_reading)]
      ([], 0%nat)
      = (rs, PubSub.with_breaker sensitive_service cb', (log', w')) ∧
    Z.of_nat (length log') = 3 * 2 ∧
    Breaker.state cb' = Breaker.OPEN.
Proof.
  destruct (outage_opens_breaker_after_threshold_publishes (parsers := plain_parsers)
              sensitive_service unavailable_transport 2 60
              [(test_env, "temperature", float_reading); (test_env, "humidity", float_reading)]
              0%nat eq_refl ltac:(lia) eq_refl
              (λ _ _ w, ex_intro _ PubSub.ServiceUnavailable
                          (ex_intro _ (S w) (conj eq_refl eq_refl)))
              ltac:(repeat constructor; by eexists))
    as (cb' & rs & log' & w' & Hrun & Hlog & _ & Hstate & _).
  by exists cb', rs, log', w'.
Defined.
